(** * campusSafeGuard: alert, chat and notification routes

    A shallow embedding of the Express routes of [server/routes.ts], the
    storage layer of [server/storage.ts] and the table and validation schemas
    of [shared/schema.ts].

    - PostgreSQL tables are lists of rows, newest insert last; the text
      columns keep their string values, held as UTF-8 bytes, timestamps are
      integers;
    - request bodies are JSON values, validated by the zod schemas;
    - a route is a function from the server state, the request and the
      environment of the request (clock, generated uuid, salt) to a response
      and the next state;
    - the WebSocket registry [clients] is a finite map from user ids to
      finite sets of socket references. *)

From Stdlib Require Import ZArith.
From stdpp Require Import gmap strings list sorting functions.

Local Open Scope string_scope.
Local Open Scope Z_scope.
Set Warnings "-register-all".

(** ** JavaScript values *)

Inductive json :=
  | JNull
  | JBool (b : bool)
  | JNum (n : Z)
  | JStr (s : string)
  | JArr (items : list json)
  | JObj (fields : list (string * json)).

(** [o[k]] on a parsed JSON object, which holds each key once; [None] is
    [undefined]. *)
Fixpoint assoc (k : string) (fields : list (string * json)) : option json :=
  match fields with
  | [] => None
  | (k', v) :: rest => if String.eqb k k' then Some v else assoc k rest
  end.

Definition field (k : string) (body : json) : option json :=
  match body with
  | JObj fields => assoc k fields
  | _ => None
  end.

(** Truthiness of a string that may be [undefined]. *)
Definition truthy (s : option string) : bool :=
  match s with
  | Some s => negb (String.eqb s "")
  | None => false
  end.

Definition includes (l : list string) (s : string) : bool :=
  existsb (String.eqb s) l.

(** [s.length], the number of UTF-16 code units of a string. A string is
    held as its UTF-8 bytes: a byte [0xxxxxxx], [110xxxxx] or [1110xxxx]
    starts a character of one code unit, a byte [11110xxx] with the three
    bytes after it is a character outside the basic plane and takes two code
    units (a surrogate pair), and a continuation byte [10xxxxxx] adds
    nothing. On bytes that are no UTF-8 (a byte [11110xxx] with fewer than
    three bytes after it counts one) the number is at most the number of
    bytes. *)
Definition continuation (b : Ascii.ascii) : bool :=
  let n := Ascii.nat_of_ascii b in ((128 <=? n) && (n <? 192))%nat.

Definition lead4 (b : Ascii.ascii) : bool :=
  (240 <=? Ascii.nat_of_ascii b)%nat.

Fixpoint js_length (s : string) : nat :=
  match s with
  | EmptyString => 0%nat
  | String b rest =>
      if continuation b then js_length rest
      else if lead4 b then
        match rest with
        | String _ (String _ (String _ rest')) => (2 + js_length rest')%nat
        | _ => (1 + js_length rest)%nat
        end
      else (1 + js_length rest)%nat
  end.

(** ** shared/schema.ts: tables *)

Module User.
Record t := mk {
    id : string;
    email : string;
    password : string;
    role : string;
    department : option string;
    fullName : option string;
    phoneNumber : option string;
    isActive : bool;
    createdAt : Z;
    lastLogin : option Z;
  }.
End User.

Module Alert.
Record t := mk {
    id : string;
    userId : string;
    department : string;
    status : string;
    latitude : option string;
    longitude : option string;
    locationName : option string;
    locationAccuracy : option string;
    situationData : option json;
    responseNotes : option string;
    acknowledgedAt : option Z;
    dispatchedAt : option Z;
    resolvedAt : option Z;
    acknowledgedBy : option string;
    createdAt : Z;
  }.
End Alert.

Module ChatSession.
Record t := mk {
    id : string;
    userId : string;
    department : string;
    anonymousId : string;
    status : string;
    lastMessageAt : option Z;
    createdAt : Z;
    closedAt : option Z;
  }.
End ChatSession.

Module Message.
Record t := mk {
    id : string;
    sessionId : string;
    senderId : string;
    senderRole : string;
    content : string;
    fileUrl : option string;
    fileName : option string;
    isRead : bool;
    createdAt : Z;
  }.
End Message.

Module AuditLog.
Record t := mk {
    id : string;
    userId : string;
    action : string;
    targetType : option string;
    targetId : option string;
    details : option json;
    createdAt : Z;
  }.
End AuditLog.

Record Db := mkDb {
  users : list User.t;
  alerts : list Alert.t;
  chatSessions : list ChatSession.t;
  messages : list Message.t;
  auditLogs : list AuditLog.t;
}.

(** What a request draws from outside the program: the time of its first
    timestamp ([new Date()] or the database's [defaultNow()]; a request that
    takes a second one has it as a parameter of its own),
    [gen_random_uuid()] and the salt of [bcrypt.hash]. *)
Record Env := mkEnv {
  now : Z;
  uuid : string;
  salt : string;
}.

(** ** shared/schema.ts: zod schemas *)

Definition statusEnum : list string :=
  ["pending"; "acknowledged"; "dispatched"; "resolved"].
Definition alertDepartmentEnum : list string := ["medical"; "security"].
Definition chatDepartmentEnum : list string := ["medical"; "security"; "guidance"].
Definition senderRoleEnum : list string := ["student"; "staff"].
Definition roleEnum : list string := ["student"; "staff"; "admin"].
Definition userDepartmentEnum : list string :=
  ["medical"; "security"; "guidance"; "none"].

(** A validator returns [None] when zod throws. *)
Definition z_string (v : option json) : option string :=
  match v with
  | Some (JStr s) => Some s
  | _ => None
  end.

Definition z_enum (values : list string) (v : option json) : option string :=
  match v with
  | Some (JStr s) => if includes values s then Some s else None
  | _ => None
  end.

(** [z.string().max(n)], which drizzle-zod gives a [varchar(n)] column. *)
Definition z_max (n : nat) (v : option json) : option string :=
  s ← z_string v; if bool_decide (js_length s ≤ n)%nat then Some s else None.

(** [.optional()]: a missing key is accepted and stays missing. *)
Definition z_optional {A} (z : option json → option A) (v : option json)
    : option (option A) :=
  match v with
  | None => Some None
  | Some _ => Some <$> z v
  end.

(** [.nullable().optional()], as drizzle-zod gives a nullable column:
    [null] and a missing key both end as SQL NULL. *)
Definition z_nullish {A} (z : option json → option A) (v : option json)
    : option (option A) :=
  match v with
  | None | Some JNull => Some None
  | Some _ => Some <$> z v
  end.

(** A [jsonb] column takes any JSON value. *)
Definition z_json (v : option json) : option json := v.

Module InsertAlert.
Record t := mk {
    userId : string;
    department : string;
    status : option string;
    latitude : option string;
    longitude : option string;
    locationName : option string;
    locationAccuracy : option string;
    situationData : option json;
    responseNotes : option string;
  }.
End InsertAlert.

(** [createInsertSchema(alerts).omit({id, createdAt, acknowledgedAt,
    dispatchedAt, resolvedAt, acknowledgedBy})]: [status] and [userId]
    stay in the schema; [userId] is a [varchar(36)]. *)
Definition insertAlertSchema (body : json) : option InsertAlert.t :=
  userId ← z_max 36 (field "userId" body);
  department ← z_enum alertDepartmentEnum (field "department" body);
  status ← z_optional (z_enum statusEnum) (field "status" body);
  latitude ← z_nullish z_string (field "latitude" body);
  longitude ← z_nullish z_string (field "longitude" body);
  locationName ← z_nullish z_string (field "locationName" body);
  locationAccuracy ← z_nullish z_string (field "locationAccuracy" body);
  situationData ← z_nullish z_json (field "situationData" body);
  responseNotes ← z_nullish z_string (field "responseNotes" body);
  Some (InsertAlert.mk userId department status latitude longitude
          locationName locationAccuracy situationData responseNotes).

Module UpdateAlertStatus.
Record t := mk {
    status : string;
    responseNotes : option string;
  }.
End UpdateAlertStatus.

Definition updateAlertStatusSchema (body : json) : option UpdateAlertStatus.t :=
  status ← z_enum statusEnum (field "status" body);
  responseNotes ← z_optional z_string (field "responseNotes" body);
  Some (UpdateAlertStatus.mk status responseNotes).

(** ** server/storage.ts *)

(** A statement that PostgreSQL rejects throws; the route's [catch] turns
    the exception into a response. *)
Inductive Error :=
  | ZodError
  | UniqueViolation (constraint : string)
  | ForeignKeyViolation (constraint : string).

Definition error_message (e : Error) : string :=
  match e with
  | ZodError => "ZodError"
  | UniqueViolation c => "duplicate key value violates unique constraint " +:+ c
  | ForeignKeyViolation c => "violates foreign key constraint " +:+ c
  end.

(** [orderBy(column)] and [orderBy(desc(column))] on a timestamp column. *)
Definition asc {A} (column : A → Z) : relation A :=
  λ x y, column x ≤ column y.
Definition desc {A} (column : A → Z) : relation A :=
  λ x y, column y ≤ column x.

Global Instance asc_dec {A} (column : A → Z) x y : Decision (asc column x y).
Proof. unfold asc. apply _. Defined.
Global Instance desc_dec {A} (column : A → Z) x y : Decision (desc column x y).
Proof. unfold desc. apply _. Defined.

Definition getUser (d : Db) (id : string) : option User.t :=
  head (filter (λ u, User.id u = id) (users d)).

Definition getUserByEmail (d : Db) (email : string) : option User.t :=
  head (filter (λ u, User.email u = email) (users d)).

(** [orderBy(desc(users.createdAt))] *)
Definition getAllUsers (d : Db) : list User.t :=
  merge_sort (desc User.createdAt) (users d).

Definition getAlert (d : Db) (id : string) : option Alert.t :=
  head (filter (λ a, Alert.id a = id) (alerts d)).

Definition getAlertsByDepartment (d : Db) (department : string) : list Alert.t :=
  merge_sort (desc Alert.createdAt)
    (filter (λ a, Alert.department a = department) (alerts d)).

Definition with_alerts (d : Db) (l : list Alert.t) : Db :=
  mkDb (users d) l (chatSessions d) (messages d) (auditLogs d).

Definition with_users (d : Db) (l : list User.t) : Db :=
  mkDb l (alerts d) (chatSessions d) (messages d) (auditLogs d).

Definition with_auditLogs (d : Db) (l : list AuditLog.t) : Db :=
  mkDb (users d) (alerts d) (chatSessions d) (messages d) l.

(** [db.insert(alerts).values(insertAlert).returning()]: the columns left
    out take their defaults ([id], [status], [createdAt]) or NULL; the
    primary key and the reference to [users.id] are checked. *)
Definition createAlert (d : Db) (env : Env) (insertAlert : InsertAlert.t)
    : Error + (Alert.t * Db) :=
  let alert :=
    Alert.mk (uuid env)
      (InsertAlert.userId insertAlert)
      (InsertAlert.department insertAlert)
      (default "pending" (InsertAlert.status insertAlert))
      (InsertAlert.latitude insertAlert)
      (InsertAlert.longitude insertAlert)
      (InsertAlert.locationName insertAlert)
      (InsertAlert.locationAccuracy insertAlert)
      (InsertAlert.situationData insertAlert)
      (InsertAlert.responseNotes insertAlert)
      None None None None
      (now env) in
  if bool_decide (is_Some (getAlert d (Alert.id alert))) then
    inl (UniqueViolation "alerts_pkey")
  else if bool_decide (getUser d (Alert.userId alert) = None) then
    inl (ForeignKeyViolation "alerts_user_id_users_id_fk")
  else inr (alert, with_alerts d (alerts d ++ [alert])).

(** The keys the routes put in the [Partial<Alert>] given to
    [updateAlert]; a key that is [None] is absent from the object and its
    column keeps its value. *)
Module PartialAlert.
Record t := mk {
    status : option string;
    responseNotes : option string;
    acknowledgedAt : option Z;
    acknowledgedBy : option string;
    dispatchedAt : option Z;
    resolvedAt : option Z;
  }.
End PartialAlert.

Definition set_column {A} (new : option A) (old : option A) : option A :=
  match new with
  | Some v => Some v
  | None => old
  end.

Definition set_alert (data : PartialAlert.t) (a : Alert.t) : Alert.t :=
  Alert.mk (Alert.id a) (Alert.userId a) (Alert.department a)
    (default (Alert.status a) (PartialAlert.status data))
    (Alert.latitude a) (Alert.longitude a)
    (Alert.locationName a) (Alert.locationAccuracy a)
    (Alert.situationData a)
    (set_column (PartialAlert.responseNotes data) (Alert.responseNotes a))
    (set_column (PartialAlert.acknowledgedAt data) (Alert.acknowledgedAt a))
    (set_column (PartialAlert.dispatchedAt data) (Alert.dispatchedAt a))
    (set_column (PartialAlert.resolvedAt data) (Alert.resolvedAt a))
    (set_column (PartialAlert.acknowledgedBy data) (Alert.acknowledgedBy a))
    (Alert.createdAt a).

(** [db.update(alerts).set(data).where(eq(alerts.id, id)).returning()] *)
Definition updateAlert (d : Db) (id : string) (data : PartialAlert.t)
    : option Alert.t * Db :=
  let rows :=
    (λ a, if decide (Alert.id a = id) then set_alert data a else a)
      <$> alerts d in
  (head (filter (λ a, Alert.id a = id) rows), with_alerts d rows).

(** [where(eq(messages.sessionId, sessionId)).orderBy(messages.createdAt)] *)
Definition getMessagesBySession (d : Db) (sessionId : string) : list Message.t :=
  merge_sort (asc Message.createdAt)
    (filter (λ m, Message.sessionId m = sessionId) (messages d)).

Definition getChatSession (d : Db) (id : string) : option ChatSession.t :=
  head (filter (λ s, ChatSession.id s = id) (chatSessions d)).

(** ** server/routes.ts: the WebSocket registry *)

Definition CONNECTING : Z := 0.
Definition OPEN : Z := 1.
Definition CLOSING : Z := 2.
Definition CLOSED : Z := 3.

Inductive WsEvent :=
  | new_alert (alertId : string) (department : string) (alert : Alert.t)
  | alert_updated (alertId : string) (status : string)
  | chat_message (sessionId : string) (message : Message.t).

(** The state of the process: the database, the registry [clients] (a
    [Map<string, Set<WebSocket>>], sockets are references), the [readyState]
    of every socket and the frames [sent] on it so far. *)
Record Server := mkServer {
  db : Db;
  clients : gmap string (gset nat);
  readyState : nat → Z;
  sent : nat → list WsEvent;
}.

Definition with_db (srv : Server) (d : Db) : Server :=
  mkServer d (clients srv) (readyState srv) (sent srv).

Definition with_clients (srv : Server) (c : gmap string (gset nat)) : Server :=
  mkServer (db srv) c (readyState srv) (sent srv).

(** The callback of [wss.handleUpgrade], run once the session cookie of the
    upgrade request has been verified for [userId]. *)
Definition register (userId : string) (ws : nat)
    (c : gmap string (gset nat)) : gmap string (gset nat) :=
  let c := if bool_decide (is_Some (c !! userId)) then c else <[userId := ∅]> c in
  alter (λ s, s ∪ {[ws]}) userId c.

(** [ws.on('close', ...)] *)
Definition unregister (userId : string) (ws : nat)
    (c : gmap string (gset nat)) : gmap string (gset nat) :=
  if bool_decide (is_Some (c !! userId)) then
    let c := alter (λ s, s ∖ {[ws]}) userId c in
    match c !! userId with
    | Some s => if bool_decide (size s = 0%nat) then delete userId c else c
    | None => c
    end
  else c.

Definition on_upgrade (userId : string) (ws : nat) (srv : Server) : Server :=
  mkServer (db srv) (register userId ws (clients srv))
    (<[ws := OPEN]> (readyState srv)) (sent srv).

Definition on_close (userId : string) (ws : nat) (srv : Server) : Server :=
  mkServer (db srv) (unregister userId ws (clients srv))
    (<[ws := CLOSED]> (readyState srv)) (sent srv).

(** [client.send(data)] *)
Definition send (data : WsEvent) (client : nat) (srv : Server) : Server :=
  mkServer (db srv) (clients srv) (readyState srv)
    (<[client := (sent srv client ++ [data])%list]> (sent srv)).

Definition send_if_open (data : WsEvent) (client : nat) (srv : Server) : Server :=
  if bool_decide (readyState srv client = OPEN) then send data client srv
  else srv.

Definition broadcastToUser (userId : string) (message : WsEvent)
    (srv : Server) : Server :=
  match clients srv !! userId with
  | Some userClients => set_fold (send_if_open message) srv userClients
  | None => srv
  end.

Definition broadcastToAll (message : WsEvent) (srv : Server) : Server :=
  map_fold (λ _ userClients acc, set_fold (send_if_open message) acc userClients)
    srv (clients srv).

(** ** server/routes.ts: responses and middleware *)

Module UserWithoutPassword.
Record t := mk {
    id : string;
    email : string;
    role : string;
    department : option string;
    fullName : option string;
    phoneNumber : option string;
    isActive : bool;
    createdAt : Z;
    lastLogin : option Z;
  }.
End UserWithoutPassword.

(** [const { password: _, ...userWithoutPassword } = user] *)
Definition omit_password (user : User.t) : UserWithoutPassword.t :=
  UserWithoutPassword.mk (User.id user) (User.email user) (User.role user)
    (User.department user) (User.fullName user) (User.phoneNumber user)
    (User.isActive user) (User.createdAt user) (User.lastLogin user).

(** What [res.json] is given. *)
Inductive Body :=
  | BMessage (message : string)
  | BUser (user : UserWithoutPassword.t)
  | BUserRow (user : UserWithoutPassword.t)
  | BUsers (users : list UserWithoutPassword.t)
  | BAlert (alert : Alert.t)
  | BAlerts (alerts : list Alert.t)
  | BMessages (messages : list Message.t)
  | BUndefined.

Module Response.
Record t := mk {
    status : Z;
    body : Body;
  }.
End Response.

Definition json_message (code : Z) (message : string) : Response.t :=
  Response.mk code (BMessage message).

(** [error.message || fallback] *)
Definition message_or (e : Error) (fallback : string) : string :=
  if String.eqb (error_message e) "" then fallback else error_message e.

(** [requireAuth]; on success the route reads [req.session.userId!]. *)
Definition requireAuth (session : option string) : Response.t + string :=
  match session with
  | Some userId =>
      if truthy session then inr userId else inl (json_message 401 "Unauthorized")
  | None => inl (json_message 401 "Unauthorized")
  end.

(** [requireRole(...roles)]; on success the user is attached to the
    request. *)
Definition requireRole (roles : list string) (d : Db) (session : option string)
    : Response.t + User.t :=
  match requireAuth session with
  | inl r => inl r
  | inr userId =>
      match getUser d userId with
      | Some user =>
          if includes roles (User.role user) then inr user
          else inl (json_message 403 "Forbidden")
      | None => inl (json_message 403 "Forbidden")
      end
  end.

(** ** server/routes.ts: alert routes *)

Definition with_userId (data : InsertAlert.t) (userId : string) : InsertAlert.t :=
  InsertAlert.mk userId (InsertAlert.department data) (InsertAlert.status data)
    (InsertAlert.latitude data) (InsertAlert.longitude data)
    (InsertAlert.locationName data) (InsertAlert.locationAccuracy data)
    (InsertAlert.situationData data) (InsertAlert.responseNotes data).

Definition is_department_staff (department : string) (u : User.t) : bool :=
  String.eqb (User.role u) "staff" &&
  bool_decide (User.department u = Some department).

(** [staffUsers.forEach(staffUser => { if (staffUser && staffUser.id)
    broadcastToUser(staffUser.id, message) })] *)
Definition notify_staff (staffUsers : list User.t) (message : WsEvent)
    (srv : Server) : Server :=
  foldl (λ acc staffUser,
           if truthy (Some (User.id staffUser))
           then broadcastToUser (User.id staffUser) message acc
           else acc)
    srv staffUsers.

(** [POST /api/alerts] *)
Definition post_alerts (srv : Server) (env : Env) (session : option string)
    (body : json) : Response.t * Server :=
  match requireAuth session with
  | inl r => (r, srv)
  | inr userId =>
      match insertAlertSchema body with
      | None => (json_message 400 (message_or ZodError "Failed to create alert"), srv)
      | Some data =>
          match createAlert (db srv) env (with_userId data userId) with
          | inl e => (json_message 400 (message_or e "Failed to create alert"), srv)
          | inr (alert, d) =>
              let srv := with_db srv d in
              let allUsers := getAllUsers (db srv) in
              let staffUsers :=
                List.filter (is_department_staff (Alert.department alert)) allUsers in
              let srv :=
                notify_staff staffUsers
                  (new_alert (Alert.id alert) (Alert.department alert) alert) srv in
              (Response.mk 200 (BAlert alert), srv)
          end
      end
  end.

(** [GET /api/alerts/department/:department] *)
Definition get_alerts_department (srv : Server) (session : option string)
    (department : string) : Response.t * Server :=
  match requireRole ["staff"; "admin"] (db srv) session with
  | inl r => (r, srv)
  | inr user =>
      if String.eqb (User.role user) "staff" &&
         negb (bool_decide (User.department user = Some department))
      then (json_message 403 "Forbidden", srv)
      else (Response.mk 200 (BAlerts (getAlertsByDepartment (db srv) department)), srv)
  end.

Definition validTransitions : gmap string (list string) :=
  list_to_map
    [ ("pending", ["acknowledged"; "dispatched"]);
      ("acknowledged", ["dispatched"]);
      ("dispatched", ["resolved"]) ].

(** The test of the [if] that answers "Cannot transition from ... to ...". *)
Definition transition_refused (current requested : string) : bool :=
  negb (String.eqb current "pending") &&
  match validTransitions !! current with
  | Some allowed => negb (includes allowed requested)
  | None => false
  end.

Definition updateData (data : UpdateAlertStatus.t) (user : User.t) (env : Env)
    : PartialAlert.t :=
  let status := UpdateAlertStatus.status data in
  let responseNotes :=
    if truthy (UpdateAlertStatus.responseNotes data)
    then UpdateAlertStatus.responseNotes data else None in
  if String.eqb status "acknowledged" then
    PartialAlert.mk (Some status) responseNotes
      (Some (now env)) (Some (User.id user)) None None
  else if String.eqb status "dispatched" then
    PartialAlert.mk (Some status) responseNotes None None (Some (now env)) None
  else if String.eqb status "resolved" then
    PartialAlert.mk (Some status) responseNotes None None None (Some (now env))
  else PartialAlert.mk (Some status) responseNotes None None None None.

(** [PATCH /api/alerts/:id]. The test [if (!user)] of the handler is not
    reached with a missing user: [requireRole] has attached it. *)
Definition patch_alerts_id (srv : Server) (env : Env) (session : option string)
    (id : string) (body : json) : Response.t * Server :=
  match requireRole ["staff"; "admin"] (db srv) session with
  | inl r => (r, srv)
  | inr user =>
      match updateAlertStatusSchema body with
      | None => (json_message 400 (message_or ZodError "Failed to update alert"), srv)
      | Some data =>
          match getAlert (db srv) id with
          | None => (json_message 404 "Alert not found", srv)
          | Some alert =>
              if String.eqb (User.role user) "staff" &&
                 negb (bool_decide (User.department user = Some (Alert.department alert)))
              then (json_message 403
                      "Forbidden - can only manage your department's alerts", srv)
              else if transition_refused (Alert.status alert)
                        (UpdateAlertStatus.status data)
              then (json_message 400
                      ("Cannot transition from " +:+ Alert.status alert +:+
                       " to " +:+ UpdateAlertStatus.status data), srv)
              else
                let (updatedAlert, d) :=
                  updateAlert (db srv) id (updateData data user env) in
                let srv := with_db srv d in
                let srv :=
                  if truthy (Some (Alert.userId alert))
                  then broadcastToUser (Alert.userId alert)
                         (alert_updated id (UpdateAlertStatus.status data)) srv
                  else srv in
                (Response.mk 200
                   match updatedAlert with
                   | Some a => BAlert a
                   | None => BUndefined
                   end, srv)
          end
      end
  end.

(** ** server/routes.ts: chat messages *)

(** [session.userId === req.session.userId || (user.role === "staff" &&
    user.department === session.department) || user.role === "admin"] *)
Definition canAccess (session : ChatSession.t) (userId : string) (user : User.t)
    : bool :=
  String.eqb (ChatSession.userId session) userId ||
  (String.eqb (User.role user) "staff" &&
   bool_decide (User.department user = Some (ChatSession.department session))) ||
  String.eqb (User.role user) "admin".

(** [GET /api/chats/messages/:sessionId] *)
Definition get_chats_messages (srv : Server) (session : option string)
    (sessionId : string) : Response.t * Server :=
  match requireAuth session with
  | inl r => (r, srv)
  | inr userId =>
      match getChatSession (db srv) sessionId with
      | None => (json_message 404 "Session not found", srv)
      | Some chat =>
          match getUser (db srv) userId with
          | None => (json_message 401 "Unauthorized", srv)
          | Some user =>
              if negb (canAccess chat userId user)
              then (json_message 403 "Forbidden", srv)
              else (Response.mk 200
                      (BMessages (getMessagesBySession (db srv) sessionId)), srv)
          end
      end
  end.

(** ** server/routes.ts: admin routes *)

(** [GET /api/admin/users] *)
Definition get_admin_users (srv : Server) (session : option string)
    : Response.t * Server :=
  match requireRole ["admin"] (db srv) session with
  | inl r => (r, srv)
  | inr _ =>
      let users := getAllUsers (db srv) in
      let usersWithoutPasswords := omit_password <$> users in
      (Response.mk 200 (BUsers usersWithoutPasswords), srv)
  end.

(** The columns that reference [users.id]; none has an [onDelete], so a
    referenced user cannot be deleted. *)
Definition referenced (d : Db) (id : string) : bool :=
  existsb (λ a, String.eqb (Alert.userId a) id ||
                bool_decide (Alert.acknowledgedBy a = Some id)) (alerts d) ||
  existsb (λ s, String.eqb (ChatSession.userId s) id) (chatSessions d) ||
  existsb (λ m, String.eqb (Message.senderId m) id) (messages d) ||
  existsb (λ l, String.eqb (AuditLog.userId l) id) (auditLogs d).

(** [db.delete(users).where(eq(users.id, id))] *)
Definition deleteUser (d : Db) (id : string) : Error + Db :=
  if bool_decide (is_Some (getUser d id)) && referenced d id then
    inl (ForeignKeyViolation "users_id_fk")
  else inr (with_users d (filter (λ u, User.id u ≠ id) (users d))).

Module InsertAuditLog.
Record t := mk {
    userId : string;
    action : string;
    targetType : option string;
    targetId : option string;
    details : option json;
  }.
End InsertAuditLog.

(** [db.insert(auditLogs).values(insertLog).returning()] *)
Definition createAuditLog (d : Db) (env : Env) (insertLog : InsertAuditLog.t)
    : Error + (AuditLog.t * Db) :=
  let log :=
    AuditLog.mk (uuid env) (InsertAuditLog.userId insertLog)
      (InsertAuditLog.action insertLog) (InsertAuditLog.targetType insertLog)
      (InsertAuditLog.targetId insertLog) (InsertAuditLog.details insertLog)
      (now env) in
  if existsb (λ l, String.eqb (AuditLog.id l) (AuditLog.id log)) (auditLogs d) then
    inl (UniqueViolation "audit_logs_pkey")
  else if bool_decide (getUser d (AuditLog.userId log) = None) then
    inl (ForeignKeyViolation "audit_logs_user_id_users_id_fk")
  else inr (log, with_auditLogs d (auditLogs d ++ [log])).

(** [DELETE /api/admin/users/:id] *)
Definition delete_admin_users_id (srv : Server) (env : Env)
    (session : option string) (id : string) : Response.t * Server :=
  match requireRole ["admin"] (db srv) session with
  | inl r => (r, srv)
  | inr _ =>
      if bool_decide (Some id = session) then
        (json_message 400 "Cannot delete your own account", srv)
      else
        match getUser (db srv) id with
        | None => (json_message 404 "User not found", srv)
        | Some user =>
            match deleteUser (db srv) id with
            | inl e => (json_message 500 (error_message e), srv)
            | inr d =>
                let srv := with_db srv d in
                match
                  createAuditLog (db srv) env
                    (InsertAuditLog.mk (default "" session) "delete_user"
                       (Some "user") (Some id)
                       (Some (JObj [("email", JStr (User.email user))])))
                with
                | inl e => (json_message 500 (error_message e), srv)
                | inr (_, d) =>
                    (json_message 200 "User deleted successfully", with_db srv d)
                end
            end
        end
  end.

(** ** server/routes.ts: authentication routes *)

(** The two calls into bcryptjs. *)
Class Bcrypt := {
  bcrypt_hash : string → Z → string → string;
  bcrypt_compare : string → string → bool;
}.

(** zod's test of [z.string().email()]. *)
Class EmailFormat := {
  is_email : string → bool;
}.

Definition endsWith (s suffix : string) : bool :=
  let n := String.length s in
  let k := String.length suffix in
  bool_decide (k ≤ n)%nat && String.eqb (String.substring (n - k) k s) suffix.

Definition z_email `{EmailFormat} (v : option json) : option string :=
  s ← z_string v; if is_email s then Some s else None.

(** [z.string().min(n)] *)
Definition z_min (n : nat) (v : option json) : option string :=
  s ← z_string v; if bool_decide (n ≤ js_length s)%nat then Some s else None.

Definition loginSchema `{EmailFormat} (body : json) : option (string * string) :=
  email ← z_email (field "email" body);
  password ← z_min 1 (field "password" body);
  Some (email, password).

Module RegisterCredentials.
Record t := mk {
    email : string;
    password : string;
    fullName : string;
    phoneNumber : option string;
  }.
End RegisterCredentials.

Definition registerSchema `{EmailFormat} (body : json)
    : option RegisterCredentials.t :=
  email ← z_email (field "email" body);
  email ← (if endsWith email "@campus.edu" then Some email else None);
  password ← z_min 6 (field "password" body);
  fullName ← z_min 1 (field "fullName" body);
  phoneNumber ← z_optional z_string (field "phoneNumber" body);
  Some (RegisterCredentials.mk email password fullName phoneNumber).

Module InsertUser.
Record t := mk {
    email : string;
    password : string;
    role : option string;
    department : option string;
    fullName : option string;
    phoneNumber : option string;
    isActive : option bool;
  }.
End InsertUser.

(** [db.insert(users).values(insertUser).returning()] *)
Definition createUser (d : Db) (env : Env) (insertUser : InsertUser.t)
    : Error + (User.t * Db) :=
  let user :=
    User.mk (uuid env) (InsertUser.email insertUser)
      (InsertUser.password insertUser)
      (default "student" (InsertUser.role insertUser))
      (Some (default "none" (InsertUser.department insertUser)))
      (InsertUser.fullName insertUser) (InsertUser.phoneNumber insertUser)
      (default true (InsertUser.isActive insertUser))
      (now env) None in
  if bool_decide (is_Some (getUser d (User.id user))) then
    inl (UniqueViolation "users_pkey")
  else if bool_decide (is_Some (getUserByEmail d (User.email user))) then
    inl (UniqueViolation "users_email_unique")
  else inr (user, with_users d (users d ++ [user])).

Definition set_lastLogin (t : Z) (u : User.t) : User.t :=
  User.mk (User.id u) (User.email u) (User.password u) (User.role u)
    (User.department u) (User.fullName u) (User.phoneNumber u)
    (User.isActive u) (User.createdAt u) (Some t).

(** [db.update(users).set({ lastLogin: new Date() }).where(eq(users.id, id))];
    [date] is that [new Date()]. *)
Definition updateUserLastLogin (d : Db) (date : Z) (id : string) : Db :=
  with_users d
    ((λ u, if decide (User.id u = id) then set_lastLogin date u else u)
       <$> users d).

(** The routes below also return [req.session.userId] as they leave it. *)

(** [POST /api/auth/login] *)
Definition post_auth_login `{Bcrypt, EmailFormat} (srv : Server) (env : Env)
    (session : option string) (body : json)
    : Response.t * Server * option string :=
  match loginSchema body with
  | None => (json_message 400 (message_or ZodError "Login failed"), srv, session)
  | Some (email, password) =>
      match getUserByEmail (db srv) email with
      | None => (json_message 401 "Invalid email or password", srv, session)
      | Some user =>
          let validPassword := bcrypt_compare password (User.password user) in
          if negb validPassword then
            (json_message 401 "Invalid email or password", srv, session)
          else if negb (User.isActive user) then
            (json_message 403 "Account is inactive", srv, session)
          else
            let srv :=
              with_db srv (updateUserLastLogin (db srv) (now env) (User.id user)) in
            (Response.mk 200 (BUser (omit_password user)), srv, Some (User.id user))
      end
  end.

(** [POST /api/auth/register]: the insert, whose [createdAt] is the
    database's [defaultNow()], then the update of [lastLogin] to [date], the
    [new Date()] of the second statement. *)
Definition post_auth_register `{Bcrypt, EmailFormat} (srv : Server) (env : Env)
    (date : Z) (session : option string) (body : json)
    : Response.t * Server * option string :=
  match registerSchema body with
  | None =>
      (json_message 400 (message_or ZodError "Registration failed"), srv, session)
  | Some data =>
      match getUserByEmail (db srv) (RegisterCredentials.email data) with
      | Some existing => (json_message 400 "Email already registered", srv, session)
      | None =>
          let hashedPassword :=
            bcrypt_hash (RegisterCredentials.password data) 10 (salt env) in
          match
            createUser (db srv) env
              (InsertUser.mk (RegisterCredentials.email data) hashedPassword
                 (Some "student") (Some "none")
                 (Some (RegisterCredentials.fullName data))
                 (RegisterCredentials.phoneNumber data) (Some true))
          with
          | inl e =>
              (json_message 400 (message_or e "Registration failed"), srv, session)
          | inr (user, d) =>
              let d := updateUserLastLogin d date (User.id user) in
              (Response.mk 200 (BUser (omit_password user)), with_db srv d,
               Some (User.id user))
          end
      end
  end.

(** [GET /api/auth/me] *)
Definition get_auth_me (srv : Server) (session : option string)
    : Response.t * Server * option string :=
  match requireAuth session with
  | inl _ => (json_message 401 "Not authenticated", srv, session)
  | inr userId =>
      match getUser (db srv) userId with
      | None => (json_message 401 "User not found", srv, None)
      | Some user => (Response.mk 200 (BUser (omit_password user)), srv, session)
      end
  end.

(** ** server/storage.ts: the other reads and inserts *)

Definition getAlertsByUser (d : Db) (userId : string) : list Alert.t :=
  merge_sort (desc Alert.createdAt)
    (filter (λ a, Alert.userId a = userId) (alerts d)).

Definition getAllAlerts (d : Db) : list Alert.t :=
  merge_sort (desc Alert.createdAt) (alerts d).

Definition getChatSessionsByUser (d : Db) (userId : string) : list ChatSession.t :=
  merge_sort (desc ChatSession.createdAt)
    (filter (λ s, ChatSession.userId s = userId) (chatSessions d)).

Definition getChatSessionsByDepartment (d : Db) (department : string)
    : list ChatSession.t :=
  merge_sort (desc ChatSession.createdAt)
    (filter (λ s, ChatSession.department s = department) (chatSessions d)).

Definition getAllChatSessions (d : Db) : list ChatSession.t :=
  merge_sort (desc ChatSession.createdAt) (chatSessions d).

Definition with_chatSessions (d : Db) (l : list ChatSession.t) : Db :=
  mkDb (users d) (alerts d) l (messages d) (auditLogs d).

Definition with_messages (d : Db) (l : list Message.t) : Db :=
  mkDb (users d) (alerts d) (chatSessions d) l (auditLogs d).

Definition chatStatusEnum : list string := ["active"; "inactive"; "closed"].

Module InsertChatSession.
Record t := mk {
  userId : string;
  department : string;
  anonymousId : string;
  status : option string;
}.
End InsertChatSession.

(** [createInsertSchema(chatSessions).omit({id, createdAt, closedAt,
    lastMessageAt})]: [userId] and [anonymousId] are columns without a
    default and stay required; [userId] is a [varchar(36)]. *)
Definition insertChatSessionSchema (body : json) : option InsertChatSession.t :=
  userId ← z_max 36 (field "userId" body);
  department ← z_enum chatDepartmentEnum (field "department" body);
  anonymousId ← z_string (field "anonymousId" body);
  status ← z_optional (z_enum chatStatusEnum) (field "status" body);
  Some (InsertChatSession.mk userId department anonymousId status).

(** [db.insert(chatSessions).values(insertSession).returning()]: primary
    key, the unique [anonymous_id] and the reference to [users.id] are
    checked. *)
Definition createChatSession (d : Db) (env : Env)
    (insertSession : InsertChatSession.t) : Error + (ChatSession.t * Db) :=
  let session :=
    ChatSession.mk (uuid env)
      (InsertChatSession.userId insertSession)
      (InsertChatSession.department insertSession)
      (InsertChatSession.anonymousId insertSession)
      (default "active" (InsertChatSession.status insertSession))
      None (now env) None in
  if bool_decide (is_Some (getChatSession d (ChatSession.id session))) then
    inl (UniqueViolation "chat_sessions_pkey")
  else if bool_decide
            (ChatSession.anonymousId session ∈
               ChatSession.anonymousId <$> chatSessions d) then
    inl (UniqueViolation "chat_sessions_anonymous_id_unique")
  else if bool_decide (getUser d (ChatSession.userId session) = None) then
    inl (ForeignKeyViolation "chat_sessions_user_id_users_id_fk")
  else inr (session, with_chatSessions d (chatSessions d ++ [session])).

Module InsertMessage.
Record t := mk {
  sessionId : string;
  senderId : string;
  senderRole : string;
  content : string;
  fileUrl : option string;
  fileName : option string;
}.
End InsertMessage.

(** [createInsertSchema(messages).omit({id, createdAt, isRead})]:
    [senderId] and [senderRole] stay required; [sessionId] and [senderId]
    are [varchar(36)]. *)
Definition insertMessageSchema (body : json) : option InsertMessage.t :=
  sessionId ← z_max 36 (field "sessionId" body);
  senderId ← z_max 36 (field "senderId" body);
  senderRole ← z_enum senderRoleEnum (field "senderRole" body);
  content ← z_string (field "content" body);
  fileUrl ← z_nullish z_string (field "fileUrl" body);
  fileName ← z_nullish z_string (field "fileName" body);
  Some (InsertMessage.mk sessionId senderId senderRole content fileUrl fileName).

Definition set_lastMessageAt (t : Z) (s : ChatSession.t) : ChatSession.t :=
  ChatSession.mk (ChatSession.id s) (ChatSession.userId s)
    (ChatSession.department s) (ChatSession.anonymousId s)
    (ChatSession.status s) (Some t) (ChatSession.createdAt s)
    (ChatSession.closedAt s).

(** [createMessage]: the insert, whose [createdAt] is the database's
    [defaultNow()], then the update of the session's [lastMessageAt] to
    [date], the [new Date()] of the second statement. *)
Definition createMessage (d : Db) (env : Env) (date : Z)
    (insertMessage : InsertMessage.t) : Error + (Message.t * Db) :=
  let message :=
    Message.mk (uuid env)
      (InsertMessage.sessionId insertMessage)
      (InsertMessage.senderId insertMessage)
      (InsertMessage.senderRole insertMessage)
      (InsertMessage.content insertMessage)
      (InsertMessage.fileUrl insertMessage)
      (InsertMessage.fileName insertMessage)
      false (now env) in
  if bool_decide (Message.id message ∈ Message.id <$> messages d) then
    inl (UniqueViolation "messages_pkey")
  else if bool_decide (getChatSession d (Message.sessionId message) = None) then
    inl (ForeignKeyViolation "messages_session_id_chat_sessions_id_fk")
  else if bool_decide (getUser d (Message.senderId message) = None) then
    inl (ForeignKeyViolation "messages_sender_id_users_id_fk")
  else
    let d := with_messages d (messages d ++ [message]) in
    let d :=
      with_chatSessions d
        ((λ s, if decide (ChatSession.id s = InsertMessage.sessionId insertMessage)
               then set_lastMessageAt date s else s) <$> chatSessions d) in
    inr (message, d).

(** ** server/routes.ts: the other alert, chat and admin routes *)

(** [GET /api/alerts/my-alerts] *)
Definition get_alerts_my_alerts (srv : Server) (session : option string)
    : Response.t * Server :=
  match requireAuth session with
  | inl r => (r, srv)
  | inr userId => (Response.mk 200 (BAlerts (getAlertsByUser (db srv) userId)), srv)
  end.

(** [GET /api/admin/alerts] *)
Definition get_admin_alerts (srv : Server) (session : option string)
    : Response.t * Server :=
  match requireRole ["admin"] (db srv) session with
  | inl r => (r, srv)
  | inr _ => (Response.mk 200 (BAlerts (getAllAlerts (db srv))), srv)
  end.

(** [POST /api/auth/logout]: [req.session.destroy]; the failure of the
    session store is outside the model. *)
Definition post_auth_logout (srv : Server) (session : option string)
    : Response.t * Server * option string :=
  (json_message 200 "Logged out successfully", srv, None).

Module AlertsByDepartment.
Record t := mk {
  medical : nat;
  security : nat;
}.
End AlertsByDepartment.

Module AlertsByStatus.
Record t := mk {
  pending : nat;
  acknowledged : nat;
  dispatched : nat;
  resolved : nat;
}.
End AlertsByStatus.

Module Stats.
Record t := mk {
  totalUsers : nat;
  activeUsers : nat;
  totalAlerts : nat;
  pendingAlerts : nat;
  totalChats : nat;
  activeChats : nat;
  avgResponseTime : string;
  alertsByDepartment : AlertsByDepartment.t;
  alertsByStatus : AlertsByStatus.t;
}.
End Stats.

(** What [res.json] is given by the routes below: a chat session, a list of
    them, a message, the statistics, or one of the bodies above. *)
Inductive Payload :=
  | PBody (b : Body)
  | PChatSession (session : ChatSession.t)
  | PChatSessions (sessions : list ChatSession.t)
  | PChatMessage (message : Message.t)
  | PStats (stats : Stats.t).

Module Reply.
Record t := mk {
  status : Z;
  payload : Payload;
}.
End Reply.

Definition reply_message (code : Z) (message : string) : Reply.t :=
  Reply.mk code (PBody (BMessage message)).

Definition reply_of (r : Response.t) : Reply.t :=
  Reply.mk (Response.status r) (PBody (Response.body r)).

Definition count_status (status : string) (l : list Alert.t) : nat :=
  length (filter (λ a, Alert.status a = status) l).

Definition count_department (department : string) (l : list Alert.t) : nat :=
  length (filter (λ a, Alert.department a = department) l).

(** [GET /api/admin/stats] *)
Definition get_admin_stats (srv : Server) (session : option string)
    : Reply.t * Server :=
  match requireRole ["admin"] (db srv) session with
  | inl r => (reply_of r, srv)
  | inr _ =>
      let users := getAllUsers (db srv) in
      let alerts := getAllAlerts (db srv) in
      let chats := getAllChatSessions (db srv) in
      let stats :=
        Stats.mk (length users)
          (length (filter (λ u, User.isActive u = true) users))
          (length alerts)
          (count_status "pending" alerts)
          (length chats)
          (length (filter (λ c, ChatSession.status c = "active") chats))
          "N/A"
          (AlertsByDepartment.mk (count_department "medical" alerts)
             (count_department "security" alerts))
          (AlertsByStatus.mk (count_status "pending" alerts)
             (count_status "acknowledged" alerts)
             (count_status "dispatched" alerts)
             (count_status "resolved" alerts)) in
      (Reply.mk 200 (PStats stats), srv)
  end.

(** [GET /api/admin/chats] *)
Definition get_admin_chats (srv : Server) (session : option string)
    : Reply.t * Server :=
  match requireRole ["admin"] (db srv) session with
  | inl r => (reply_of r, srv)
  | inr _ => (Reply.mk 200 (PChatSessions (getAllChatSessions (db srv))), srv)
  end.

(** [String.prototype.toUpperCase] on the characters that
    [Number.prototype.toString(36)] produces. *)
Definition upper (c : Ascii.ascii) : Ascii.ascii :=
  let n := Ascii.nat_of_ascii c in
  if ((97 <=? n) && (n <=? 122))%nat then Ascii.ascii_of_nat (n - 32) else c.

Fixpoint toUpperCase (s : string) : string :=
  match s with
  | EmptyString => EmptyString
  | String c rest => String (upper c) (toUpperCase rest)
  end.

Definition with_owner (data : InsertChatSession.t) (userId anonymousId : string)
    : InsertChatSession.t :=
  InsertChatSession.mk userId (InsertChatSession.department data) anonymousId
    (InsertChatSession.status data).

(** [POST /api/chats/sessions]; [random] is
    [Math.random().toString(36)]. *)
Definition post_chats_sessions (srv : Server) (env : Env) (random : string)
    (session : option string) (body : json) : Reply.t * Server :=
  match requireAuth session with
  | inl r => (reply_of r, srv)
  | inr userId =>
      match insertChatSessionSchema body with
      | None =>
          (reply_message 400 (message_or ZodError "Failed to create chat session"),
           srv)
      | Some data =>
          let randomId := toUpperCase (String.substring 2 6 random) in
          let anonymousId := "User#" +:+ randomId in
          match createChatSession (db srv) env (with_owner data userId anonymousId) with
          | inl e =>
              (reply_message 400 (message_or e "Failed to create chat session"), srv)
          | inr (chat, d) => (Reply.mk 200 (PChatSession chat), with_db srv d)
          end
      end
  end.

(** [GET /api/chats/my-sessions] *)
Definition get_chats_my_sessions (srv : Server) (session : option string)
    : Reply.t * Server :=
  match requireAuth session with
  | inl r => (reply_of r, srv)
  | inr userId =>
      (Reply.mk 200 (PChatSessions (getChatSessionsByUser (db srv) userId)), srv)
  end.

(** [GET /api/chats/sessions/:id]. [requireAuth] attaches no user, so
    [user] is what [storage.getUser] returns; when it is [undefined] and the
    session is not the requester's own, reading [user.role] throws and the
    [catch] answers 500. *)
Definition get_chats_sessions_id (srv : Server) (session : option string)
    (id : string) : Reply.t * Server :=
  match requireAuth session with
  | inl r => (reply_of r, srv)
  | inr userId =>
      match getChatSession (db srv) id with
      | None => (reply_message 404 "Session not found", srv)
      | Some chat =>
          if String.eqb (ChatSession.userId chat) userId then
            (Reply.mk 200 (PChatSession chat), srv)
          else
            match getUser (db srv) userId with
            | None =>
                (reply_message 500
                   "Cannot read properties of undefined (reading 'role')", srv)
            | Some user =>
                if negb (String.eqb (User.role user) "staff" &&
                         bool_decide (User.department user =
                                        Some (ChatSession.department chat))) &&
                   negb (String.eqb (User.role user) "admin")
                then (reply_message 403 "Forbidden", srv)
                else (Reply.mk 200 (PChatSession chat), srv)
            end
      end
  end.

(** [GET /api/chats/department/:department] *)
Definition get_chats_department (srv : Server) (session : option string)
    (department : string) : Reply.t * Server :=
  match requireRole ["staff"; "admin"] (db srv) session with
  | inl r => (reply_of r, srv)
  | inr user =>
      if String.eqb (User.role user) "staff" &&
         negb (bool_decide (User.department user = Some department))
      then (reply_message 403 "Forbidden", srv)
      else
        (Reply.mk 200
           (PChatSessions (getChatSessionsByDepartment (db srv) department)), srv)
  end.

Definition with_sender (data : InsertMessage.t) (senderId senderRole : string)
    : InsertMessage.t :=
  InsertMessage.mk (InsertMessage.sessionId data) senderId senderRole
    (InsertMessage.content data) (InsertMessage.fileUrl data)
    (InsertMessage.fileName data).

(** [POST /api/chats/messages] *)
Definition post_chats_messages (srv : Server) (env : Env) (date : Z)
    (session : option string) (body : json) : Reply.t * Server :=
  match requireAuth session with
  | inl r => (reply_of r, srv)
  | inr userId =>
      match insertMessageSchema body with
      | None =>
          (reply_message 400 (message_or ZodError "Failed to send message"), srv)
      | Some data =>
          match getUser (db srv) userId with
          | None => (reply_message 401 "Unauthorized", srv)
          | Some user =>
              match getChatSession (db srv) (InsertMessage.sessionId data) with
              | None => (reply_message 404 "Session not found", srv)
              | Some chat =>
                  if negb (canAccess chat userId user) then
                    (reply_message 403 "Forbidden", srv)
                  else
                    let senderRole :=
                      if String.eqb (User.role user) "student"
                      then "student" else "staff" in
                    match
                      createMessage (db srv) env date
                        (with_sender data userId senderRole)
                    with
                    | inl e =>
                        (reply_message 400 (message_or e "Failed to send message"),
                         srv)
                    | inr (message, d) =>
                        let srv := with_db srv d in
                        let allUsers := getAllUsers (db srv) in
                        let event :=
                          chat_message (ChatSession.id chat) message in
                        let srv :=
                          if truthy (Some (ChatSession.userId chat))
                          then broadcastToUser (ChatSession.userId chat) event srv
                          else srv in
                        let staffUsers :=
                          List.filter
                            (is_department_staff (ChatSession.department chat))
                            allUsers in
                        let srv := notify_staff staffUsers event srv in
                        (Reply.mk 200 (PChatMessage message), srv)
                    end
              end
          end
      end
  end.

(** ** server/routes.ts: the upgrade request *)






(** ** Runs of the registry *)

(** What reaches the registry: an authenticated upgrade, the close of a
    socket, and the broadcasts made by the routes. *)
Inductive RegistryEvent :=
  | Upgrade (userId : string) (ws : nat)
  | Close (userId : string) (ws : nat)
  | Push (userId : string) (message : WsEvent)
  | PushAll (message : WsEvent).

Definition handle (srv : Server) (e : RegistryEvent) : Server :=
  match e with
  | Upgrade userId ws => on_upgrade userId ws srv
  | Close userId ws => on_close userId ws srv
  | Push userId message => broadcastToUser userId message srv
  | PushAll message => broadcastToAll message srv
  end.

Definition run (srv : Server) (events : list RegistryEvent) : Server :=
  foldl handle srv events.

(** [new Map()] at the start of [registerRoutes]. *)
Definition started (d : Db) : Server :=
  mkServer d ∅ (λ _, CLOSED) (λ _, []).

(** No user id is mapped to an empty set. *)
Definition no_empty_entry (c : gmap string (gset nat)) : Prop :=
  ∀ userId s, c !! userId = Some s → s ≠ ∅.

(** ** Stored states that differ only in password hashes *)

(** Two rows of [users] that agree on every column but [password]. *)
Definition same_but_password (u1 u2 : User.t) : Prop :=
  User.id u1 = User.id u2 ∧
  User.email u1 = User.email u2 ∧
  User.role u1 = User.role u2 ∧
  User.department u1 = User.department u2 ∧
  User.fullName u1 = User.fullName u2 ∧
  User.phoneNumber u1 = User.phoneNumber u2 ∧
  User.isActive u1 = User.isActive u2 ∧
  User.createdAt u1 = User.createdAt u2 ∧
  User.lastLogin u1 = User.lastLogin u2.

Definition differ_only_in_passwords (d1 d2 : Db) : Prop :=
  Forall2 same_but_password (users d1) (users d2) ∧
  alerts d1 = alerts d2 ∧
  chatSessions d1 = chatSessions d2 ∧
  messages d1 = messages d2 ∧
  auditLogs d1 = auditLogs d2.

(** The password check of [POST /api/auth/login] passes. *)
Definition authenticates `{Bcrypt, EmailFormat} (d : Db) (body : json) : Prop :=
  ∃ email password user,
    loginSchema body = Some (email, password) ∧
    getUserByEmail d email = Some user ∧
    bcrypt_compare password (User.password user) = true.

(** ** Sample data, after server/seed.ts *)

Definition seed_user (id email hash role department : string) : User.t :=
  User.mk id email hash role (Some department) None None true 0 None.

Definition student1 : User.t :=
  seed_user "s1" "student1@campus.edu" "$2a$10$student" "student" "none".
Definition medical_staff : User.t :=
  seed_user "m1" "medical.staff@campus.edu" "$2a$10$medical" "staff" "medical".
Definition security_staff : User.t :=
  seed_user "sec1" "security.staff@campus.edu" "$2a$10$security" "staff" "security".
Definition admin1 : User.t :=
  seed_user "adm" "admin@campus.edu" "$2a$10$admin" "admin" "none".

Definition alert1 (status : string) : Alert.t :=
  Alert.mk "a1" "s1" "medical" status None None None None
    (Some (JObj [("conscious", JStr "Yes")])) None None None None None 5.

Definition chat1 : ChatSession.t :=
  ChatSession.mk "c1" "s1" "guidance" "User#4F9K2Q" "active" (Some 9) 1 None.

Definition message1 (id : string) (senderId senderRole : string) (t : Z)
    : Message.t :=
  Message.mk id "c1" senderId senderRole "hello" None None false t.

(** A database whose one alert is in the given status. *)
Definition db1 (status : string) : Db :=
  mkDb [student1; medical_staff; security_staff; admin1] [alert1 status]
    [chat1]
    [message1 "x3" "s1" "student" 9; message1 "x1" "s1" "student" 2;
     message1 "x2" "adm" "staff" 4]
    [].

Definition srv1 (status : string) : Server := started (db1 status).

(** The same database after every password hash has been replaced. *)
Definition rehashed (hash : string) (d : Db) : Db :=
  with_users d
    ((λ u, User.mk (User.id u) (User.email u) hash (User.role u)
             (User.department u) (User.fullName u) (User.phoneNumber u)
             (User.isActive u) (User.createdAt u) (User.lastLogin u))
       <$> users d).

Definition env1 : Env := mkEnv 100 "0b7e" "$2a$10$salt".

Definition status_body (status : string) : json :=
  JObj [("status", JStr status)].

(** The body that the client's [handleSubmit] sends, with the given
    [status]. *)
Definition alert_body (status : string) : json :=
  JObj [("userId", JStr ""); ("department", JStr "medical");
        ("status", JStr status);
        ("situationData", JObj [("conscious", JStr "Yes")]);
        ("responseNotes", JNull)].

Definition sample_bcrypt : Bcrypt :=
  {| bcrypt_hash := λ data _ salt, salt +:+ data;
     bcrypt_compare := λ data hash, true |}.

(** Another implementation of bcrypt, with other hashes. *)
Definition other_bcrypt : Bcrypt :=
  {| bcrypt_hash := λ data _ salt, data +:+ salt;
     bcrypt_compare := λ data hash, String.eqb hash "$2a$10$other" |}.

Definition sample_email : EmailFormat :=
  {| is_email := λ s, negb (String.eqb s "") |}.

(** The sample server with one socket each for the medical staff, the
    security staff and the student. *)
Definition srv_connected : Server :=
  run (srv1 "pending")
    [Upgrade "m1" 1%nat; Upgrade "sec1" 2%nat; Upgrade "s1" 3%nat].

Definition message_body (content : string) : json :=
  JObj [("sessionId", JStr "c1"); ("senderId", JStr ""); ("senderRole", JStr "student");
        ("content", JStr content)].

Definition register_body (email password : string) : json :=
  JObj [("email", JStr email); ("password", JStr password);
        ("fullName", JStr "New Student"); ("role", JStr "admin")].

Definition login_body (email password : string) : json :=
  JObj [("email", JStr email); ("password", JStr password)].

(** A database with an admin and a student to whom no row refers. *)
Definition db2 : Db :=
  mkDb [student1; admin1] [] [] [] [].


(** ** The constraints of the schema, as a property of the stored tables *)

(** Primary keys and the two [unique()] columns hold distinct values, the
    seven enumerated text columns hold values of their enumeration (the
    nullable [users.department] may also be NULL), and every reference names
    a stored row. *)
Record consistent (d : Db) : Prop := mkConsistent {
  users_pkey : NoDup (User.id <$> users d);
  users_email_unique : NoDup (User.email <$> users d);
  users_rows :
    ∀ u, u ∈ users d →
      User.role u ∈ roleEnum ∧
      ∀ department, User.department u = Some department →
        department ∈ userDepartmentEnum;
  alerts_pkey : NoDup (Alert.id <$> alerts d);
  alerts_rows :
    ∀ a, a ∈ alerts d →
      Alert.status a ∈ statusEnum ∧
      Alert.department a ∈ alertDepartmentEnum ∧
      Alert.userId a ∈ User.id <$> users d ∧
      ∀ u, Alert.acknowledgedBy a = Some u → u ∈ User.id <$> users d;
  chat_sessions_pkey : NoDup (ChatSession.id <$> chatSessions d);
  chat_sessions_anonymous_id_unique :
    NoDup (ChatSession.anonymousId <$> chatSessions d);
  chat_sessions_rows :
    ∀ c, c ∈ chatSessions d →
      ChatSession.department c ∈ chatDepartmentEnum ∧
      ChatSession.status c ∈ chatStatusEnum ∧
      ChatSession.userId c ∈ User.id <$> users d;
  messages_pkey : NoDup (Message.id <$> messages d);
  messages_rows :
    ∀ m, m ∈ messages d →
      Message.senderRole m ∈ senderRoleEnum ∧
      Message.sessionId m ∈ ChatSession.id <$> chatSessions d ∧
      Message.senderId m ∈ User.id <$> users d;
  audit_logs_pkey : NoDup (AuditLog.id <$> auditLogs d);
  audit_logs_rows :
    ∀ l, l ∈ auditLogs d → AuditLog.userId l ∈ User.id <$> users d;
}.

(** ** The requests that write *)

Inductive Request :=
  | Login (env : Env) (body : json)
  | Register (env : Env) (date : Z) (body : json)
  | Logout
  | CreateAlert (env : Env) (body : json)
  | PatchAlert (env : Env) (id : string) (body : json)
  | CreateChatSession (env : Env) (random : string) (body : json)
  | SendMessage (env : Env) (date : Z) (body : json)
  | DeleteUser (env : Env) (id : string).

(** The state of the server and the session after a request. *)
Definition serve `{Bcrypt, EmailFormat} (srv : Server) (session : option string)
    (req : Request) : Server * option string :=
  match req with
  | Login env body =>
      let '(_, srv, session) := post_auth_login srv env session body in
      (srv, session)
  | Register env date body =>
      let '(_, srv, session) := post_auth_register srv env date session body in
      (srv, session)
  | Logout =>
      let '(_, srv, session) := post_auth_logout srv session in (srv, session)
  | CreateAlert env body => ((post_alerts srv env session body).2, session)
  | PatchAlert env id body =>
      ((patch_alerts_id srv env session id body).2, session)
  | CreateChatSession env random body =>
      ((post_chats_sessions srv env random session body).2, session)
  | SendMessage env date body =>
      ((post_chats_messages srv env date session body).2, session)
  | DeleteUser env id => ((delete_admin_users_id srv env session id).2, session)
  end.

(** Requests of any clients in the order they are served, each with the
    session it comes with. *)
Definition serve_each `{Bcrypt, EmailFormat} (srv : Server)
    (reqs : list (option string * Request)) : Server :=
  foldl (λ srv req, (serve srv req.1 req.2).1) srv reqs.

(** * Properties *)

(** ** Broadcasts only touch the sent frames *)

Section broadcast_frame.
Context (message : WsEvent).

Lemma send_if_open_frame client srv :
    db (send_if_open message client srv) = db srv ∧
    clients (send_if_open message client srv) = clients srv ∧
    readyState (send_if_open message client srv) = readyState srv.
  Proof. unfold send_if_open. by case_bool_decide. Qed.

Lemma foldr_send_frame l srv :
    db (foldr (send_if_open message) srv l) = db srv ∧
    clients (foldr (send_if_open message) srv l) = clients srv ∧
    readyState (foldr (send_if_open message) srv l) = readyState srv.
  Proof.
    induction l as [|client l IH]; simpl; [done|].
    destruct (send_if_open_frame client (foldr (send_if_open message) srv l))
      as (-> & -> & ->).
    exact IH.
  Qed.

Lemma broadcastToUser_frame userId srv :
    db (broadcastToUser userId message srv) = db srv ∧
    clients (broadcastToUser userId message srv) = clients srv ∧
    readyState (broadcastToUser userId message srv) = readyState srv.
  Proof.
    unfold broadcastToUser. destruct (clients srv !! userId); [|done].
    apply foldr_send_frame.
  Qed.

Lemma notify_staff_frame staffUsers srv :
    db (notify_staff staffUsers message srv) = db srv ∧
    clients (notify_staff staffUsers message srv) = clients srv ∧
    readyState (notify_staff staffUsers message srv) = readyState srv.
  Proof.
    unfold notify_staff. revert srv.
    induction staffUsers as [|u l IH]; intros srv; [done|].
    cbn [foldl]. destruct (IH (if truthy (Some (User.id u))
                  then broadcastToUser (User.id u) message srv else srv))
      as (-> & -> & ->).
    destruct (truthy _); [apply broadcastToUser_frame|done].
  Qed.
End broadcast_frame.

(** ** Storage lemmas *)

Lemma set_alert_id data a : Alert.id (set_alert data a) = Alert.id a.
Proof. done. Qed.

Lemma updateAlert_rows (l : list Alert.t) id data :
  filter (λ a, Alert.id a = id)
    ((λ a, if decide (Alert.id a = id) then set_alert data a else a) <$> l)
  = set_alert data <$> filter (λ a, Alert.id a = id) l.
Proof.
  induction l as [|a l IH]; [done|].
  rewrite fmap_cons, !filter_cons. destruct (decide (Alert.id a = id)) as [Heq|Hne].
  - rewrite decide_True by done. by rewrite fmap_cons, IH.
  - by rewrite decide_False.
Qed.

Lemma updateAlert_found d id data alert :
  getAlert d id = Some alert →
  updateAlert d id data =
    (Some (set_alert data alert),
     with_alerts d
       ((λ a, if decide (Alert.id a = id) then set_alert data a else a)
          <$> alerts d)) ∧
  getAlert (updateAlert d id data).2 id = Some (set_alert data alert).
Proof.
  unfold getAlert, updateAlert. intros Hget. simpl.
  rewrite updateAlert_rows.
  destruct (filter _ (alerts d)) as [|a l]; simplify_eq/=. done.
Qed.

Lemma createAlert_inr d env ins alert d' :
  createAlert d env ins = inr (alert, d') →
  Alert.id alert = uuid env ∧
  Alert.userId alert = InsertAlert.userId ins ∧
  Alert.status alert = default "pending" (InsertAlert.status ins) ∧
  Alert.department alert = InsertAlert.department ins ∧
  getAlert d (uuid env) = None ∧
  is_Some (getUser d (InsertAlert.userId ins)) ∧
  getAlert d' (uuid env) = Some alert.
Proof.
  unfold createAlert. simpl. case_bool_decide as Hpk; [done|].
  case_bool_decide as Hfk; [done|]. intros [= <- <-]. simpl.
  assert (getAlert d (uuid env) = None) as Hnone.
  { destruct (getAlert d (uuid env)) eqn:E; [|done]. destruct Hpk. eauto. }
  repeat split; try done.
  - by destruct (getUser d (InsertAlert.userId ins)); [eauto|].
  - unfold getAlert in *. simpl. rewrite list.filter_app.
    destruct (filter _ (alerts d)); [|done]. simpl.
    rewrite filter_cons, decide_True by done. done.
Qed.

Lemma createAlert_accepts d env ins :
  getAlert d (uuid env) = None →
  is_Some (getUser d (InsertAlert.userId ins)) →
  ∃ alert d', createAlert d env ins = inr (alert, d').
Proof.
  intros Hpk [u Hu]. unfold createAlert. simpl.
  rewrite bool_decide_false by (rewrite Hpk; by intros [? ?]).
  rewrite bool_decide_false by (rewrite Hu; done). eauto.
Qed.

Lemma truthy_Some s : truthy (Some s) = true ↔ s ≠ "".
Proof.
  simpl. destruct (String.eqb_spec s ""); simpl; split; congruence.
Qed.

Lemma requireAuth_inr session userId :
  requireAuth session = inr userId ↔ session = Some userId ∧ userId ≠ "".
Proof.
  unfold requireAuth. destruct session as [s|].
  - destruct (truthy (Some s)) eqn:E.
    + apply truthy_Some in E. split.
      * by intros [= <-].
      * by intros [[= <-] _].
    + split; [done|]. intros [[= ->] Hne]. apply truthy_Some in Hne. congruence.
  - split; [done|]. by intros [? _].
Qed.

Lemma includes_spec l s : includes l s = true ↔ s ∈ l.
Proof.
  unfold includes. rewrite existsb_exists. setoid_rewrite <- list_elem_of_In.
  split.
  - intros (x & Hx & Heq). apply String.eqb_eq in Heq. by subst.
  - intros Hs. exists s. split; [done|]. apply String.eqb_refl.
Qed.

Lemma requireRole_inr roles d session user :
  requireRole roles d session = inr user ↔
  ∃ userId, session = Some userId ∧ userId ≠ "" ∧
            getUser d userId = Some user ∧ User.role user ∈ roles.
Proof.
  unfold requireRole. destruct (requireAuth session) as [r|userId] eqn:Hauth.
  - split; [done|]. intros (userId & Hs & Hne & _).
    assert (requireAuth session = inr userId) as E by by apply requireAuth_inr.
    congruence.
  - apply requireAuth_inr in Hauth as [-> Hne].
    destruct (getUser d userId) as [u|] eqn:Hu.
    + destruct (includes roles (User.role u)) eqn:Hinc.
      * apply includes_spec in Hinc. split.
        -- intros [= <-]. by exists userId.
        -- intros (? & [= <-] & _ & Hget & _). congruence.
      * split; [done|]. intros (? & [= <-] & _ & Hget & Hin).
        rewrite Hu in Hget. injection Hget as <-.
        apply includes_spec in Hin. congruence.
    + split; [done|]. intros (? & [= <-] & _ & Hget & _). congruence.
Qed.

(** ** Alert status updates *)

Lemma department_gate_false (user : User.t) department :
  (User.role user = "staff" → User.department user = Some department) →
  String.eqb (User.role user) "staff" &&
    negb (bool_decide (User.department user = Some department)) = false.
Proof.
  intros Hdep. destruct (String.eqb_spec (User.role user) "staff") as [Hs|]; [|done].
  simpl. by rewrite bool_decide_true by auto.
Qed.

Lemma department_gate_true (user : User.t) department :
  User.role user = "staff" → User.department user ≠ Some department →
  String.eqb (User.role user) "staff" &&
    negb (bool_decide (User.department user = Some department)) = true.
Proof.
  intros -> Hne. simpl. by rewrite bool_decide_false.
Qed.

(** An update that passes every check answers 200 with the stored row
    after [set(updateData)], and leaves the registry as it was. *)
Lemma patch_alerts_id_ok srv env userId user id body data alert :
  userId ≠ "" →
  getUser (db srv) userId = Some user →
  User.role user ∈ ["staff"; "admin"] →
  updateAlertStatusSchema body = Some data →
  getAlert (db srv) id = Some alert →
  (User.role user = "staff" →
   User.department user = Some (Alert.department alert)) →
  transition_refused (Alert.status alert) (UpdateAlertStatus.status data) = false →
  ∃ srv',
    patch_alerts_id srv env (Some userId) id body =
      (Response.mk 200 (BAlert (set_alert (updateData data user env) alert)), srv') ∧
    getAlert (db srv') id = Some (set_alert (updateData data user env) alert) ∧
    clients srv' = clients srv.
Proof.
  intros Hne Huser Hrole Hbody Halert Hdep Htrans.
  unfold patch_alerts_id.
  assert (requireRole ["staff"; "admin"] (db srv) (Some userId) = inr user) as ->.
  { apply requireRole_inr. by exists userId. }
  rewrite Hbody, Halert, department_gate_false, Htrans by done.
  destruct (updateAlert_found (db srv) id (updateData data user env) alert Halert)
    as [Hupd Hget].
  rewrite Hupd in Hget |- *. simpl in Hget.
  eexists. split; [reflexivity|].
  destruct (truthy (Some (Alert.userId alert))).
  - destruct (broadcastToUser_frame
                (alert_updated id (UpdateAlertStatus.status data))
                (Alert.userId alert)
                (with_db srv
                   (with_alerts (db srv)
                      ((λ a, if decide (Alert.id a = id)
                             then set_alert (updateData data user env) a else a)
                         <$> alerts (db srv))))) as (-> & -> & _).
    done.
  - done.
Qed.

(** A refused transition answers 400 and changes nothing. *)
Lemma patch_alerts_id_refused srv env userId user id body data alert :
  userId ≠ "" →
  getUser (db srv) userId = Some user →
  User.role user ∈ ["staff"; "admin"] →
  updateAlertStatusSchema body = Some data →
  getAlert (db srv) id = Some alert →
  (User.role user = "staff" →
   User.department user = Some (Alert.department alert)) →
  transition_refused (Alert.status alert) (UpdateAlertStatus.status data) = true →
  patch_alerts_id srv env (Some userId) id body =
    (json_message 400
       ("Cannot transition from " +:+ Alert.status alert +:+ " to " +:+
        UpdateAlertStatus.status data), srv).
Proof.
  intros Hne Huser Hrole Hbody Halert Hdep Htrans.
  unfold patch_alerts_id.
  assert (requireRole ["staff"; "admin"] (db srv) (Some userId) = inr user) as ->.
  { apply requireRole_inr. by exists userId. }
  by rewrite Hbody, Halert, department_gate_false, Htrans.
Qed.

(** The test of the route, case by case on the current status. *)
Lemma transition_refused_pending requested :
  transition_refused "pending" requested = false.
Proof. done. Qed.

Lemma transition_refused_resolved requested :
  transition_refused "resolved" requested = false.
Proof. done. Qed.

Lemma transition_refused_acknowledged requested :
  transition_refused "acknowledged" requested = true ↔ requested ≠ "dispatched".
Proof.
  change (negb (includes ["dispatched"] requested) = true ↔ requested ≠ "dispatched").
  rewrite negb_true_iff, <- not_true_iff_false, includes_spec.
  by rewrite list_elem_of_singleton.
Qed.

Lemma transition_refused_dispatched requested :
  transition_refused "dispatched" requested = true ↔ requested ≠ "resolved".
Proof.
  change (negb (includes ["resolved"] requested) = true ↔ requested ≠ "resolved").
  rewrite negb_true_iff, <- not_true_iff_false, includes_spec.
  by rewrite list_elem_of_singleton.
Qed.

(** The statuses that the update schema lets through. *)
Lemma updateAlertStatusSchema_status body data :
  updateAlertStatusSchema body = Some data →
  UpdateAlertStatus.status data ∈ statusEnum.
Proof.
  unfold updateAlertStatusSchema. intros H.
  apply bind_Some in H as (status & Hstatus & H).
  apply bind_Some in H as (notes & _ & H). injection H as <-. simpl.
  unfold z_enum in Hstatus.
  destruct (field "status" body) as [[]|]; try done.
  destruct (includes statusEnum s) eqn:E; [|done].
  injection Hstatus as <-. by apply includes_spec.
Qed.

(** Whatever status is asked for a pending or a resolved alert, the update
    goes through. *)
Lemma patch_alerts_id_unchecked srv env userId user id body data alert :
  userId ≠ "" →
  getUser (db srv) userId = Some user →
  User.role user ∈ ["staff"; "admin"] →
  updateAlertStatusSchema body = Some data →
  getAlert (db srv) id = Some alert →
  (User.role user = "staff" →
   User.department user = Some (Alert.department alert)) →
  Alert.status alert = "pending" ∨ Alert.status alert = "resolved" →
  ∃ updated,
    (patch_alerts_id srv env (Some userId) id body).1
      = Response.mk 200 (BAlert updated) ∧
    getAlert (db (patch_alerts_id srv env (Some userId) id body).2) id
      = Some updated ∧
    Alert.status updated = UpdateAlertStatus.status data.
Proof.
  intros Hne Huser Hrole Hbody Halert Hdep Hstatus.
  destruct (patch_alerts_id_ok srv env userId user id body data alert)
    as (srv' & Hpatch & Hget & _); try done.
  { destruct Hstatus as [-> | ->]; done. }
  rewrite Hpatch. simpl. eexists. split; [reflexivity|]. split; [exact Hget|].
  destruct data as [status notes]. unfold updateData. simpl.
  by repeat case_match.
Qed.

(** C1, at the failing input: the table of the route maps pending to
    acknowledged and dispatched only, yet [PATCH /api/alerts/a1] with status
    resolved, sent by the medical staff for the pending medical alert, is
    answered 200 and the stored alert becomes resolved; the same holds for
    the request of pending on the pending alert. *)
Lemma C1_pending_to_resolved_accepted :
  validTransitions !! "pending" = Some ["acknowledged"; "dispatched"] ∧
  Response.status
    (patch_alerts_id (srv1 "pending") env1 (Some "m1") "a1"
       (status_body "resolved")).1 = 200 ∧
  Alert.status <$>
    getAlert
      (db (patch_alerts_id (srv1 "pending") env1 (Some "m1") "a1"
             (status_body "resolved")).2) "a1" = Some "resolved" ∧
  Response.status
    (patch_alerts_id (srv1 "pending") env1 (Some "m1") "a1"
       (status_body "pending")).1 = 200.
Proof. vm_compute. done. Qed.

(** C2, at the failing input: [PATCH /api/alerts/a1] with status pending,
    sent by the medical staff for the resolved medical alert, is answered 200
    and the stored alert is pending again; the table of the route has no
    entry for resolved. *)
Lemma C2_resolved_reopened :
  validTransitions !! "resolved" = None ∧
  Alert.status <$> getAlert (db (srv1 "resolved")) "a1" = Some "resolved" ∧
  Response.status
    (patch_alerts_id (srv1 "resolved") env1 (Some "m1") "a1"
       (status_body "pending")).1 = 200 ∧
  Alert.status <$>
    getAlert
      (db (patch_alerts_id (srv1 "resolved") env1 (Some "m1") "a1"
             (status_body "pending")).2) "a1" = Some "pending".
Proof. vm_compute. done. Qed.

(** ** The department gate *)

Lemma requireRole_student srv userId user roles :
  userId ≠ "" → getUser (db srv) userId = Some user →
  User.role user ∉ roles →
  requireRole roles (db srv) (Some userId) = inl (json_message 403 "Forbidden").
Proof.
  intros Hne Huser Hrole. unfold requireRole.
  assert (requireAuth (Some userId) = inr userId) as ->
    by by apply requireAuth_inr.
  rewrite Huser. destruct (includes roles (User.role user)) eqn:E; [|done].
  by apply includes_spec in E.
Qed.

(** C3, counterexample: the security staff sends [PATCH /api/alerts/a1] for
    the medical alert with a body that the schema refuses; the body is parsed
    before the department is compared, and the answer is 400, not 403. *)
Lemma C3_invalid_body_answered_400 :
  getUser (db (srv1 "pending")) "sec1" = Some security_staff ∧
  User.role security_staff = "staff" ∧
  User.department security_staff = Some "security" ∧
  getAlert (db (srv1 "pending")) "a1" = Some (alert1 "pending") ∧
  Alert.department (alert1 "pending") = "medical" ∧
  (patch_alerts_id (srv1 "pending") env1 (Some "sec1") "a1"
     (status_body "closed")).1 = json_message 400 "ZodError".
Proof. vm_compute. done. Qed.

(** C3, amended: for every authenticated user with a stored record, a staff
    member is answered 403 and nothing changes when viewing the alerts of a
    department other than their own, and when updating, with a body that
    passes the update schema, an existing alert of another department; a
    student is answered 403 by the role gate on both routes; an admin views
    any department and is never answered 403 on an update. *)
Theorem C3_staff_department_gate srv env userId user
    (Hne : userId ≠ "") (Huser : getUser (db srv) userId = Some user) :
  (User.role user = "staff" →
     (∀ department, User.department user ≠ Some department →
        get_alerts_department srv (Some userId) department =
          (json_message 403 "Forbidden", srv)) ∧
     (∀ id body data alert,
        updateAlertStatusSchema body = Some data →
        getAlert (db srv) id = Some alert →
        User.department user ≠ Some (Alert.department alert) →
        patch_alerts_id srv env (Some userId) id body =
          (json_message 403
             "Forbidden - can only manage your department's alerts", srv))) ∧
  (User.role user = "student" →
     (∀ department,
        get_alerts_department srv (Some userId) department =
          (json_message 403 "Forbidden", srv)) ∧
     (∀ id body,
        patch_alerts_id srv env (Some userId) id body =
          (json_message 403 "Forbidden", srv))) ∧
  (User.role user = "admin" →
     (∀ department,
        get_alerts_department srv (Some userId) department =
          (Response.mk 200 (BAlerts (getAlertsByDepartment (db srv) department)),
           srv)) ∧
     (∀ id body,
        Response.status (patch_alerts_id srv env (Some userId) id body).1 ≠ 403)).
Proof.
  split; [|split].
  - intros Hrole.
    assert (requireRole ["staff"; "admin"] (db srv) (Some userId) = inr user) as Hgate.
    { apply requireRole_inr. exists userId. rewrite Hrole.
      repeat split; try done. by apply includes_spec. }
    split.
    + intros department Hdep. unfold get_alerts_department.
      by rewrite Hgate, department_gate_true.
    + intros id body data alert Hbody Halert Hdep. unfold patch_alerts_id.
      by rewrite Hgate, Hbody, Halert, department_gate_true.
  - intros Hrole.
    assert (requireRole ["staff"; "admin"] (db srv) (Some userId)
            = inl (json_message 403 "Forbidden")) as Hgate.
    { apply (requireRole_student srv userId user); [done..|].
      rewrite Hrole. by intros Hin%includes_spec. }
    split.
    + intros department. unfold get_alerts_department. by rewrite Hgate.
    + intros id body. unfold patch_alerts_id. by rewrite Hgate.
  - intros Hrole.
    assert (requireRole ["staff"; "admin"] (db srv) (Some userId) = inr user) as Hgate.
    { apply requireRole_inr. exists userId. rewrite Hrole.
      repeat split; try done. by apply includes_spec. }
    split.
    + intros department. unfold get_alerts_department.
      by rewrite Hgate, Hrole.
    + intros id body. unfold patch_alerts_id. rewrite Hgate, Hrole.
      destruct (updateAlertStatusSchema body) as [data|]; [|done].
      destruct (getAlert (db srv) id) as [alert|]; [|done].
      simpl. destruct (transition_refused _ _); [done|].
      by destruct (updateAlert (db srv) id (updateData data user env)).
Qed.

Lemma C3_staff_department_gate_witness :
  get_alerts_department (srv1 "pending") (Some "sec1") "medical" =
    (json_message 403 "Forbidden", srv1 "pending") ∧
  patch_alerts_id (srv1 "pending") env1 (Some "sec1") "a1"
    (status_body "acknowledged") =
    (json_message 403 "Forbidden - can only manage your department's alerts",
     srv1 "pending").
Proof.
  assert ("sec1" ≠ "") as Hne by done.
  assert (getUser (db (srv1 "pending")) "sec1" = Some security_staff) as Huser
    by reflexivity.
  destruct (C3_staff_department_gate (srv1 "pending") env1 "sec1" security_staff
              Hne Huser) as [Hstaff _].
  destruct (Hstaff eq_refl) as [Hview Hupdate].
  split.
  - apply Hview. done.
  - apply (Hupdate "a1" (status_body "acknowledged")
             (UpdateAlertStatus.mk "acknowledged" None) (alert1 "pending"));
      [reflexivity|reflexivity|done].
Defined.

(** ** Alert creation *)

(** What an answer 200 of [POST /api/alerts] tells. *)
Lemma post_alerts_200 srv env session body :
  Response.status (post_alerts srv env session body).1 = 200 →
  ∃ userId data alert d,
    session = Some userId ∧ userId ≠ "" ∧
    insertAlertSchema body = Some data ∧
    createAlert (db srv) env (with_userId data userId) = inr (alert, d) ∧
    (post_alerts srv env session body).1 = Response.mk 200 (BAlert alert) ∧
    db (post_alerts srv env session body).2 = d ∧
    clients (post_alerts srv env session body).2 = clients srv.
Proof.
  unfold post_alerts.
  destruct (requireAuth session) as [r|userId] eqn:Hauth.
  { unfold requireAuth in Hauth.
    destruct session; [destruct (truthy _)|]; by simplify_eq/=. }
  apply requireAuth_inr in Hauth as [-> Hne].
  destruct (insertAlertSchema body) as [data|] eqn:Hbody; [|done].
  destruct (createAlert _ _ _) as [e|[alert d]] eqn:Hcreate; [done|].
  intros _. exists userId, data, alert, d. simpl.
  destruct (notify_staff_frame
              (new_alert (Alert.id alert) (Alert.department alert) alert)
              (List.filter (is_department_staff (Alert.department alert))
                 (getAllUsers d))
              (with_db srv d)) as (-> & -> & _).
  done.
Qed.

(** A valid payload from a stored user is accepted when the generated id is
    new. *)
Lemma post_alerts_accepts srv env userId body data :
  userId ≠ "" →
  insertAlertSchema body = Some data →
  is_Some (getUser (db srv) userId) →
  getAlert (db srv) (uuid env) = None →
  Response.status (post_alerts srv env (Some userId) body).1 = 200.
Proof.
  intros Hne Hbody Huser Hfresh. unfold post_alerts.
  assert (requireAuth (Some userId) = inr userId) as ->
    by by apply requireAuth_inr.
  rewrite Hbody.
  destruct (createAlert_accepts (db srv) env (with_userId data userId))
    as (alert & d & ->); done.
Qed.

Lemma insertAlertSchema_status body data :
  insertAlertSchema body = Some data →
  InsertAlert.status data =
    match field "status" body with
    | Some (JStr s) => Some s
    | _ => None
    end.
Proof.
  unfold insertAlertSchema. intros H.
  repeat (apply bind_Some in H as (? & ? & H)). injection H as <-. simpl.
  match goal with
  | Hs : z_optional _ _ = Some _ |- _ => rename Hs into Hstatus
  end.
  unfold z_optional, z_enum in Hstatus.
  destruct (field "status" body) as [[]|]; simplify_eq/=; try done.
  match type of Hstatus with
  | context [if ?b then _ else _] => destruct b
  end; by simplify_eq/=.
Qed.

(** What an answer 200 of [POST /api/alerts] tells about the stored rows:
    the alert of the response is the one row that the request has added. *)
Lemma post_alerts_created srv env session body :
  Response.status (post_alerts srv env session body).1 = 200 →
  ∃ userId data,
    session = Some userId ∧ userId ≠ "" ∧
    insertAlertSchema body = Some data ∧
    is_Some (getUser (db srv) userId) ∧
    getAlert (db srv) (uuid env) = None ∧
    let alert :=
      Alert.mk (uuid env) userId (InsertAlert.department data)
        (default "pending" (InsertAlert.status data))
        (InsertAlert.latitude data) (InsertAlert.longitude data)
        (InsertAlert.locationName data) (InsertAlert.locationAccuracy data)
        (InsertAlert.situationData data) (InsertAlert.responseNotes data)
        None None None None (now env) in
    (post_alerts srv env session body).1 = Response.mk 200 (BAlert alert) ∧
    db (post_alerts srv env session body).2
      = with_alerts (db srv) (alerts (db srv) ++ [alert]).
Proof.
  intros Haccepted.
  destruct (post_alerts_200 _ _ _ _ Haccepted)
    as (userId & data & alert & d & -> & Hne & Hbody & Hcreate & Hr & Hd & _).
  exists userId, data. rewrite Hr, Hd.
  pose proof (createAlert_inr _ _ _ _ _ Hcreate)
    as (_ & _ & _ & _ & Hfresh & Huser & _).
  revert Hcreate. unfold createAlert. cbn [Alert.id Alert.userId].
  case_bool_decide; [done|]. case_bool_decide; [done|].
  by intros [= <- <-].
Qed.

Lemma z_max_Some n v s :
  z_max n v = Some s → v = Some (JStr s) ∧ (js_length s ≤ n)%nat.
Proof.
  unfold z_max. destruct v as [[]|]; try done. simpl.
  case_bool_decide; [|done]. by intros [= <-].
Qed.

(** C4: a student's [POST /api/alerts] with the body of the client and
    [status: "resolved"] is answered 200, and the alert that the request
    adds to the table, owned by the student, is resolved at its creation,
    with no stamp and nobody who acknowledged it. *)
Theorem C4_resolved_at_creation :
  let srv := srv1 "pending" in
  let answer := post_alerts srv env1 (Some "s1") (alert_body "resolved") in
  ∃ alert,
    getUser (db srv) "s1" = Some student1 ∧
    User.role student1 = "student" ∧
    answer.1 = Response.mk 200 (BAlert alert) ∧
    Alert.id alert = uuid env1 ∧
    getAlert (db srv) (uuid env1) = None ∧
    alerts (db answer.2) = (alerts (db srv) ++ [alert])%list ∧
    Alert.userId alert = "s1" ∧
    Alert.status alert = "resolved" ∧
    Alert.acknowledgedAt alert = None ∧
    Alert.acknowledgedBy alert = None ∧
    Alert.dispatchedAt alert = None ∧
    Alert.resolvedAt alert = None.
Proof. intros srv answer. eexists. vm_compute. by repeat split. Qed.

(** The status of a created alert is the one of the payload, whatever it
    is, and pending only when the payload has none. *)
Lemma post_alerts_keeps_status srv env session body :
  Response.status (post_alerts srv env session body).1 = 200 →
  ∃ alert,
    (post_alerts srv env session body).1 = Response.mk 200 (BAlert alert) ∧
    alerts (db (post_alerts srv env session body).2)
      = (alerts (db srv) ++ [alert])%list ∧
    (field "status" body = None → Alert.status alert = "pending") ∧
    (∀ s, field "status" body = Some (JStr s) → Alert.status alert = s).
Proof.
  intros Haccepted.
  destruct (post_alerts_created _ _ _ _ Haccepted)
    as (userId & data & _ & _ & Hbody & _ & _ & Hr & Hd).
  apply insertAlertSchema_status in Hbody.
  eexists. split; [exact Hr|]. rewrite Hd. split; [done|].
  cbn [Alert.status]. rewrite Hbody. split.
  - by intros ->.
  - by intros s ->.
Qed.

(** C5: when [POST /api/alerts] answers 200, the request has a session user
    id, which names a stored user, and the alert of the response is the one
    row that the request has created: it has the generated id, which no
    alert had before, it is appended to the stored alerts and nothing else
    is added or changed in the database. Its [userId] is the session user
    id, whatever [userId] the payload carries. *)
Theorem C5_created_owner srv env session body
    (Haccepted : Response.status (post_alerts srv env session body).1 = 200) :
  ∃ userId claimed alert,
    session = Some userId ∧
    is_Some (getUser (db srv) userId) ∧
    field "userId" body = Some (JStr claimed) ∧
    (post_alerts srv env session body).1 = Response.mk 200 (BAlert alert) ∧
    Alert.id alert = uuid env ∧
    getAlert (db srv) (uuid env) = None ∧
    db (post_alerts srv env session body).2
      = with_alerts (db srv) (alerts (db srv) ++ [alert]) ∧
    getAlert (db (post_alerts srv env session body).2) (Alert.id alert)
      = Some alert ∧
    Alert.userId alert = userId.
Proof.
  destruct (post_alerts_created _ _ _ _ Haccepted)
    as (userId & data & -> & Hne & Hbody & Huser & Hfresh & Hr & Hd).
  assert (∃ claimed, field "userId" body = Some (JStr claimed))
    as [claimed Hclaimed].
  { unfold insertAlertSchema in Hbody.
    apply bind_Some in Hbody as (claimed & Hclaimed & _).
    apply z_max_Some in Hclaimed as [Hclaimed _]. by exists claimed. }
  eexists userId, claimed, _. rewrite Hr, Hd.
  repeat (split; [done|]). split; [|done].
  unfold getAlert in *. cbn [alerts with_alerts Alert.id].
  rewrite list.filter_app.
  destruct (filter _ (alerts (db srv))); [|done]. simpl.
  by rewrite filter_cons, decide_True.
Qed.

Lemma C5_created_owner_witness :
  let body := JObj [("userId", JStr "adm"); ("department", JStr "medical")] in
  ∃ alert,
    (post_alerts (srv1 "pending") env1 (Some "s1") body).1
      = Response.mk 200 (BAlert alert) ∧
    field "userId" body = Some (JStr "adm") ∧
    Alert.userId alert = "s1" ∧
    alerts (db (post_alerts (srv1 "pending") env1 (Some "s1") body).2)
      = [alert1 "pending"; alert].
Proof.
  intros body.
  destruct (C5_created_owner (srv1 "pending") env1 (Some "s1") body)
    as (userId & claimed & alert & Hs & _ & _ & Hr & _ & _ & Hd & _ & Howner).
  - vm_compute. reflexivity.
  - exists alert. injection Hs as <-. split; [exact Hr|].
    split; [reflexivity|]. split; [exact Howner|]. by rewrite Hd.
Defined.

(** ** Deleting one's own account *)

(** C6: an admin who asks to delete their own id is answered 400 with
    "Cannot delete your own account", and the state of the server, users and
    audit logs included, is what it was. *)
Theorem C6_self_delete_refused srv env userId user
    (Hne : userId ≠ "")
    (Huser : getUser (db srv) userId = Some user)
    (Hadmin : User.role user = "admin") :
  delete_admin_users_id srv env (Some userId) userId =
    (json_message 400 "Cannot delete your own account", srv).
Proof.
  unfold delete_admin_users_id.
  assert (requireRole ["admin"] (db srv) (Some userId) = inr user) as ->.
  { apply requireRole_inr. exists userId. rewrite Hadmin.
    repeat split; try done. by apply includes_spec. }
  by rewrite bool_decide_true.
Qed.

Lemma C6_self_delete_refused_witness :
  delete_admin_users_id (srv1 "pending") env1 (Some "adm") "adm" =
    (json_message 400 "Cannot delete your own account", srv1 "pending").
Proof.
  apply (C6_self_delete_refused (srv1 "pending") env1 "adm" admin1);
    [done|reflexivity|reflexivity].
Defined.

(** ** Stamps of a status update *)

(** C7: for every pending alert and every acting user who passes the role
    and department gates, an update that is answered 200 returns the stored
    alert with the requested status; when that status is acknowledged its
    [acknowledgedAt] is the time of the request and its [acknowledgedBy] the
    acting user's id, when it is dispatched [dispatchedAt] is set, and when it
    is resolved [resolvedAt] is set. Updates to acknowledged and to
    dispatched are answered 200. *)
Theorem C7_update_stamps srv env userId user id alert body data
    (Hne : userId ≠ "")
    (Huser : getUser (db srv) userId = Some user)
    (Hrole : User.role user ∈ ["staff"; "admin"])
    (Hdep : User.role user = "staff" →
            User.department user = Some (Alert.department alert))
    (Halert : getAlert (db srv) id = Some alert)
    (Hpending : Alert.status alert = "pending")
    (Hbody : updateAlertStatusSchema body = Some data) :
  (Response.status (patch_alerts_id srv env (Some userId) id body).1 = 200 →
   ∃ updated,
     (patch_alerts_id srv env (Some userId) id body).1
       = Response.mk 200 (BAlert updated) ∧
     getAlert (db (patch_alerts_id srv env (Some userId) id body).2) id
       = Some updated ∧
     Alert.status updated = UpdateAlertStatus.status data ∧
     (UpdateAlertStatus.status data = "acknowledged" →
        Alert.acknowledgedAt updated = Some (now env) ∧
        Alert.acknowledgedBy updated = Some (User.id user)) ∧
     (UpdateAlertStatus.status data = "dispatched" →
        Alert.dispatchedAt updated = Some (now env)) ∧
     (UpdateAlertStatus.status data = "resolved" →
        Alert.resolvedAt updated = Some (now env))) ∧
  (UpdateAlertStatus.status data ∈ ["acknowledged"; "dispatched"] →
   Response.status (patch_alerts_id srv env (Some userId) id body).1 = 200).
Proof.
  destruct (patch_alerts_id_ok srv env userId user id body data alert)
    as (srv' & Hpatch & Hget & _); try done.
  { rewrite Hpending. apply transition_refused_pending. }
  rewrite Hpatch. simpl. split; [|done].
  intros _. eexists. split; [reflexivity|]. split; [exact Hget|].
  destruct data as [status notes]. simpl. split; [|split; [|split]].
  - unfold updateData. simpl. by repeat case_match.
  - by intros ->.
  - by intros ->.
  - by intros ->.
Qed.

Lemma C7_update_stamps_witness :
  ∃ updated,
    (patch_alerts_id (srv1 "pending") env1 (Some "m1") "a1"
       (status_body "acknowledged")).1 = Response.mk 200 (BAlert updated) ∧
    Alert.acknowledgedAt updated = Some 100 ∧
    Alert.acknowledgedBy updated = Some "m1".
Proof.
  destruct (C7_update_stamps (srv1 "pending") env1 "m1" medical_staff "a1"
              (alert1 "pending") (status_body "acknowledged")
              (UpdateAlertStatus.mk "acknowledged" None))
    as [Hstamps Hanswered].
  - done.
  - reflexivity.
  - by apply includes_spec.
  - reflexivity.
  - reflexivity.
  - reflexivity.
  - reflexivity.
  - destruct Hstamps as (updated & Hr & _ & _ & Hack & _).
    + apply Hanswered. by apply includes_spec.
    + exists updated. split; [exact Hr|]. apply Hack. reflexivity.
Defined.

(** ** Listing the messages of a chat session *)

Global Instance asc_total {A} (column : A → Z) : Total (asc column).
Proof. intros x y. unfold asc. lia. Qed.

Global Instance asc_transitive {A} (column : A → Z) : Transitive (asc column).
Proof. intros x y z. unfold asc. lia. Qed.

Global Instance desc_total {A} (column : A → Z) : Total (desc column).
Proof. intros x y. unfold desc. lia. Qed.

Global Instance desc_transitive {A} (column : A → Z) : Transitive (desc column).
Proof. intros x y z. unfold desc. lia. Qed.

(** In a strongly sorted list, positions and values are in the same order. *)
Lemma StronglySorted_lookup_lt {A} (R : relation A) (l : list A) :
  StronglySorted R l →
  ∀ (i j : nat) x y, (i < j)%nat → l !! i = Some x → l !! j = Some y → R x y.
Proof.
  induction 1 as [|a l Hsorted IH Hall]; intros i j x y Hlt Hi Hj.
  - by rewrite lookup_nil in Hi.
  - destruct j as [|j]; [lia|]. rewrite lookup_cons in Hj.
    destruct i as [|i].
    + rewrite lookup_cons in Hi. injection Hi as <-.
      rewrite Forall_forall in Hall. apply Hall.
      apply list_elem_of_In, list_elem_of_lookup. eauto.
    + rewrite lookup_cons in Hi. apply (IH i j); [lia|done..].
Qed.

Lemma getMessagesBySession_spec d sessionId :
  getMessagesBySession d sessionId ≡ₚ
    filter (λ m, Message.sessionId m = sessionId) (messages d) ∧
  ∀ (i j : nat) mi mj,
    (i ≤ j)%nat →
    getMessagesBySession d sessionId !! i = Some mi →
    getMessagesBySession d sessionId !! j = Some mj →
    Message.createdAt mi ≤ Message.createdAt mj.
Proof.
  unfold getMessagesBySession. split.
  - apply merge_sort_Permutation.
  - intros i j mi mj Hle Hi Hj.
    destruct (decide (i = j)) as [->|Hneq].
    + rewrite Hi in Hj. injection Hj as <-. lia.
    + eapply (StronglySorted_lookup_lt (asc Message.createdAt));
        [apply (StronglySorted_merge_sort (asc Message.createdAt))
        | | exact Hi | exact Hj]; lia.
Qed.

(** C8: for every chat session and every user allowed to read it,
    [GET /api/chats/messages/:sessionId] answers 200 with a list that is a
    rearrangement of the stored messages of that session, in which a message
    at an earlier position was never created later than one at a later
    position; nothing is changed. *)
Theorem C8_messages_oldest_first srv userId user sessionId chat
    (Hne : userId ≠ "")
    (Hchat : getChatSession (db srv) sessionId = Some chat)
    (Huser : getUser (db srv) userId = Some user)
    (Haccess : canAccess chat userId user = true) :
  let listed := getMessagesBySession (db srv) sessionId in
  get_chats_messages srv (Some userId) sessionId =
    (Response.mk 200 (BMessages listed), srv) ∧
  listed ≡ₚ filter (λ m, Message.sessionId m = sessionId) (messages (db srv)) ∧
  ∀ (i j : nat) mi mj,
    (i ≤ j)%nat → listed !! i = Some mi → listed !! j = Some mj →
    Message.createdAt mi ≤ Message.createdAt mj.
Proof.
  intros listed. split.
  - unfold get_chats_messages.
    assert (requireAuth (Some userId) = inr userId) as ->
      by by apply requireAuth_inr.
    by rewrite Hchat, Huser, Haccess.
  - apply getMessagesBySession_spec.
Qed.

Lemma C8_messages_oldest_first_witness :
  get_chats_messages (srv1 "pending") (Some "s1") "c1" =
    (Response.mk 200
       (BMessages [message1 "x1" "s1" "student" 2; message1 "x2" "adm" "staff" 4;
                   message1 "x3" "s1" "student" 9]),
     srv1 "pending").
Proof.
  destruct (C8_messages_oldest_first (srv1 "pending") "s1" student1 "c1" chat1)
    as (Hr & _); [done|reflexivity..|].
  rewrite Hr. reflexivity.
Defined.

(** ** The connection registry *)

Lemma broadcastToAll_frame message srv :
  db (broadcastToAll message srv) = db srv ∧
  clients (broadcastToAll message srv) = clients srv ∧
  readyState (broadcastToAll message srv) = readyState srv.
Proof.
  unfold broadcastToAll.
  apply (map_fold_weak_ind
           (λ r (_ : gmap string (gset nat)),
              db r = db srv ∧ clients r = clients srv ∧
              readyState r = readyState srv)); [done|].
  intros userId userClients m r _ (Hdb & Hclients & Hready).
  destruct (foldr_send_frame message (elements userClients) r) as (H1 & H2 & H3).
  unfold set_fold. simpl. by rewrite H1, H2, H3.
Qed.

(** What one broadcast to a set of sockets leaves in [sent]. *)
Lemma set_fold_send message srv (X : gset nat) :
  let srv' := set_fold (send_if_open message) srv X in
  readyState srv' = readyState srv ∧
  ∀ client,
    sent srv' client =
      if bool_decide (client ∈ X ∧ readyState srv client = OPEN)
      then (sent srv client ++ [message])%list
      else sent srv client.
Proof.
  simpl. revert X. apply (set_fold_ind_L
    (λ r (Y : gset nat),
       readyState r = readyState srv ∧
       ∀ client,
         sent r client =
           if bool_decide (client ∈ Y ∧ readyState srv client = OPEN)
           then (sent srv client ++ [message])%list
           else sent srv client)).
  - split; [done|]. intros client. rewrite bool_decide_false; [done|].
    intros [Hin _]. by apply not_elem_of_empty in Hin.
  - intros x X r Hx [Hready Hsent]. unfold send_if_open. rewrite Hready.
    case_bool_decide as Hopen; simpl.
    + split; [done|]. intros client.
      destruct (decide (client = x)) as [->|Hneq].
      * rewrite fn_lookup_insert, Hsent.
        rewrite bool_decide_false by (by intros [? _]).
        rewrite bool_decide_true; [done|]. split; [|done].
        apply elem_of_union_l. by apply elem_of_singleton.
      * rewrite fn_lookup_insert_ne by done. rewrite Hsent.
        rewrite (bool_decide_ext (client ∈ X ∧ readyState srv client = OPEN)
                   (client ∈ {[x]} ∪ X ∧ readyState srv client = OPEN));
          [done|].
        rewrite elem_of_union, elem_of_singleton. tauto.
    + split; [done|]. intros client. rewrite Hsent.
      rewrite (bool_decide_ext (client ∈ X ∧ readyState srv client = OPEN)
                 (client ∈ {[x]} ∪ X ∧ readyState srv client = OPEN));
        [done|].
      rewrite elem_of_union, elem_of_singleton.
      split; [tauto|]. intros [[->|Hin] Ho]; [done|tauto].
Qed.

Lemma register_lookup userId ws (c : gmap string (gset nat)) :
  register userId ws c !! userId = Some (default ∅ (c !! userId) ∪ {[ws]}).
Proof.
  unfold register. rewrite lookup_alter_eq.
  case_bool_decide as Hhas.
  - destruct Hhas as [s Hs]. by rewrite Hs.
  - rewrite lookup_insert_eq. destruct (c !! userId) eqn:E; [|done].
    destruct Hhas. eauto.
Qed.

Lemma register_lookup_ne userId ws (c : gmap string (gset nat)) other :
  other ≠ userId → register userId ws c !! other = c !! other.
Proof.
  intros Hneq. unfold register. rewrite lookup_alter_ne by done.
  case_bool_decide; [done|]. by rewrite lookup_insert_ne.
Qed.

Lemma unregister_lookup userId ws (c : gmap string (gset nat)) :
  unregister userId ws c !! userId =
    match c !! userId with
    | Some s => if bool_decide (s ∖ {[ws]} = ∅) then None else Some (s ∖ {[ws]})
    | None => None
    end.
Proof.
  unfold unregister. destruct (c !! userId) as [s|] eqn:Hs.
  - rewrite bool_decide_true by eauto.
    rewrite lookup_alter_eq, Hs. simpl.
    destruct (decide (s ∖ {[ws]} = ∅)) as [Hempty|Hnonempty].
    + rewrite (bool_decide_true (s ∖ {[ws]} = ∅)) by done.
      rewrite bool_decide_true by (by rewrite Hempty, size_empty).
      apply lookup_delete_eq.
    + rewrite (bool_decide_false (s ∖ {[ws]} = ∅)) by done.
      rewrite bool_decide_false.
      * by rewrite lookup_alter_eq, Hs.
      * intros Hsize. apply Hnonempty. apply leibniz_equiv.
        by apply size_empty_iff.
  - rewrite bool_decide_false; [done|]. by intros [? ?].
Qed.

Lemma unregister_lookup_ne userId ws (c : gmap string (gset nat)) other :
  other ≠ userId → unregister userId ws c !! other = c !! other.
Proof.
  intros Hneq. unfold unregister. case_bool_decide; [|done].
  destruct (alter _ userId c !! userId) as [s|]; [case_bool_decide|].
  - by rewrite lookup_delete_ne, lookup_alter_ne.
  - by rewrite lookup_alter_ne.
  - by rewrite lookup_alter_ne.
Qed.

Lemma handle_no_empty_entry srv e :
  no_empty_entry (clients srv) → no_empty_entry (clients (handle srv e)).
Proof.
  intros Hinv. destruct e as [userId ws|userId ws|userId message|message]; simpl.
  - intros other s. destruct (decide (other = userId)) as [->|Hneq].
    + rewrite register_lookup. intros [= <-] Hempty.
      assert (ws ∈ (∅ : gset nat)) as Hin.
      { rewrite <- Hempty. apply elem_of_union_r. by apply elem_of_singleton. }
      by apply not_elem_of_empty in Hin.
    + rewrite register_lookup_ne by done. apply Hinv.
  - intros other s. destruct (decide (other = userId)) as [->|Hneq].
    + rewrite unregister_lookup. destruct (clients srv !! userId); [|done].
      case_bool_decide; [done|]. by intros [= <-].
    + rewrite unregister_lookup_ne by done. apply Hinv.
  - by destruct (broadcastToUser_frame message userId srv) as (_ & -> & _).
  - by destruct (broadcastToAll_frame message srv) as (_ & -> & _).
Qed.

Lemma run_no_empty_entry events srv :
  no_empty_entry (clients srv) → no_empty_entry (clients (run srv events)).
Proof.
  unfold run. revert srv.
  induction events as [|e events IH]; intros srv Hinv; [done|].
  simpl. apply IH. by apply handle_no_empty_entry.
Qed.

Lemma broadcastToUser_sent srv userId s message client :
  clients srv !! userId = Some s →
  sent (broadcastToUser userId message srv) client =
    if bool_decide (client ∈ s ∧ readyState srv client = OPEN)
    then (sent srv client ++ [message])%list
    else sent srv client.
Proof.
  intros Hs. unfold broadcastToUser. rewrite Hs.
  apply (set_fold_send message srv s).
Qed.

Lemma broadcastToUser_absent srv userId message :
  clients srv !! userId = None → broadcastToUser userId message srv = srv.
Proof. intros Hnone. unfold broadcastToUser. by rewrite Hnone. Qed.

Lemma on_close_last srv userId ws :
  clients srv !! userId = Some {[ws]} →
  clients (on_close userId ws srv) !! userId = None.
Proof.
  intros Hs. simpl. rewrite unregister_lookup, Hs.
  rewrite bool_decide_true; [done|]. apply leibniz_equiv.
  intros x. rewrite elem_of_difference. split; [tauto|].
  intros Hx. by apply not_elem_of_empty in Hx.
Qed.

(** C9: in every state that the registry reaches from the empty map no user
    id is mapped to an empty set; closing the only connection of a user
    removes the user's entry, and a broadcast to that user then returns the
    state as it is; a broadcast to a user appends the event to the frames of
    exactly the sockets of the user's set whose [readyState] is [OPEN]; after
    two upgrades for one user, one broadcast reaches both sockets. *)
Theorem C9_registry :
  (∀ d events, no_empty_entry (clients (run (started d) events))) ∧
  (∀ srv userId ws message,
     clients srv !! userId = Some {[ws]} →
     clients (on_close userId ws srv) !! userId = None ∧
     broadcastToUser userId message (on_close userId ws srv)
       = on_close userId ws srv) ∧
  (∀ srv userId s message client,
     clients srv !! userId = Some s →
     sent (broadcastToUser userId message srv) client =
       if bool_decide (client ∈ s ∧ readyState srv client = OPEN)
       then (sent srv client ++ [message])%list
       else sent srv client) ∧
  (∀ srv userId ws1 ws2 message,
     let srv2 := on_upgrade userId ws2 (on_upgrade userId ws1 srv) in
     sent (broadcastToUser userId message srv2) ws1
       = (sent srv ws1 ++ [message])%list ∧
     sent (broadcastToUser userId message srv2) ws2
       = (sent srv ws2 ++ [message])%list).
Proof.
  split; [|split; [|split]].
  - intros d events. apply run_no_empty_entry. intros userId s. simpl.
    by rewrite lookup_empty.
  - intros srv userId ws message Hs.
    pose proof (on_close_last srv userId ws Hs) as Hnone.
    split; [exact Hnone|]. by apply broadcastToUser_absent.
  - intros srv userId s message client. apply broadcastToUser_sent.
  - intros srv userId ws1 ws2 message srv2.
    assert (clients srv2 !! userId =
            Some (default ∅ (clients srv !! userId) ∪ {[ws1]} ∪ {[ws2]})) as Hs.
    { unfold srv2. simpl. by rewrite !register_lookup. }
    assert (readyState srv2 ws2 = OPEN) as Hopen2.
    { unfold srv2. simpl. apply fn_lookup_insert. }
    assert (readyState srv2 ws1 = OPEN) as Hopen1.
    { unfold srv2. simpl. destruct (decide (ws2 = ws1)) as [->|Hneq].
      - apply fn_lookup_insert.
      - rewrite fn_lookup_insert_ne by done. apply fn_lookup_insert. }
    rewrite !(broadcastToUser_sent srv2 userId _ message _ Hs).
    rewrite !bool_decide_true; [done|split; [|done]..].
    + apply elem_of_union_r. by apply elem_of_singleton.
    + apply elem_of_union_l, elem_of_union_r. by apply elem_of_singleton.
Qed.

Lemma C9_registry_witness :
  let srv := run (started (db1 "pending"))
               [Upgrade "m1" 1%nat; Upgrade "m1" 2%nat; Close "m1" 1%nat] in
  clients srv !! "m1" = Some {[2%nat]} ∧
  clients (on_close "m1" 2%nat srv) !! "m1" = None ∧
  broadcastToUser "m1" (alert_updated "a1" "resolved") (on_close "m1" 2%nat srv)
    = on_close "m1" 2%nat srv.
Proof.
  intros srv.
  assert (clients srv !! "m1" = Some {[2%nat]}) as Hs by (vm_compute; reflexivity).
  split; [exact Hs|].
  destruct C9_registry as (_ & Hclose & _).
  exact (Hclose srv "m1" 2%nat (alert_updated "a1" "resolved") Hs).
Defined.

(** ** Password hashes never reach a response *)

(** Sorting commutes with a projection that keeps the order. *)
Section merge_sort_fmap.
Context {A B : Type} (f : A → B) (R : relation A) (S : relation B).
Context `{∀ x y, Decision (R x y)} `{∀ x y, Decision (S x y)}.
Hypothesis order_kept : ∀ x y, R x y ↔ S (f x) (f y).

Lemma list_merge_fmap l1 l2 :
    f <$> list_merge R l1 l2 = list_merge S (f <$> l1) (f <$> l2).
  Proof.
    revert l2. induction l1 as [|x1 l1 IH1]; intros l2.
    { by destruct l2. }
    induction l2 as [|x2 l2 IH2]; [done|].
    simpl. destruct (decide (R x1 x2)) as [Hr|Hr].
    - rewrite decide_True by (by apply order_kept).
      rewrite fmap_cons. f_equal. apply (IH1 (x2 :: l2)).
    - rewrite decide_False by (by rewrite <- order_kept).
      rewrite fmap_cons. f_equal. apply IH2.
  Qed.

Local Abbreviation on_stack st :=
    (fmap (M:=list) (fmap (M:=option) (fmap (M:=list) f)) st).

Lemma merge_list_to_stack_fmap st l :
    on_stack (merge_list_to_stack R st l) =
      merge_list_to_stack S (on_stack st) (f <$> l).
  Proof.
    revert l. induction st as [|[l'|] st IH]; intros l; simpl; [done| |done].
    by rewrite IH, list_merge_fmap.
  Qed.

Lemma merge_stack_fmap st :
    f <$> merge_stack R st = merge_stack S (on_stack st).
  Proof.
    induction st as [|[l'|] st IH]; simpl; [done| |done].
    by rewrite list_merge_fmap, IH.
  Qed.

Lemma merge_sort_aux_fmap st l :
    f <$> merge_sort_aux R st l = merge_sort_aux S (on_stack st) (f <$> l).
  Proof.
    revert st. induction l as [|x l IH]; intros st; simpl.
    - apply merge_stack_fmap.
    - rewrite IH. f_equal. apply (merge_list_to_stack_fmap st [x]).
  Qed.

Lemma merge_sort_fmap l : f <$> merge_sort R l = merge_sort S (f <$> l).
  Proof. apply (merge_sort_aux_fmap []). Qed.
End merge_sort_fmap.

(** What [omit_password] keeps of a row does not depend on its password. *)
Lemma same_but_password_omit u1 u2 :
  same_but_password u1 u2 → omit_password u1 = omit_password u2.
Proof.
  destruct u1, u2. unfold same_but_password, omit_password. simpl.
  by intros (-> & -> & -> & -> & -> & -> & -> & -> & ->).
Qed.

Lemma omit_password_rows l1 l2 :
  Forall2 same_but_password l1 l2 →
  omit_password <$> l1 = omit_password <$> l2.
Proof.
  induction 1 as [|u1 u2 k1 k2 Hu _ IH]; [done|].
  apply same_but_password_omit in Hu. rewrite !fmap_cons. by rewrite Hu, IH.
Qed.

Lemma find_by_column {K} `{EqDecision K}
    (column : User.t → K) (column' : UserWithoutPassword.t → K) (k : K) l1 l2 :
  (∀ u, column u = column' (omit_password u)) →
  Forall2 same_but_password l1 l2 →
  omit_password <$> head (filter (λ u, column u = k) l1) =
  omit_password <$> head (filter (λ u, column u = k) l2).
Proof.
  intros Hcolumn.
  induction 1 as [|u1 u2 k1 k2 Hu _ IH]; [done|].
  apply same_but_password_omit in Hu. rewrite !filter_cons.
  assert (column u1 = column u2) as Heq by (by rewrite !Hcolumn, Hu).
  rewrite Heq. destruct (decide (column u2 = k)); [|exact IH].
  simpl. by rewrite Hu.
Qed.

Lemma getUser_two_runs d1 d2 id :
  differ_only_in_passwords d1 d2 →
  omit_password <$> getUser d1 id = omit_password <$> getUser d2 id.
Proof.
  intros [Husers _]. unfold getUser.
  by apply (find_by_column User.id UserWithoutPassword.id).
Qed.

Lemma getUserByEmail_two_runs d1 d2 email :
  differ_only_in_passwords d1 d2 →
  omit_password <$> getUserByEmail d1 email =
  omit_password <$> getUserByEmail d2 email.
Proof.
  intros [Husers _]. unfold getUserByEmail.
  by apply (find_by_column User.email UserWithoutPassword.email).
Qed.

Lemma getAllUsers_two_runs d1 d2 :
  differ_only_in_passwords d1 d2 →
  omit_password <$> getAllUsers d1 = omit_password <$> getAllUsers d2.
Proof.
  intros [Husers _]. unfold getAllUsers.
  rewrite !(merge_sort_fmap omit_password (desc User.createdAt)
              (desc UserWithoutPassword.createdAt)) by done.
  by rewrite (omit_password_rows _ _ Husers).
Qed.

Lemma requireRole_two_runs roles d1 d2 session :
  differ_only_in_passwords d1 d2 →
  sum_map id omit_password (requireRole roles d1 session) =
  sum_map id omit_password (requireRole roles d2 session).
Proof.
  intros Hdiff. unfold requireRole.
  destruct (requireAuth session) as [r|userId]; [done|].
  pose proof (getUser_two_runs d1 d2 userId Hdiff) as Huser.
  destruct (getUser d1 userId) as [u1|], (getUser d2 userId) as [u2|];
    try done.
  assert (omit_password u1 = omit_password u2) as Hu
    by exact (inj Some _ _ Huser).
  assert (User.role u1 = User.role u2) as ->
    by exact (f_equal UserWithoutPassword.role Hu).
  destruct (includes roles (User.role u2)); [|done]. simpl. by rewrite Hu.
Qed.

(** The insert of a user, with two hashes, into two such states. *)
Lemma createUser_two_runs d1 d2 env email hash1 hash2 role department fullName
    phoneNumber isActive :
  differ_only_in_passwords d1 d2 →
  sum_map id (λ p, omit_password p.1)
    (createUser d1 env
       (InsertUser.mk email hash1 role department fullName phoneNumber isActive)) =
  sum_map id (λ p, omit_password p.1)
    (createUser d2 env
       (InsertUser.mk email hash2 role department fullName phoneNumber isActive)).
Proof.
  intros Hdiff. unfold createUser. simpl.
  pose proof (getUser_two_runs d1 d2 (uuid env) Hdiff) as Hid.
  pose proof (getUserByEmail_two_runs d1 d2 email Hdiff) as Hemail.
  destruct (getUser d1 (uuid env)), (getUser d2 (uuid env)); try done.
  rewrite !(bool_decide_false (is_Some None)) by (by intros [? ?]).
  destruct (getUserByEmail d1 email), (getUserByEmail d2 email); done.
Qed.

(** C10: take two stored states that differ only in the [password] column
    of their users, that is, whose rows agree on all nine other columns, the
    same request, and any two implementations of bcrypt, one for each run.
    [GET /api/auth/me], [GET /api/admin/users] and [POST /api/auth/register]
    give the same response in both runs; so does [POST /api/auth/login] when
    the password check passes in both. No response therefore carries
    anything of a stored hash or of the hash made at registration. *)
Theorem C10_password_hash_not_in_responses (bcryptA bcryptB : Bcrypt)
    `{EmailFormat} srvA srvB env date session body
    (Hdiff : differ_only_in_passwords (db srvA) (db srvB)) :
  (get_auth_me srvA session).1.1 = (get_auth_me srvB session).1.1 ∧
  (get_admin_users srvA session).1 = (get_admin_users srvB session).1 ∧
  (@post_auth_register bcryptA _ srvA env date session body).1.1 =
    (@post_auth_register bcryptB _ srvB env date session body).1.1 ∧
  (@authenticates bcryptA _ (db srvA) body →
   @authenticates bcryptB _ (db srvB) body →
   (@post_auth_login bcryptA _ srvA env session body).1.1 =
     (@post_auth_login bcryptB _ srvB env session body).1.1).
Proof.
  split; [|split; [|split]].
  - unfold get_auth_me. destruct (requireAuth session) as [r|userId]; [done|].
    pose proof (getUser_two_runs _ _ userId Hdiff) as Huser.
    destruct (getUser (db srvA) userId), (getUser (db srvB) userId);
      try done.
    simpl. by rewrite (inj Some _ _ Huser).
  - unfold get_admin_users.
    pose proof (requireRole_two_runs ["admin"] _ _ session Hdiff) as Hgate.
    destruct (requireRole ["admin"] (db srvA) session),
      (requireRole ["admin"] (db srvB) session); simplify_eq/=; try done.
    by rewrite (getAllUsers_two_runs _ _ Hdiff).
  - unfold post_auth_register.
    destruct (registerSchema body) as [data|]; [|done].
    pose proof (getUserByEmail_two_runs _ _ (RegisterCredentials.email data) Hdiff)
      as Hemail.
    destruct (getUserByEmail (db srvA) (RegisterCredentials.email data)),
      (getUserByEmail (db srvB) (RegisterCredentials.email data)); try done.
    pose proof (createUser_two_runs (db srvA) (db srvB) env
                  (RegisterCredentials.email data)
                  (@bcrypt_hash bcryptA (RegisterCredentials.password data) 10
                     (salt env))
                  (@bcrypt_hash bcryptB (RegisterCredentials.password data) 10
                     (salt env))
                  (Some "student") (Some "none")
                  (Some (RegisterCredentials.fullName data))
                  (RegisterCredentials.phoneNumber data) (Some true) Hdiff)
      as Hcreate.
    destruct (createUser (db srvA) env _) as [eA|[uA dA]],
      (createUser (db srvB) env _) as [eB|[uB dB]]; simplify_eq/=; try done.
    unfold omit_password. congruence.
  - intros (email & password & userA & Hbody & HuserA & HokA)
           (email' & password' & userB & Hbody' & HuserB & HokB).
    rewrite Hbody in Hbody'. injection Hbody' as <- <-.
    unfold post_auth_login. rewrite Hbody, HuserA, HuserB, HokA, HokB. simpl.
    pose proof (getUserByEmail_two_runs _ _ email Hdiff) as Hemail.
    rewrite HuserA, HuserB in Hemail.
    pose proof (inj Some _ _ Hemail) as Hu.
    assert (User.isActive userA = User.isActive userB) as ->
      by exact (f_equal UserWithoutPassword.isActive Hu).
    destruct (User.isActive userB); [|done]. simpl. by rewrite Hu.
Qed.

Lemma C10_password_hash_not_in_responses_witness :
  let srvA := srv1 "pending" in
  let srvB := started (rehashed "$2a$10$other" (db1 "pending")) in
  (get_auth_me srvA (Some "m1")).1.1 = (get_auth_me srvB (Some "m1")).1.1 ∧
  (get_admin_users srvA (Some "adm")).1 = (get_admin_users srvB (Some "adm")).1 ∧
  (@post_auth_register sample_bcrypt sample_email srvA env1 101 None
     (register_body "new@campus.edu" "secret1")).1.1 =
    (@post_auth_register other_bcrypt sample_email srvB env1 101 None
       (register_body "new@campus.edu" "secret1")).1.1 ∧
  (@post_auth_login sample_bcrypt sample_email srvA env1 None
     (login_body "student1@campus.edu" "student123")).1.1 =
    (@post_auth_login other_bcrypt sample_email srvB env1 None
       (login_body "student1@campus.edu" "student123")).1.1.
Proof.
  intros srvA srvB.
  assert (differ_only_in_passwords (db srvA) (db srvB)) as Hdiff.
  { unfold differ_only_in_passwords, same_but_password. simpl.
    repeat split; repeat constructor. }
  destruct (@C10_password_hash_not_in_responses sample_bcrypt other_bcrypt
              sample_email srvA srvB env1 101 (Some "m1") JNull Hdiff)
    as (Hme & _).
  destruct (@C10_password_hash_not_in_responses sample_bcrypt other_bcrypt
              sample_email srvA srvB env1 101 (Some "adm") JNull Hdiff)
    as (_ & Husers & _).
  destruct (@C10_password_hash_not_in_responses sample_bcrypt other_bcrypt
              sample_email srvA srvB env1 101 None
              (register_body "new@campus.edu" "secret1") Hdiff)
    as (_ & _ & Hregister & _).
  destruct (@C10_password_hash_not_in_responses sample_bcrypt other_bcrypt
              sample_email srvA srvB env1 101 None
              (login_body "student1@campus.edu" "student123") Hdiff)
    as (_ & _ & _ & Hlogin).
  split; [exact Hme|]. split; [exact Husers|]. split; [exact Hregister|].
  apply Hlogin.
  - exists "student1@campus.edu", "student123", student1.
    repeat split; reflexivity.
  - eexists "student1@campus.edu", "student123", _.
    repeat split; reflexivity.
Defined.

(** * Further properties of the routes *)

(** ** The session and role gates *)

Lemma requireAuth_inl session :
  truthy session = false →
  requireAuth session = inl (json_message 401 "Unauthorized").
Proof.
  intros Hanon. unfold requireAuth. destruct session; [|done]. by rewrite Hanon.
Qed.

Lemma requireRole_unauthenticated roles d session :
  truthy session = false →
  requireRole roles d session = inl (json_message 401 "Unauthorized").
Proof. intros Hanon. unfold requireRole. by rewrite requireAuth_inl. Qed.

(** Without a session user id (none, or the empty string) the routes
    behind [requireAuth] or [requireRole] answer 401 "Unauthorized" (all of
    them but [POST /api/admin/users], which is not part of this development),
    [GET /api/auth/me] answers 401 "Not authenticated", and the state of the
    server is what it was. *)
Theorem unauthenticated_requests_answered_401 srv env random date session
    department id body
    (Hanon : truthy session = false) :
  post_alerts srv env session body = (json_message 401 "Unauthorized", srv) ∧
  get_alerts_my_alerts srv session = (json_message 401 "Unauthorized", srv) ∧
  get_alerts_department srv session department
    = (json_message 401 "Unauthorized", srv) ∧
  patch_alerts_id srv env session id body
    = (json_message 401 "Unauthorized", srv) ∧
  post_chats_sessions srv env random session body
    = (reply_message 401 "Unauthorized", srv) ∧
  get_chats_my_sessions srv session = (reply_message 401 "Unauthorized", srv) ∧
  get_chats_sessions_id srv session id
    = (reply_message 401 "Unauthorized", srv) ∧
  get_chats_department srv session department
    = (reply_message 401 "Unauthorized", srv) ∧
  post_chats_messages srv env date session body
    = (reply_message 401 "Unauthorized", srv) ∧
  get_chats_messages srv session id = (json_message 401 "Unauthorized", srv) ∧
  get_admin_stats srv session = (reply_message 401 "Unauthorized", srv) ∧
  get_admin_users srv session = (json_message 401 "Unauthorized", srv) ∧
  get_admin_alerts srv session = (json_message 401 "Unauthorized", srv) ∧
  get_admin_chats srv session = (reply_message 401 "Unauthorized", srv) ∧
  delete_admin_users_id srv env session id
    = (json_message 401 "Unauthorized", srv) ∧
  get_auth_me srv session = (json_message 401 "Not authenticated", srv, session).
Proof.
  unfold post_alerts, get_alerts_my_alerts, get_alerts_department,
    patch_alerts_id, post_chats_sessions, get_chats_my_sessions,
    get_chats_sessions_id, get_chats_department, post_chats_messages,
    get_chats_messages, get_admin_stats, get_admin_users, get_admin_alerts,
    get_admin_chats, delete_admin_users_id, get_auth_me.
  rewrite !requireRole_unauthenticated, !requireAuth_inl by done.
  repeat split.
Qed.

Lemma unauthenticated_requests_answered_401_witness :
  get_alerts_my_alerts (srv1 "pending") None
    = (json_message 401 "Unauthorized", srv1 "pending") ∧
  post_chats_messages (srv1 "pending") env1 7 (Some "")
    (JObj [("sessionId", JStr "c1"); ("content", JStr "hi")])
    = (reply_message 401 "Unauthorized", srv1 "pending").
Proof.
  split.
  - apply (unauthenticated_requests_answered_401 (srv1 "pending") env1 "" 0 None
             "" "" JNull eq_refl).
  - apply (unauthenticated_requests_answered_401 (srv1 "pending") env1 "" 7
             (Some "") "" ""
             (JObj [("sessionId", JStr "c1"); ("content", JStr "hi")]) eq_refl).
Defined.

Lemma requireRole_inl_403 roles d userId :
  userId ≠ "" →
  (∀ user, getUser d userId = Some user → User.role user ∉ roles) →
  requireRole roles d (Some userId) = inl (json_message 403 "Forbidden").
Proof.
  intros Hne Hrole. unfold requireRole.
  assert (requireAuth (Some userId) = inr userId) as ->
    by by apply requireAuth_inr.
  destruct (getUser d userId) as [user|] eqn:Huser; [|done].
  destruct (includes roles (User.role user)) eqn:E; [|done].
  apply includes_spec in E. by destruct (Hrole user).
Qed.

(** A session user who is not a stored admin (another role, or a record
    that no longer exists) is answered 403 "Forbidden" by the admin routes
    for the statistics, the three listings and the deletion of a user, and
    the state of the server is what it was. *)
Theorem admin_routes_forbidden srv env userId id
    (Hne : userId ≠ "")
    (Hrole : ∀ user, getUser (db srv) userId = Some user →
                     User.role user ≠ "admin") :
  get_admin_stats srv (Some userId) = (reply_message 403 "Forbidden", srv) ∧
  get_admin_users srv (Some userId) = (json_message 403 "Forbidden", srv) ∧
  get_admin_alerts srv (Some userId) = (json_message 403 "Forbidden", srv) ∧
  get_admin_chats srv (Some userId) = (reply_message 403 "Forbidden", srv) ∧
  delete_admin_users_id srv env (Some userId) id
    = (json_message 403 "Forbidden", srv).
Proof.
  assert (requireRole ["admin"] (db srv) (Some userId)
          = inl (json_message 403 "Forbidden")) as Hgate.
  { apply requireRole_inl_403; [done|]. intros user Huser Hin.
    apply (Hrole user Huser). by apply list_elem_of_singleton in Hin. }
  unfold get_admin_stats, get_admin_users, get_admin_alerts, get_admin_chats,
    delete_admin_users_id.
  rewrite !Hgate. repeat split.
Qed.

Lemma admin_routes_forbidden_witness :
  get_admin_users (srv1 "pending") (Some "m1")
    = (json_message 403 "Forbidden", srv1 "pending") ∧
  delete_admin_users_id (srv1 "pending") env1 (Some "gone") "s1"
    = (json_message 403 "Forbidden", srv1 "pending").
Proof.
  split.
  - apply (admin_routes_forbidden (srv1 "pending") env1 "m1" ""); [done|].
    intros user. vm_compute. intros [= <-]. done.
  - apply (admin_routes_forbidden (srv1 "pending") env1 "gone" "s1"); [done|].
    intros user. vm_compute. done.
Defined.

(** ** Listings *)

(** A listing ordered by [desc(column)]: a rearrangement of the rows, in
    which a row at an earlier position is never older than one at a later
    position. *)
Lemma newest_first {A} (column : A → Z) (l : list A) :
  merge_sort (desc column) l ≡ₚ l ∧
  ∀ (i j : nat) x y,
    (i ≤ j)%nat →
    merge_sort (desc column) l !! i = Some x →
    merge_sort (desc column) l !! j = Some y →
    column y ≤ column x.
Proof.
  split; [apply merge_sort_Permutation|].
  intros i j x y Hle Hi Hj. destruct (decide (i = j)) as [->|Hneq].
  - rewrite Hi in Hj. injection Hj as <-. lia.
  - eapply (StronglySorted_lookup_lt (desc column));
      [apply (StronglySorted_merge_sort (desc column))
      | | exact Hi | exact Hj]; lia.
Qed.

Lemma elem_of_newest_first {A} (column : A → Z) (P : A → Prop)
    `{∀ x, Decision (P x)} (l : list A) x :
  x ∈ merge_sort (desc column) (filter P l) ↔ P x ∧ x ∈ l.
Proof. by rewrite merge_sort_Permutation, list_elem_of_filter. Qed.

(** [GET /api/alerts/my-alerts] answers an authenticated user with the
    stored alerts whose owner is that user, all of them and no alert of
    anybody else, newest first, and changes nothing. *)
Theorem my_alerts_are_the_callers srv userId (Hne : userId ≠ "") :
  let listed := getAlertsByUser (db srv) userId in
  get_alerts_my_alerts srv (Some userId)
    = (Response.mk 200 (BAlerts listed), srv) ∧
  (∀ a, a ∈ listed ↔ Alert.userId a = userId ∧ a ∈ alerts (db srv)) ∧
  listed ≡ₚ filter (λ a, Alert.userId a = userId) (alerts (db srv)) ∧
  ∀ (i j : nat) ai aj,
    (i ≤ j)%nat → listed !! i = Some ai → listed !! j = Some aj →
    Alert.createdAt aj ≤ Alert.createdAt ai.
Proof.
  intros listed. split; [|split].
  - unfold get_alerts_my_alerts.
    by assert (requireAuth (Some userId) = inr userId) as ->
      by by apply requireAuth_inr.
  - intros a.
    apply (elem_of_newest_first Alert.createdAt (λ a, Alert.userId a = userId)).
  - apply newest_first.
Qed.

Lemma my_alerts_are_the_callers_witness :
  get_alerts_my_alerts (srv1 "pending") (Some "s1")
    = (Response.mk 200 (BAlerts [alert1 "pending"]), srv1 "pending") ∧
  get_alerts_my_alerts (srv1 "pending") (Some "m1")
    = (Response.mk 200 (BAlerts []), srv1 "pending").
Proof.
  split.
  - destruct (my_alerts_are_the_callers (srv1 "pending") "s1") as [Hr _];
      [done|]. rewrite Hr. reflexivity.
  - destruct (my_alerts_are_the_callers (srv1 "pending") "m1") as [Hr _];
      [done|]. rewrite Hr. reflexivity.
Defined.



(** ** [PATCH /api/alerts/:id]: answers and frame *)

Lemma requireRole_inl_status roles d session r :
  requireRole roles d session = inl r →
  Response.status r = 401 ∨ Response.status r = 403.
Proof.
  unfold requireRole, requireAuth.
  destruct session as [userId|]; [|intros [= <-]; by left].
  destruct (truthy (Some userId)); [|intros [= <-]; by left].
  destruct (getUser d userId) as [user|]; [|intros [= <-]; by right].
  destruct (includes roles (User.role user)); [done|intros [= <-]; by right].
Qed.

(** What the rows of [alerts] are after the route. *)
Lemma patch_alerts_id_rows srv env session id body :
  let srv' := (patch_alerts_id srv env session id body).2 in
  users (db srv') = users (db srv) ∧
  chatSessions (db srv') = chatSessions (db srv) ∧
  messages (db srv') = messages (db srv) ∧
  auditLogs (db srv') = auditLogs (db srv) ∧
  clients srv' = clients srv ∧
  readyState srv' = readyState srv ∧
  (alerts (db srv') = alerts (db srv) ∨
   ∃ user data,
     requireRole ["staff"; "admin"] (db srv) session = inr user ∧
     updateAlertStatusSchema body = Some data ∧
     alerts (db srv') =
       (λ a, if decide (Alert.id a = id)
             then set_alert (updateData data user env) a else a)
         <$> alerts (db srv)).
Proof.
  unfold patch_alerts_id.
  destruct (requireRole _ _ _) as [r|user] eqn:Hgate; [by repeat split; try left|].
  destruct (updateAlertStatusSchema body) as [data|] eqn:Hbody;
    [|by repeat split; try left].
  destruct (getAlert (db srv) id) as [alert|]; [|by repeat split; try left].
  destruct (_ && negb _); [by repeat split; try left|].
  destruct (transition_refused _ _); [by repeat split; try left|].
  unfold updateAlert. cbn [fst snd].
  destruct (truthy (Some (Alert.userId alert))); cbn [snd].
  - match goal with
    | |- context [broadcastToUser ?u ?m ?s] =>
        destruct (broadcastToUser_frame m u s) as (Hd & Hc & Hr)
    end.
    rewrite Hd, Hc, Hr. repeat split; try done. right. by exists user, data.
  - repeat split; try done. right. by exists user, data.
Qed.

(** [PATCH /api/alerts/:id] is answered 200 exactly when the session user
    is a stored staff member or admin, the body passes the update schema, the
    alert exists, a staff member belongs to the alert's department and the
    transition test does not refuse; with any other answer the state of the
    server is what it was. *)
Theorem patch_alerts_id_answer srv env session id body :
  (Response.status (patch_alerts_id srv env session id body).1 = 200 ↔
   ∃ userId user data alert,
     session = Some userId ∧ userId ≠ "" ∧
     getUser (db srv) userId = Some user ∧
     User.role user ∈ ["staff"; "admin"] ∧
     updateAlertStatusSchema body = Some data ∧
     getAlert (db srv) id = Some alert ∧
     (User.role user = "staff" →
      User.department user = Some (Alert.department alert)) ∧
     transition_refused (Alert.status alert) (UpdateAlertStatus.status data)
       = false) ∧
  (Response.status (patch_alerts_id srv env session id body).1 ≠ 200 →
   (patch_alerts_id srv env session id body).2 = srv).
Proof.
  split.
  - split.
    + unfold patch_alerts_id.
      destruct (requireRole _ _ _) as [r|user] eqn:Hgate.
      { intros Hr. apply requireRole_inl_status in Hgate.
        simpl in Hr. destruct Hgate; congruence. }
      apply requireRole_inr in Hgate as (userId & -> & Hne & Huser & Hrole).
      destruct (updateAlertStatusSchema body) as [data|] eqn:Hbody; [|done].
      destruct (getAlert (db srv) id) as [alert|] eqn:Halert; [|done].
      destruct (String.eqb (User.role user) "staff" && negb _) eqn:Hdep; [done|].
      destruct (transition_refused _ _) eqn:Htrans; [done|].
      intros _. exists userId, user, data, alert. repeat split; try done.
      intros Hstaff. rewrite Hstaff in Hdep. simpl in Hdep.
      apply negb_false_iff, bool_decide_eq_true in Hdep. done.
    + intros (userId & user & data & alert & -> & Hne & Huser & Hrole & Hbody
              & Halert & Hdep & Htrans).
      destruct (patch_alerts_id_ok srv env userId user id body data alert)
        as (srv' & -> & _); done.
  - unfold patch_alerts_id.
    destruct (requireRole _ _ _) as [r|user]; [done|].
    destruct (updateAlertStatusSchema body) as [data|]; [|done].
    destruct (getAlert (db srv) id) as [alert|]; [|done].
    destruct (_ && negb _); [done|].
    destruct (transition_refused _ _); [done|].
    destruct (updateAlert (db srv) id (updateData data user env)). done.
Qed.

Lemma patch_alerts_id_answer_witness :
  (patch_alerts_id (srv1 "pending") env1 (Some "m1") "nope"
     (status_body "acknowledged")).1 = json_message 404 "Alert not found" ∧
  (patch_alerts_id (srv1 "pending") env1 (Some "m1") "nope"
     (status_body "acknowledged")).2 = srv1 "pending".
Proof.
  split; [reflexivity|].
  apply (patch_alerts_id_answer (srv1 "pending") env1 (Some "m1") "nope"
           (status_body "acknowledged")).
  vm_compute. discriminate.
Defined.

(** For an alert that is acknowledged the route accepts dispatched and
    nothing else, and for an alert that is dispatched it accepts resolved and
    nothing else: any other status of the schema is answered 400 "Cannot
    transition from ... to ..." and the state is what it was. *)
Theorem transitions_after_pending_follow_the_table
    srv env userId user id body data alert
    (Hne : userId ≠ "")
    (Huser : getUser (db srv) userId = Some user)
    (Hrole : User.role user ∈ ["staff"; "admin"])
    (Hbody : updateAlertStatusSchema body = Some data)
    (Halert : getAlert (db srv) id = Some alert)
    (Hdep : User.role user = "staff" →
            User.department user = Some (Alert.department alert))
    (Hstatus : Alert.status alert = "acknowledged" ∨
               Alert.status alert = "dispatched") :
  let requested := UpdateAlertStatus.status data in
  let allowed :=
    if String.eqb (Alert.status alert) "acknowledged"
    then "dispatched" else "resolved" in
  (requested = allowed →
   ∃ updated,
     (patch_alerts_id srv env (Some userId) id body).1
       = Response.mk 200 (BAlert updated) ∧
     getAlert (db (patch_alerts_id srv env (Some userId) id body).2) id
       = Some updated ∧
     Alert.status updated = allowed) ∧
  (requested ≠ allowed →
   patch_alerts_id srv env (Some userId) id body =
     (json_message 400
        ("Cannot transition from " +:+ Alert.status alert +:+ " to " +:+
         requested), srv)).
Proof.
  intros requested allowed. split.
  - intros Hrequested.
    destruct (patch_alerts_id_ok srv env userId user id body data alert)
      as (srv' & Hpatch & Hget & _); try done.
    { apply not_true_iff_false. unfold requested, allowed in Hrequested.
      destruct Hstatus as [Hs | Hs]; rewrite Hs in Hrequested |- *.
      - rewrite transition_refused_acknowledged. by intros [].
      - rewrite transition_refused_dispatched. by intros []. }
    rewrite Hpatch. cbn [fst snd]. eexists. split; [reflexivity|].
    split; [exact Hget|].
    destruct data as [status notes]. unfold requested in Hrequested.
    simpl in Hrequested. subst status. unfold updateData, allowed. simpl.
    by destruct Hstatus as [-> | ->]; repeat case_match.
  - intros Hrequested.
    apply (patch_alerts_id_refused srv env userId user id body data alert);
      try done.
    unfold requested, allowed in Hrequested.
    destruct Hstatus as [Hs | Hs]; rewrite Hs in Hrequested |- *.
    + by apply transition_refused_acknowledged.
    + by apply transition_refused_dispatched.
Qed.

Lemma transitions_after_pending_follow_the_table_witness :
  patch_alerts_id (srv1 "acknowledged") env1 (Some "m1") "a1"
    (status_body "resolved")
  = (json_message 400 "Cannot transition from acknowledged to resolved",
     srv1 "acknowledged").
Proof.
  destruct (transitions_after_pending_follow_the_table
              (srv1 "acknowledged") env1 "m1" medical_staff "a1"
              (status_body "resolved") (UpdateAlertStatus.mk "resolved" None)
              (alert1 "acknowledged")) as [_ Hrefused].
  - done.
  - reflexivity.
  - by apply includes_spec.
  - reflexivity.
  - reflexivity.
  - reflexivity.
  - by left.
  - apply Hrefused. done.
Defined.

Lemma filter_other_id (l : list Alert.t) (f : Alert.t → Alert.t) id id' :
  (∀ a, Alert.id (f a) = Alert.id a) → id' ≠ id →
  filter (λ a, Alert.id a = id')
    ((λ a, if decide (Alert.id a = id) then f a else a) <$> l)
  = filter (λ a, Alert.id a = id') l.
Proof.
  intros Hid Hneq. induction l as [|a l IH]; [done|].
  rewrite fmap_cons, !filter_cons. destruct (decide (Alert.id a = id)) as [Ha|Ha].
  - rewrite (decide_False (P := Alert.id (f a) = id'))
      by (rewrite Hid; congruence).
    rewrite (decide_False (P := Alert.id a = id')) by congruence. exact IH.
  - destruct (decide (Alert.id a = id')); by rewrite IH.
Qed.

(** Whatever the answer, [PATCH /api/alerts/:id] leaves users, chat
    sessions, messages, audit logs and the registry as they were, creates and
    deletes no alert, leaves every alert with another id as it was, and in
    the alert with that id keeps the owner, the department, the location, the
    situation data and the creation time. *)
Theorem patch_alerts_id_frame srv env session id body :
  let srv' := (patch_alerts_id srv env session id body).2 in
  users (db srv') = users (db srv) ∧
  chatSessions (db srv') = chatSessions (db srv) ∧
  messages (db srv') = messages (db srv) ∧
  auditLogs (db srv') = auditLogs (db srv) ∧
  clients srv' = clients srv ∧
  Alert.id <$> alerts (db srv') = Alert.id <$> alerts (db srv) ∧
  (∀ id', id' ≠ id → getAlert (db srv') id' = getAlert (db srv) id') ∧
  (∀ a', getAlert (db srv') id = Some a' →
     ∃ a, getAlert (db srv) id = Some a ∧
          Alert.userId a' = Alert.userId a ∧
          Alert.department a' = Alert.department a ∧
          Alert.latitude a' = Alert.latitude a ∧
          Alert.longitude a' = Alert.longitude a ∧
          Alert.locationName a' = Alert.locationName a ∧
          Alert.locationAccuracy a' = Alert.locationAccuracy a ∧
          Alert.situationData a' = Alert.situationData a ∧
          Alert.createdAt a' = Alert.createdAt a).
Proof.
  intros srv'.
  destruct (patch_alerts_id_rows srv env session id body)
    as (Hu & Hc & Hm & Hl & Hcl & _ & Hrows).
  fold srv' in Hu, Hc, Hm, Hl, Hcl, Hrows.
  repeat (split; [done|]).
  destruct Hrows as [Hsame | (user & data & _ & _ & Hrows)].
  - unfold getAlert. rewrite Hsame. repeat split; try done.
    intros a' Ha'. exists a'. by repeat split.
  - unfold getAlert. rewrite Hrows. split; [|split].
    + rewrite <- list_fmap_compose. apply list_fmap_ext.
      intros i a _. simpl. by destruct (decide (Alert.id a = id)).
    + intros id' Hneq. by rewrite filter_other_id.
    + intros a'. rewrite updateAlert_rows.
      destruct (filter (λ a, Alert.id a = id) (alerts (db srv))) as [|a l];
        [done|].
      simpl. intros [= <-]. exists a. by repeat split.
Qed.

(** A successful update sets only the stamp of the requested status: the
    other stamps and [acknowledgedBy] keep their earlier values;
    [responseNotes] is replaced by a non-empty note of the request and kept
    when the request has no note or an empty one. *)
Theorem update_keeps_the_other_stamps srv env userId user id body data alert
    (Hne : userId ≠ "")
    (Huser : getUser (db srv) userId = Some user)
    (Hrole : User.role user ∈ ["staff"; "admin"])
    (Hbody : updateAlertStatusSchema body = Some data)
    (Halert : getAlert (db srv) id = Some alert)
    (Hdep : User.role user = "staff" →
            User.department user = Some (Alert.department alert))
    (Hpassed : transition_refused (Alert.status alert)
                 (UpdateAlertStatus.status data) = false) :
  ∃ updated,
    (patch_alerts_id srv env (Some userId) id body).1
      = Response.mk 200 (BAlert updated) ∧
    getAlert (db (patch_alerts_id srv env (Some userId) id body).2) id
      = Some updated ∧
    (UpdateAlertStatus.status data ≠ "acknowledged" →
       Alert.acknowledgedAt updated = Alert.acknowledgedAt alert ∧
       Alert.acknowledgedBy updated = Alert.acknowledgedBy alert) ∧
    (UpdateAlertStatus.status data ≠ "dispatched" →
       Alert.dispatchedAt updated = Alert.dispatchedAt alert) ∧
    (UpdateAlertStatus.status data ≠ "resolved" →
       Alert.resolvedAt updated = Alert.resolvedAt alert) ∧
    Alert.responseNotes updated =
      match UpdateAlertStatus.responseNotes data with
      | Some note => if String.eqb note "" then Alert.responseNotes alert
                     else Some note
      | None => Alert.responseNotes alert
      end.
Proof.
  destruct (patch_alerts_id_ok srv env userId user id body data alert)
    as (srv' & Hpatch & Hget & _); try done.
  rewrite Hpatch. cbn [fst snd]. eexists. split; [reflexivity|].
  split; [exact Hget|].
  destruct data as [status notes]. unfold updateData. cbn [UpdateAlertStatus.status
    UpdateAlertStatus.responseNotes].
  destruct (String.eqb_spec status "acknowledged") as [->|Hack];
    [|destruct (String.eqb_spec status "dispatched") as [->|Hdis];
      [|destruct (String.eqb_spec status "resolved") as [->|Hres]]];
    simpl; (split; [done|]); (split; [done|]); (split; [done|]);
    destruct notes as [note|]; simpl; try done;
    by destruct (String.eqb note "").
Qed.

Lemma update_keeps_the_other_stamps_witness :
  ∃ updated,
    (patch_alerts_id (srv1 "acknowledged") env1 (Some "m1") "a1"
       (JObj [("status", JStr "dispatched"); ("responseNotes", JStr "")])).1
      = Response.mk 200 (BAlert updated) ∧
    Alert.acknowledgedAt updated = Alert.acknowledgedAt (alert1 "acknowledged") ∧
    Alert.resolvedAt updated = Alert.resolvedAt (alert1 "acknowledged") ∧
    Alert.responseNotes updated = None.
Proof.
  destruct (update_keeps_the_other_stamps (srv1 "acknowledged") env1 "m1"
              medical_staff "a1"
              (JObj [("status", JStr "dispatched"); ("responseNotes", JStr "")])
              (UpdateAlertStatus.mk "dispatched" (Some ""))
              (alert1 "acknowledged"))
    as (updated & Hr & _ & Hack & _ & Hres & Hnotes).
  - done.
  - reflexivity.
  - by apply includes_spec.
  - reflexivity.
  - reflexivity.
  - done.
  - reflexivity.
  - exists updated. split; [exact Hr|].
    split; [by apply Hack|]. split; [by apply Hres|exact Hnotes].
Defined.

(** ** The constraints of the schema are kept *)

Lemma find_by_key_is_Some {A K} `{EqDecision K} (f : A → K) (k : K) (l : list A) :
  is_Some (head (filter (λ x, f x = k) l)) ↔ k ∈ f <$> l.
Proof.
  rewrite head_is_Some, list_elem_of_fmap. split.
  - intros Hne. destruct (filter (λ x, f x = k) l) as [|x l'] eqn:E; [done|].
    assert (x ∈ filter (λ x, f x = k) l) as Hx by (rewrite E; left).
    apply list_elem_of_filter in Hx as [Hk Hx]. by exists x.
  - intros (x & -> & Hx) E.
    by apply (filter_nil_not_elem_of (λ y, f y = f x) l x).
Qed.

Lemma find_by_key_Some {A K} `{EqDecision K} (f : A → K) (k : K) (l : list A) x :
  head (filter (λ x, f x = k) l) = Some x → f x = k ∧ x ∈ l.
Proof.
  intros Hx. apply head_Some_elem_of in Hx.
  by apply list_elem_of_filter in Hx.
Qed.

Lemma find_by_key_None {A K} `{EqDecision K} (f : A → K) (k : K) (l : list A) :
  head (filter (λ x, f x = k) l) = None ↔ k ∉ f <$> l.
Proof.
  rewrite <- (find_by_key_is_Some f k l), eq_None_not_Some. done.
Qed.

Lemma getUser_is_Some d id : is_Some (getUser d id) ↔ id ∈ User.id <$> users d.
Proof. apply (find_by_key_is_Some User.id). Qed.

Lemma getUser_Some d id user :
  getUser d id = Some user → User.id user = id ∧ user ∈ users d.
Proof. apply (find_by_key_Some User.id). Qed.

Lemma getUser_stored d id user :
  getUser d id = Some user → id ∈ User.id <$> users d.
Proof. intros Hu. apply getUser_is_Some. by rewrite Hu. Qed.

Lemma db_eta d :
  d = mkDb (users d) (alerts d) (chatSessions d) (messages d) (auditLogs d).
Proof. by destruct d. Qed.

Section consistent_tables.
Context (d : Db) (Hc : consistent d).

Lemma consistent_with_users l :
  NoDup (User.id <$> l) → NoDup (User.email <$> l) →
  (∀ u, u ∈ l →
     User.role u ∈ roleEnum ∧
     ∀ department, User.department u = Some department →
       department ∈ userDepartmentEnum) →
  (∀ id, id ∈ User.id <$> users d → id ∈ User.id <$> l) →
  consistent (with_users d l).
Proof.
  intros Hid Hemail Hrows Hkept. destruct Hc. constructor; simpl; try done.
  - intros a Ha. destruct (alerts_rows0 a Ha) as (? & ? & ? & Hack).
    repeat split; auto.
  - intros c Hin. destruct (chat_sessions_rows0 c Hin) as (? & ? & ?).
    repeat split; auto.
  - intros m Hm. destruct (messages_rows0 m Hm) as (? & ? & ?).
    repeat split; auto.
  - auto.
Qed.

Lemma consistent_with_alerts l :
  NoDup (Alert.id <$> l) →
  (∀ a, a ∈ l →
     Alert.status a ∈ statusEnum ∧
     Alert.department a ∈ alertDepartmentEnum ∧
     Alert.userId a ∈ User.id <$> users d ∧
     ∀ u, Alert.acknowledgedBy a = Some u → u ∈ User.id <$> users d) →
  consistent (with_alerts d l).
Proof. intros Hid Hrows. destruct Hc. by constructor. Qed.

Lemma consistent_with_chatSessions l :
  NoDup (ChatSession.id <$> l) →
  NoDup (ChatSession.anonymousId <$> l) →
  (∀ c, c ∈ l →
     ChatSession.department c ∈ chatDepartmentEnum ∧
     ChatSession.status c ∈ chatStatusEnum ∧
     ChatSession.userId c ∈ User.id <$> users d) →
  (∀ id, id ∈ ChatSession.id <$> chatSessions d → id ∈ ChatSession.id <$> l) →
  consistent (with_chatSessions d l).
Proof.
  intros Hid Hanon Hrows Hkept. destruct Hc. constructor; simpl; try done.
  intros m Hm. destruct (messages_rows0 m Hm) as (? & ? & ?).
  repeat split; auto.
Qed.

Lemma consistent_with_messages l :
  NoDup (Message.id <$> l) →
  (∀ m, m ∈ l →
     Message.senderRole m ∈ senderRoleEnum ∧
     Message.sessionId m ∈ ChatSession.id <$> chatSessions d ∧
     Message.senderId m ∈ User.id <$> users d) →
  consistent (with_messages d l).
Proof. intros Hid Hrows. destruct Hc. by constructor. Qed.

Lemma consistent_with_auditLogs l :
  NoDup (AuditLog.id <$> l) →
  (∀ x, x ∈ l → AuditLog.userId x ∈ User.id <$> users d) →
  consistent (with_auditLogs d l).
Proof. intros Hid Hrows. destruct Hc. by constructor. Qed.
End consistent_tables.

Lemma NoDup_snoc_fmap {A K} (f : A → K) (l : list A) (x : A) :
  NoDup (f <$> l) → f x ∉ f <$> l → NoDup (f <$> (l ++ [x])%list).
Proof.
  intros Hl Hx. rewrite fmap_app. apply list.NoDup_app. split; [done|]. split.
  - intros k Hk Hin. apply list_elem_of_singleton in Hin. by subst.
  - apply NoDup_singleton.
Qed.

Lemma elem_of_snoc_fmap {A K} (f : A → K) (l : list A) (x : A) k :
  k ∈ f <$> l → k ∈ f <$> (l ++ [x])%list.
Proof. intros Hk. rewrite fmap_app. apply elem_of_app. by left. Qed.

Lemma fmap_update_key {A K} (f : A → K) (g : A → A) (P : A → Prop)
    `{∀ x, Decision (P x)} (l : list A) :
  (∀ x, f (g x) = f x) →
  f <$> ((λ x, if decide (P x) then g x else x) <$> l) = f <$> l.
Proof.
  intros Hkey. rewrite <- list_fmap_compose. apply list_fmap_ext.
  intros i x _. simpl. by destruct (decide (P x)).
Qed.

Lemma createAlert_consistent d env ins alert d' :
  consistent d →
  InsertAlert.department ins ∈ alertDepartmentEnum →
  (∀ s, InsertAlert.status ins = Some s → s ∈ statusEnum) →
  createAlert d env ins = inr (alert, d') →
  consistent d'.
Proof.
  intros Hc Hdep Hstatus. unfold createAlert. cbn [Alert.id Alert.userId].
  case_bool_decide as Hpk; [done|]. case_bool_decide as Hfk; [done|].
  intros [= <- <-].
  assert (uuid env ∉ Alert.id <$> alerts d) as Hfresh.
  { apply (find_by_key_None Alert.id). by apply eq_None_not_Some. }
  assert (InsertAlert.userId ins ∈ User.id <$> users d) as Howner.
  { apply getUser_is_Some. by destruct (getUser d (InsertAlert.userId ins)). }
  apply consistent_with_alerts; [done| |].
  - apply NoDup_snoc_fmap; [apply Hc|done].
  - intros a [Ha | Ha%list_elem_of_singleton]%elem_of_app.
    + by apply Hc.
    + subst a. simpl. repeat split; try done.
      destruct (InsertAlert.status ins) as [s|]; simpl; [by apply Hstatus|].
      by apply includes_spec.
Qed.

Lemma updateAlert_consistent d id data :
  consistent d →
  (∀ s, PartialAlert.status data = Some s → s ∈ statusEnum) →
  (∀ u, PartialAlert.acknowledgedBy data = Some u → u ∈ User.id <$> users d) →
  consistent
    (with_alerts d
       ((λ a, if decide (Alert.id a = id) then set_alert data a else a)
          <$> alerts d)).
Proof.
  intros Hc Hstatus Hack. apply consistent_with_alerts; [done| |].
  - rewrite (fmap_update_key Alert.id (set_alert data)) by done. apply Hc.
  - intros a' (a & -> & Ha)%list_elem_of_fmap.
    destruct (alerts_rows d Hc a Ha) as (Hs & Hd & Hu & Hb).
    destruct (decide (Alert.id a = id)); [|done]. simpl.
    repeat split; try done.
    + destruct (PartialAlert.status data) as [s|]; simpl; auto.
    + intros u. destruct (PartialAlert.acknowledgedBy data) as [u'|]; simpl.
      * intros [= <-]. by apply Hack.
      * apply Hb.
Qed.

Lemma updateUserLastLogin_consistent d date id :
  consistent d → consistent (updateUserLastLogin d date id).
Proof.
  intros Hc. unfold updateUserLastLogin.
  apply consistent_with_users; [done|..].
  - rewrite (fmap_update_key User.id (set_lastLogin date)) by done.
    apply Hc.
  - rewrite (fmap_update_key User.email (set_lastLogin date)) by done.
    apply Hc.
  - intros u' (u & -> & Hu)%list_elem_of_fmap.
    pose proof (users_rows d Hc u Hu). by destruct (decide _).
  - intros x. by rewrite (fmap_update_key User.id (set_lastLogin date)).
Qed.

Lemma updateUserLastLogin_ids d date id :
  User.id <$> users (updateUserLastLogin d date id) = User.id <$> users d.
Proof.
  unfold updateUserLastLogin. simpl.
  by rewrite (fmap_update_key User.id (set_lastLogin date)).
Qed.

Lemma createUser_consistent d env ins user d' :
  consistent d →
  (∀ role, InsertUser.role ins = Some role → role ∈ roleEnum) →
  (∀ department, InsertUser.department ins = Some department →
                 department ∈ userDepartmentEnum) →
  createUser d env ins = inr (user, d') → consistent d'.
Proof.
  intros Hc Hrole Hdep. unfold createUser. cbn [User.id User.email].
  case_bool_decide as Hpk; [done|]. case_bool_decide as Hemail; [done|].
  intros [= <- <-].
  apply consistent_with_users; [done|..].
  - apply NoDup_snoc_fmap; [apply Hc|]. simpl.
    by rewrite <- getUser_is_Some.
  - apply NoDup_snoc_fmap; [apply Hc|]. simpl.
    by rewrite <- (find_by_key_is_Some User.email).
  - intros u [Hu | Hu%list_elem_of_singleton]%elem_of_app.
    + by apply Hc.
    + subst u. simpl. split.
      * destruct (InsertUser.role ins) as [role|]; simpl;
          [by apply Hrole|by apply includes_spec].
      * intros department [= <-].
        destruct (InsertUser.department ins) as [department|]; simpl;
          [by apply Hdep|by apply includes_spec].
  - intros x. apply elem_of_snoc_fmap.
Qed.

Lemma existsb_false_elem {A} (f : A → bool) (l : list A) x :
  existsb f l = false → x ∈ l → f x = false.
Proof.
  intros Hall Hx. apply not_true_iff_false. intros Hf.
  apply not_true_iff_false in Hall. apply Hall, existsb_exists.
  exists x. split; [by apply list_elem_of_In|done].
Qed.

Lemma referenced_false d id :
  referenced d id = false →
  (∀ a, a ∈ alerts d →
        Alert.userId a ≠ id ∧ Alert.acknowledgedBy a ≠ Some id) ∧
  (∀ c, c ∈ chatSessions d → ChatSession.userId c ≠ id) ∧
  (∀ m, m ∈ messages d → Message.senderId m ≠ id) ∧
  (∀ l, l ∈ auditLogs d → AuditLog.userId l ≠ id).
Proof.
  unfold referenced. rewrite !orb_false_iff.
  intros [[[Ha Hc] Hm] Hl].
  split; [|split; [|split]].
  - intros a Hin. pose proof (existsb_false_elem _ _ a Ha Hin) as E.
    simpl in E. apply orb_false_iff in E as [E1 E2]. split.
    + intros Heq. by rewrite Heq, String.eqb_refl in E1.
    + intros Heq. by rewrite bool_decide_true in E2.
  - intros c Hin. pose proof (existsb_false_elem _ _ c Hc Hin) as E.
    simpl in E. intros Heq. by rewrite Heq, String.eqb_refl in E.
  - intros m Hin. pose proof (existsb_false_elem _ _ m Hm Hin) as E.
    simpl in E. intros Heq. by rewrite Heq, String.eqb_refl in E.
  - intros l Hin. pose proof (existsb_false_elem _ _ l Hl Hin) as E.
    simpl in E. intros Heq. by rewrite Heq, String.eqb_refl in E.
Qed.

Lemma elem_of_ids_filter (l : list User.t) id x :
  x ∈ User.id <$> l → x ≠ id →
  x ∈ User.id <$> filter (λ u, User.id u ≠ id) l.
Proof.
  intros (u & -> & Hu)%list_elem_of_fmap Hneq.
  apply list_elem_of_fmap. exists u. split; [done|].
  by apply list_elem_of_filter.
Qed.

Lemma deleteUser_consistent d id d' :
  consistent d → deleteUser d id = inr d' → consistent d'.
Proof.
  intros Hc. unfold deleteUser.
  destruct (bool_decide (is_Some (getUser d id)) && referenced d id) eqn:E;
    [done|].
  intros [= <-].
  assert ((∀ a, a ∈ alerts d →
             Alert.userId a ≠ id ∧ Alert.acknowledgedBy a ≠ Some id) ∧
          (∀ c, c ∈ chatSessions d → ChatSession.userId c ≠ id) ∧
          (∀ m, m ∈ messages d → Message.senderId m ≠ id) ∧
          (∀ l, l ∈ auditLogs d → AuditLog.userId l ≠ id))
    as (Halerts & Hchats & Hmessages & Hlogs).
  { destruct (referenced d id) eqn:Href; [|by apply referenced_false].
    rewrite andb_true_r in E. apply bool_decide_eq_false in E.
    rewrite getUser_is_Some in E.
    split; [|split; [|split]].
    - intros a Ha. destruct (alerts_rows d Hc a Ha) as (_ & _ & Hu & Hack).
      split; [congruence|]. intros Heq. by apply E, Hack.
    - intros c Hin. destruct (chat_sessions_rows d Hc c Hin) as (_ & _ & Hu).
      congruence.
    - intros m Hm. destruct (messages_rows d Hc m Hm) as (_ & _ & Hu).
      congruence.
    - intros l Hl. pose proof (audit_logs_rows d Hc l Hl). congruence. }
  destruct Hc. constructor; simpl; try done.
  - eapply sublist_NoDup; [exact users_pkey0|].
    apply fmap_sublist, sublist_filter.
  - eapply sublist_NoDup; [exact users_email_unique0|].
    apply fmap_sublist, sublist_filter.
  - intros u [_ Hu]%list_elem_of_filter. by apply users_rows0.
  - intros a Ha. destruct (alerts_rows0 a Ha) as (? & ? & Hu & Hack).
    destruct (Halerts a Ha) as [Hne1 Hne2].
    repeat split; try done.
    + by apply elem_of_ids_filter.
    + intros u Hu'. apply elem_of_ids_filter; [by apply Hack|congruence].
  - intros c Hin. destruct (chat_sessions_rows0 c Hin) as (? & ? & Hu).
    repeat split; try done. apply elem_of_ids_filter; [done|by apply Hchats].
  - intros m Hm. destruct (messages_rows0 m Hm) as (? & ? & Hu).
    repeat split; try done. apply elem_of_ids_filter; [done|by apply Hmessages].
  - intros l Hl. apply elem_of_ids_filter; [by apply audit_logs_rows0|].
    by apply Hlogs.
Qed.

Lemma createAuditLog_consistent d env ins log d' :
  consistent d → createAuditLog d env ins = inr (log, d') → consistent d'.
Proof.
  intros Hc. unfold createAuditLog. cbn [AuditLog.id AuditLog.userId].
  destruct (existsb _ (auditLogs d)) eqn:Hpk; [done|].
  case_bool_decide as Hfk; [done|]. intros [= <- <-].
  apply consistent_with_auditLogs; [done| |].
  - apply NoDup_snoc_fmap; [apply Hc|]. simpl.
    intros (l & Hid & Hl)%list_elem_of_fmap.
    pose proof (existsb_false_elem _ _ l Hpk Hl) as E. simpl in E.
    by rewrite <- Hid, String.eqb_refl in E.
  - intros x [Hx | Hx%list_elem_of_singleton]%elem_of_app.
    + by apply Hc.
    + subst x. simpl. apply getUser_is_Some.
      by destruct (getUser d (InsertAuditLog.userId ins)).
Qed.

Lemma createChatSession_consistent d env ins chat d' :
  consistent d →
  InsertChatSession.department ins ∈ chatDepartmentEnum →
  (∀ s, InsertChatSession.status ins = Some s → s ∈ chatStatusEnum) →
  createChatSession d env ins = inr (chat, d') →
  consistent d'.
Proof.
  intros Hc Hdep Hstatus. unfold createChatSession.
  cbn [ChatSession.id ChatSession.anonymousId ChatSession.userId].
  case_bool_decide as Hpk; [done|]. case_bool_decide as Hanon; [done|].
  case_bool_decide as Hfk; [done|]. intros [= <- <-].
  apply consistent_with_chatSessions; [done|..].
  - apply NoDup_snoc_fmap; [apply Hc|]. simpl.
    by rewrite <- (find_by_key_is_Some ChatSession.id).
  - apply NoDup_snoc_fmap; [apply Hc|done].
  - intros c [Hin | Hin%list_elem_of_singleton]%elem_of_app.
    + by apply Hc.
    + subst c. simpl. repeat split; try done.
      * destruct (InsertChatSession.status ins) as [s|]; simpl;
          [by apply Hstatus|by apply includes_spec].
      * apply getUser_is_Some.
        by destruct (getUser d (InsertChatSession.userId ins)).
  - intros x. apply elem_of_snoc_fmap.
Qed.

Lemma createMessage_consistent d env date ins message d' :
  consistent d →
  InsertMessage.senderRole ins ∈ senderRoleEnum →
  createMessage d env date ins = inr (message, d') →
  consistent d'.
Proof.
  intros Hc Hrole. unfold createMessage.
  cbn [Message.id Message.sessionId Message.senderId].
  case_bool_decide as Hpk; [done|]. case_bool_decide as Hfk1; [done|].
  case_bool_decide as Hfk2; [done|]. intros [= <- <-].
  match goal with
  | |- consistent (with_chatSessions ?d1 _) =>
      assert (consistent d1) as Hc1
  end.
  { apply consistent_with_messages; [done| |].
    - by apply NoDup_snoc_fmap; [apply Hc|].
    - intros m [Hm | Hm%list_elem_of_singleton]%elem_of_app.
      + by apply Hc.
      + subst m. simpl. repeat split; try done.
        * apply (find_by_key_is_Some ChatSession.id).
          change (is_Some (getChatSession d (InsertMessage.sessionId ins))).
          by destruct (getChatSession d (InsertMessage.sessionId ins)).
        * apply getUser_is_Some.
          by destruct (getUser d (InsertMessage.senderId ins)). }
  apply consistent_with_chatSessions; [done|..]; simpl.
  - rewrite (fmap_update_key ChatSession.id (set_lastMessageAt date)) by done.
    apply Hc.
  - rewrite (fmap_update_key ChatSession.anonymousId (set_lastMessageAt date))
      by done.
    apply Hc.
  - intros c' (c & -> & Hin)%list_elem_of_fmap.
    destruct (chat_sessions_rows d Hc c Hin) as (? & ? & ?).
    by destruct (decide _).
  - intros x.
    by rewrite (fmap_update_key ChatSession.id (set_lastMessageAt date)).
Qed.

Lemma z_enum_Some values v s : z_enum values v = Some s → s ∈ values.
Proof.
  unfold z_enum. destruct v as [[]|]; try done.
  destruct (includes values s0) eqn:E; [|done].
  intros [= <-]. by apply includes_spec.
Qed.

Lemma z_optional_enum_Some values v o s :
  z_optional (z_enum values) v = Some o → o = Some s → s ∈ values.
Proof.
  unfold z_optional. destruct v as [j|]; [|by intros [= <-]].
  intros Ho ->. apply fmap_Some in Ho as (s' & Hs & [= <-]).
  by apply z_enum_Some in Hs.
Qed.

Lemma insertAlertSchema_enums body data :
  insertAlertSchema body = Some data →
  InsertAlert.department data ∈ alertDepartmentEnum ∧
  ∀ s, InsertAlert.status data = Some s → s ∈ statusEnum.
Proof.
  unfold insertAlertSchema. intros H.
  apply bind_Some in H as (userId & _ & H).
  apply bind_Some in H as (department & Hdep & H).
  apply bind_Some in H as (status & Hstatus & H).
  repeat (apply bind_Some in H as (? & _ & H)). injection H as <-. simpl.
  split; [by apply z_enum_Some in Hdep|].
  intros s Hs. by apply (z_optional_enum_Some _ _ _ _ Hstatus).
Qed.

Lemma insertChatSessionSchema_enums body data :
  insertChatSessionSchema body = Some data →
  InsertChatSession.department data ∈ chatDepartmentEnum ∧
  ∀ s, InsertChatSession.status data = Some s → s ∈ chatStatusEnum.
Proof.
  unfold insertChatSessionSchema. intros H.
  apply bind_Some in H as (userId & _ & H).
  apply bind_Some in H as (department & Hdep & H).
  apply bind_Some in H as (anonymousId & _ & H).
  apply bind_Some in H as (status & Hstatus & H). injection H as <-. simpl.
  split; [by apply z_enum_Some in Hdep|].
  intros s Hs. by apply (z_optional_enum_Some _ _ _ _ Hstatus).
Qed.

Lemma serve_consistent `{Bcrypt, EmailFormat} srv session req :
  consistent (db srv) → consistent (db (serve srv session req).1).
Proof.
  intros Hc.
  destruct req as [env body|env date body| |env body|env id body
                  |env random body|env date body|env id]; simpl.
  - unfold post_auth_login.
    destruct (loginSchema body) as [[email password]|]; [|done].
    destruct (getUserByEmail (db srv) email) as [user|]; [|done].
    destruct (negb (bcrypt_compare _ _)); [done|].
    destruct (negb (User.isActive user)); [done|]. simpl.
    by apply updateUserLastLogin_consistent.
  - unfold post_auth_register.
    destruct (registerSchema body) as [data|]; [|done].
    destruct (getUserByEmail _ _); [done|].
    destruct (createUser _ _ _) as [e|[user d]] eqn:Hcreate; [done|]. simpl.
    apply updateUserLastLogin_consistent.
    apply (createUser_consistent _ _ _ _ _ Hc) in Hcreate; [done|..]; simpl.
    + intros role [= <-]. by apply includes_spec.
    + intros department [= <-]. by apply includes_spec.
  - done.
  - unfold post_alerts.
    destruct (requireAuth session) as [r|userId]; [done|].
    destruct (insertAlertSchema body) as [data|] eqn:Hbody; [|done].
    destruct (createAlert _ _ _) as [e|[alert d]] eqn:Hcreate; [done|].
    cbn [snd].
    match goal with
    | |- context [notify_staff ?l ?m ?s] =>
        destruct (notify_staff_frame m l s) as (-> & _)
    end.
    simpl. apply insertAlertSchema_enums in Hbody as [Hdep Hstatus].
    by apply (createAlert_consistent _ _ (with_userId data userId) _ _ Hc Hdep
                Hstatus Hcreate).
  - destruct (patch_alerts_id_rows srv env session id body)
      as (Hu & Hch & Hm & Hl & _ & _ & Hrows).
    rewrite (db_eta (db _)), Hu, Hch, Hm, Hl.
    destruct Hrows as [-> | (user & data & Hgate & Hbody & ->)].
    + by rewrite <- db_eta.
    + apply (updateAlert_consistent (db srv) id (updateData data user env) Hc).
      * intros s. pose proof (updateAlertStatusSchema_status _ _ Hbody).
        unfold updateData. repeat case_match; simpl; by intros [= <-].
      * apply requireRole_inr in Hgate as (userId & _ & _ & Huser & _).
        apply getUser_Some in Huser as [<- Hin].
        intros u. unfold updateData.
        repeat case_match; simpl; try done;
          intros [= <-]; by apply list_elem_of_fmap_2.
  - unfold post_chats_sessions.
    destruct (requireAuth session) as [r|userId]; [done|].
    destruct (insertChatSessionSchema body) as [data|] eqn:Hbody; [|done].
    destruct (createChatSession _ _ _) as [e|[chat d]] eqn:Hcreate; [done|].
    simpl. apply insertChatSessionSchema_enums in Hbody as [Hdep Hstatus].
    by apply (createChatSession_consistent _ _ (with_owner data userId _) _ _ Hc
                Hdep Hstatus Hcreate).
  - unfold post_chats_messages.
    destruct (requireAuth session) as [r|userId]; [done|].
    destruct (insertMessageSchema body) as [data|]; [|done].
    destruct (getUser (db srv) userId) as [user|]; [|done].
    destruct (getChatSession _ _) as [chat|]; [|done].
    destruct (negb (canAccess chat userId user)); [done|].
    destruct (createMessage _ _ _ _) as [e|[message d]] eqn:Hcreate; [done|].
    cbn [snd].
    match goal with
    | |- context [notify_staff ?l ?m ?s] =>
        destruct (notify_staff_frame m l s) as (-> & _)
    end.
    assert (consistent d) as Hd.
    { apply (createMessage_consistent _ _ _ _ _ _ Hc) in Hcreate; [done|].
      simpl. apply includes_spec. by destruct (String.eqb _ _). }
    destruct (truthy _); [|done].
    match goal with
    | |- context [broadcastToUser ?u ?m ?s] =>
        by destruct (broadcastToUser_frame m u s) as (-> & _)
    end.
  - unfold delete_admin_users_id.
    destruct (requireRole _ _ _) as [r|admin]; [done|].
    case_bool_decide; [done|].
    destruct (getUser (db srv) id) as [user|]; [|done].
    destruct (deleteUser (db srv) id) as [e|d] eqn:Hdelete; [done|].
    apply (deleteUser_consistent _ _ _ Hc) in Hdelete.
    destruct (createAuditLog _ _ _) as [e|[log d']] eqn:Hlog; [done|].
    simpl. by apply (createAuditLog_consistent _ _ _ _ _ Hdelete Hlog).
Qed.

(** Every request that writes keeps the constraints of the schema: after
    any sequence of requests of any clients, whatever their sessions and
    bodies, keys are still distinct, enumerated columns still hold values of
    their enumeration and references still name stored rows. *)
Theorem requests_keep_the_constraints `{Bcrypt, EmailFormat} srv reqs
    (Hc : consistent (db srv)) :
  consistent (db (serve_each srv reqs)).
Proof.
  unfold serve_each. revert srv Hc.
  induction reqs as [|[session req] reqs IH]; intros srv Hc; [done|].
  simpl. apply IH. by apply serve_consistent.
Qed.

Ltac by_evaluation :=
  match goal with
  | |- ?P => apply (bool_decide_unpack P); vm_compute; exact I
  end.

Lemma db1_consistent status : status ∈ statusEnum → consistent (db1 status).
Proof.
  intros Hstatus. constructor; simpl.
  - by_evaluation.
  - by_evaluation.
  - intros u Hu. repeat (apply elem_of_cons in Hu as [->|Hu]);
      [..|by apply elem_of_nil in Hu]; simpl;
      (split; [by apply includes_spec|]);
      intros department [= <-]; by apply includes_spec.
  - by_evaluation.
  - intros a ->%list_elem_of_singleton. simpl.
    repeat split; [done|by apply includes_spec|by apply includes_spec|done].
  - by_evaluation.
  - by_evaluation.
  - intros c ->%list_elem_of_singleton. simpl.
    repeat split; by apply includes_spec.
  - by_evaluation.
  - intros m Hm. repeat (apply elem_of_cons in Hm as [->|Hm]);
      [..|by apply elem_of_nil in Hm]; simpl;
      repeat split; by apply includes_spec.
  - constructor.
  - intros l Hl. by apply elem_of_nil in Hl.
Qed.

Lemma requests_keep_the_constraints_witness :
  consistent
    (db (@serve_each sample_bcrypt sample_email (srv1 "pending")
           [(Some "s1", CreateAlert env1 (alert_body "resolved"));
            (Some "adm", DeleteUser env1 "sec1");
            (None, Register env1 101 (register_body "new@campus.edu" "secret1"))])).
Proof.
  apply requests_keep_the_constraints. apply db1_consistent.
  by apply includes_spec.
Defined.

(** ** Who is notified *)

(** The sockets that a broadcast to [userId] reaches: those of the user's
    set that are open. *)
Lemma broadcastToUser_delivery srv userId message ws :
  ∃ k : nat,
    sent (broadcastToUser userId message srv) ws
      = (sent srv ws ++ replicate k message)%list ∧
    (k ≤ 1)%nat ∧
    (k ≠ 0%nat ↔
     readyState srv ws = OPEN ∧
     ∃ s, clients srv !! userId = Some s ∧ ws ∈ s).
Proof.
  destruct (clients srv !! userId) as [s|] eqn:Hs.
  - rewrite (broadcastToUser_sent srv userId s message ws Hs).
    case_bool_decide as Hreach.
    + exists 1%nat. split; [done|]. split; [lia|]. split; [|done].
      intros _. split; [by destruct Hreach|]. exists s. by destruct Hreach.
    + exists 0%nat. rewrite app_nil_r. split; [done|]. split; [lia|].
      split; [done|].
      intros [Hopen (s' & [= <-] & Hin)]. by destruct Hreach.
  - rewrite broadcastToUser_absent by done.
    exists 0%nat. rewrite app_nil_r. split; [done|]. split; [lia|].
    split; [done|]. by intros [_ (s' & [=] & _)].
Qed.

Lemma notify_staff_delivery staffUsers message srv ws :
  ∃ k : nat,
    sent (notify_staff staffUsers message srv) ws
      = (sent srv ws ++ replicate k message)%list ∧
    (k ≠ 0%nat ↔
     readyState srv ws = OPEN ∧
     ∃ u s, u ∈ staffUsers ∧ User.id u ≠ "" ∧
            clients srv !! User.id u = Some s ∧ ws ∈ s).
Proof.
  unfold notify_staff. revert srv.
  induction staffUsers as [|u l IH]; intros srv.
  { exists 0%nat. simpl. rewrite app_nil_r. split; [done|]. split; [done|].
    intros [_ (u & s & Hu & _)]. by apply elem_of_nil in Hu. }
  cbn [foldl].
  set (srv1 := if truthy (Some (User.id u))
               then broadcastToUser (User.id u) message srv else srv).
  assert (clients srv1 = clients srv ∧ readyState srv1 = readyState srv)
    as [Hclients Hready].
  { unfold srv1. destruct (truthy _); [|done].
    by destruct (broadcastToUser_frame message (User.id u) srv) as (_ & -> & ->). }
  assert (∃ k0 : nat,
            sent srv1 ws = (sent srv ws ++ replicate k0 message)%list ∧
            (k0 ≠ 0%nat ↔
             readyState srv ws = OPEN ∧ User.id u ≠ "" ∧
             ∃ s, clients srv !! User.id u = Some s ∧ ws ∈ s))
    as (k0 & Hsent0 & Hk0).
  { unfold srv1. destruct (truthy (Some (User.id u))) eqn:Hid.
    - apply truthy_Some in Hid.
      destruct (broadcastToUser_delivery srv (User.id u) message ws)
        as (k0 & Hsent & _ & Hk).
      exists k0. split; [done|]. rewrite Hk. tauto.
    - exists 0%nat. rewrite app_nil_r. split; [done|]. split; [done|].
      intros (_ & Hne & _). apply truthy_Some in Hne. congruence. }
  destruct (IH srv1) as (k & Hsent & Hk).
  exists (k0 + k)%nat. split.
  - by rewrite Hsent, Hsent0, replicate_add, app_assoc.
  - rewrite Hclients, Hready in Hk. split.
    + intros Hpos. destruct (decide (k0 = 0%nat)) as [->|Hk0pos].
      * destruct (proj1 Hk) as (Hopen & u' & s & Hu' & Hrest); [lia|].
        split; [done|]. exists u', s. split; [by right|done].
      * destruct (proj1 Hk0 Hk0pos) as (Hopen & Hne & s & Hs & Hin).
        split; [done|]. exists u, s. split; [by left|done].
    + intros (Hopen & u' & s & Hu' & Hne & Hs & Hin).
      apply elem_of_cons in Hu' as [-> | Hu'].
      * assert (k0 ≠ 0%nat); [|lia]. apply Hk0. eauto.
      * assert (k ≠ 0%nat); [|lia]. apply Hk. split; [done|]. by exists u', s.
Qed.

Lemma elem_of_staffUsers d department u :
  u ∈ List.filter (is_department_staff department) (getAllUsers d) ↔
  u ∈ users d ∧ User.role u = "staff" ∧ User.department u = Some department.
Proof.
  rewrite list_elem_of_In, List.filter_In, <- list_elem_of_In.
  unfold getAllUsers. rewrite merge_sort_Permutation.
  unfold is_department_staff. rewrite andb_true_iff, String.eqb_eq.
  by rewrite bool_decide_eq_true.
Qed.

(** When [POST /api/alerts] accepts an alert, the only frames it sends are
    copies of the [new_alert] event for that alert, and a socket receives one
    exactly when it is open and registered for a stored staff member of the
    alert's department; students, admins and the staff of other departments
    are not notified. *)
Theorem new_alert_reaches_the_department_staff srv env session body ws
    (Haccepted : Response.status (post_alerts srv env session body).1 = 200) :
  ∃ alert (k : nat),
    (post_alerts srv env session body).1 = Response.mk 200 (BAlert alert) ∧
    sent (post_alerts srv env session body).2 ws
      = (sent srv ws ++
         replicate k (new_alert (Alert.id alert) (Alert.department alert) alert))%list ∧
    (k ≠ 0%nat ↔
     readyState srv ws = OPEN ∧
     ∃ u s, u ∈ users (db srv) ∧ User.role u = "staff" ∧
            User.department u = Some (Alert.department alert) ∧
            User.id u ≠ "" ∧
            clients srv !! User.id u = Some s ∧ ws ∈ s).
Proof.
  destruct (post_alerts_200 _ _ _ _ Haccepted)
    as (userId & data & alert & d & -> & Hne & Hbody & Hcreate & Hr & _).
  exists alert. revert Hr. unfold post_alerts.
  assert (requireAuth (Some userId) = inr userId) as ->
    by by apply requireAuth_inr.
  rewrite Hbody, Hcreate. cbn [fst snd]. intros Hr.
  match goal with
  | |- context [notify_staff ?l ?m ?s] =>
      destruct (notify_staff_delivery l m s ws) as (k & Hsent & Hk)
  end.
  exists k. split; [done|]. split; [exact Hsent|].
  rewrite Hk. simpl.
  assert (users d = users (db srv)) as Husers.
  { revert Hcreate. unfold createAlert. repeat case_bool_decide; try done.
    by intros [= _ <-]. }
  split.
  - intros (Hopen & u & s & Hu & Hid & Hs & Hin). split; [done|]. exists u, s.
    apply elem_of_staffUsers in Hu as (Hu & Hrole & Hdep).
    rewrite Husers in Hu. done.
  - intros (Hopen & u & s & Hu & Hrole & Hdep & Hid & Hs & Hin). split; [done|].
    exists u, s. split; [|done]. apply elem_of_staffUsers.
    by rewrite Husers.
Qed.

Lemma new_alert_reaches_the_department_staff_witness :
  ∃ alert,
    sent (post_alerts srv_connected env1 (Some "s1") (alert_body "pending")).2
      1%nat = [new_alert "0b7e" "medical" alert] ∧
    sent (post_alerts srv_connected env1 (Some "s1") (alert_body "pending")).2
      2%nat = [] ∧
    sent (post_alerts srv_connected env1 (Some "s1") (alert_body "pending")).2
      3%nat = [].
Proof.
  destruct (new_alert_reaches_the_department_staff srv_connected env1 (Some "s1")
              (alert_body "pending") 1%nat) as (alert & k & Hr & _).
  { vm_compute. reflexivity. }
  exists alert. injection Hr as <-. vm_compute. done.
Defined.

(** When [PATCH /api/alerts/:id] succeeds, the only frame it sends is the
    [alert_updated] event, once, to the open sockets registered for the
    owner of the alert; nobody else is notified. *)
Theorem alert_update_reaches_the_owner srv env userId user id body data alert ws
    (Hne : userId ≠ "")
    (Huser : getUser (db srv) userId = Some user)
    (Hrole : User.role user ∈ ["staff"; "admin"])
    (Hbody : updateAlertStatusSchema body = Some data)
    (Halert : getAlert (db srv) id = Some alert)
    (Hdep : User.role user = "staff" →
            User.department user = Some (Alert.department alert))
    (Hpassed : transition_refused (Alert.status alert)
                 (UpdateAlertStatus.status data) = false) :
  ∃ k : nat,
    sent (patch_alerts_id srv env (Some userId) id body).2 ws
      = (sent srv ws ++
         replicate k (alert_updated id (UpdateAlertStatus.status data)))%list ∧
    (k ≤ 1)%nat ∧
    (k ≠ 0%nat ↔
     readyState srv ws = OPEN ∧ Alert.userId alert ≠ "" ∧
     ∃ s, clients srv !! Alert.userId alert = Some s ∧ ws ∈ s).
Proof.
  unfold patch_alerts_id.
  assert (requireRole ["staff"; "admin"] (db srv) (Some userId) = inr user) as ->.
  { apply requireRole_inr. by exists userId. }
  rewrite Hbody, Halert, department_gate_false, Hpassed by done.
  destruct (updateAlert (db srv) id (updateData data user env)) as [updated d].
  cbn [snd].
  destruct (truthy (Some (Alert.userId alert))) eqn:Howner.
  - apply truthy_Some in Howner.
    destruct (broadcastToUser_delivery (with_db srv d) (Alert.userId alert)
                (alert_updated id (UpdateAlertStatus.status data)) ws)
      as (k & Hsent & Hle & Hk).
    exists k. split; [exact Hsent|]. split; [done|]. rewrite Hk. simpl. tauto.
  - exists 0%nat. simpl. rewrite app_nil_r. split; [done|]. split; [lia|].
    split; [done|]. intros (_ & Hid & _). apply truthy_Some in Hid. congruence.
Qed.

Lemma alert_update_reaches_the_owner_witness :
  sent (patch_alerts_id srv_connected env1 (Some "m1") "a1"
          (status_body "acknowledged")).2 3%nat
    = [alert_updated "a1" "acknowledged"] ∧
  sent (patch_alerts_id srv_connected env1 (Some "m1") "a1"
          (status_body "acknowledged")).2 1%nat = [].
Proof.
  destruct (alert_update_reaches_the_owner srv_connected env1 "m1" medical_staff
              "a1" (status_body "acknowledged")
              (UpdateAlertStatus.mk "acknowledged" None) (alert1 "pending")
              3%nat) as (k & _).
  - done.
  - reflexivity.
  - by apply includes_spec.
  - reflexivity.
  - reflexivity.
  - reflexivity.
  - reflexivity.
  - vm_compute. done.
Defined.

(** ** Chat messages *)

Lemma createMessage_inr d env date ins message d' :
  createMessage d env date ins = inr (message, d') →
  message =
    Message.mk (uuid env) (InsertMessage.sessionId ins)
      (InsertMessage.senderId ins) (InsertMessage.senderRole ins)
      (InsertMessage.content ins) (InsertMessage.fileUrl ins)
      (InsertMessage.fileName ins) false (now env) ∧
  (uuid env ∉ Message.id <$> messages d) ∧
  users d' = users d ∧ alerts d' = alerts d ∧ auditLogs d' = auditLogs d ∧
  messages d' = (messages d ++ [message])%list ∧
  chatSessions d' =
    (λ s, if decide (ChatSession.id s = InsertMessage.sessionId ins)
          then set_lastMessageAt date s else s) <$> chatSessions d.
Proof.
  unfold createMessage. cbn [Message.id Message.sessionId Message.senderId].
  case_bool_decide as Hpk; [done|]. case_bool_decide as Hfk1; [done|].
  case_bool_decide as Hfk2; [done|]. by intros [= <- <-].
Qed.

Lemma createMessage_accepts d env date ins :
  uuid env ∉ Message.id <$> messages d →
  is_Some (getChatSession d (InsertMessage.sessionId ins)) →
  is_Some (getUser d (InsertMessage.senderId ins)) →
  ∃ message d', createMessage d env date ins = inr (message, d').
Proof.
  intros Hpk [c Hc] [u Hu]. unfold createMessage.
  cbn [Message.id Message.sessionId Message.senderId].
  rewrite bool_decide_false by done.
  rewrite bool_decide_false by (by rewrite Hc).
  rewrite bool_decide_false by (by rewrite Hu). eauto.
Qed.

(** What an answer 200 of [POST /api/chats/messages] tells. *)
Lemma post_chats_messages_200 srv env date session body :
  Reply.status (post_chats_messages srv env date session body).1 = 200 →
  ∃ userId user data chat message d,
    session = Some userId ∧ userId ≠ "" ∧
    insertMessageSchema body = Some data ∧
    getUser (db srv) userId = Some user ∧
    getChatSession (db srv) (InsertMessage.sessionId data) = Some chat ∧
    canAccess chat userId user = true ∧
    createMessage (db srv) env date
      (with_sender data userId
         (if String.eqb (User.role user) "student" then "student" else "staff"))
      = inr (message, d) ∧
    post_chats_messages srv env date session body =
      (Reply.mk 200 (PChatMessage message),
       notify_staff
         (List.filter (is_department_staff (ChatSession.department chat))
            (getAllUsers d))
         (chat_message (ChatSession.id chat) message)
         (if truthy (Some (ChatSession.userId chat))
          then broadcastToUser (ChatSession.userId chat)
                 (chat_message (ChatSession.id chat) message) (with_db srv d)
          else with_db srv d)).
Proof.
  unfold post_chats_messages.
  destruct (requireAuth session) as [r|userId] eqn:Hauth.
  { unfold requireAuth in Hauth.
    destruct session; [destruct (truthy _)|]; by simplify_eq/=. }
  apply requireAuth_inr in Hauth as [-> Hne].
  destruct (insertMessageSchema body) as [data|] eqn:Hbody; [|done].
  destruct (getUser (db srv) userId) as [user|] eqn:Huser; [|done].
  destruct (getChatSession _ _) as [chat|] eqn:Hchat; [|done].
  destruct (canAccess chat userId user) eqn:Haccess; [|done]. cbn [negb].
  destruct (createMessage _ _ _ _) as [e|[message d]] eqn:Hcreate; [done|].
  intros _. by exists userId, user, data, chat, message, d.
Qed.

Lemma post_chats_messages_db srv env date session body chat message d :
  post_chats_messages srv env date session body =
    (Reply.mk 200 (PChatMessage message),
     notify_staff
       (List.filter (is_department_staff (ChatSession.department chat))
          (getAllUsers d))
       (chat_message (ChatSession.id chat) message)
       (if truthy (Some (ChatSession.userId chat))
        then broadcastToUser (ChatSession.userId chat)
               (chat_message (ChatSession.id chat) message) (with_db srv d)
        else with_db srv d)) →
  db (post_chats_messages srv env date session body).2 = d ∧
  clients (post_chats_messages srv env date session body).2 = clients srv ∧
  readyState (post_chats_messages srv env date session body).2 = readyState srv.
Proof.
  intros ->. cbn [snd].
  match goal with
  | |- context [notify_staff ?l ?m ?s] =>
      destruct (notify_staff_frame m l s) as (-> & -> & ->)
  end.
  destruct (truthy _); [|done].
  match goal with
  | |- context [broadcastToUser ?u ?m ?s] =>
      by destruct (broadcastToUser_frame m u s) as (-> & -> & ->)
  end.
Qed.

(** When [POST /api/chats/messages] answers 200, the message it returns is
    stored with the session user as sender, with [senderRole] student for a
    student and staff for staff and admins, whatever sender the body names;
    it is unread, it is added to the listing of its session and to no other
    listing, and the session's [lastMessageAt] is the time of the request. *)
Theorem chat_message_is_stored srv env date session body
    (Hanswer : Reply.status (post_chats_messages srv env date session body).1
               = 200) :
  let srv' := (post_chats_messages srv env date session body).2 in
  ∃ userId user data chat message,
    session = Some userId ∧
    getUser (db srv) userId = Some user ∧
    insertMessageSchema body = Some data ∧
    getChatSession (db srv) (InsertMessage.sessionId data) = Some chat ∧
    (post_chats_messages srv env date session body).1
      = Reply.mk 200 (PChatMessage message) ∧
    Message.senderId message = userId ∧
    Message.senderRole message =
      (if String.eqb (User.role user) "student" then "student" else "staff") ∧
    Message.sessionId message = InsertMessage.sessionId data ∧
    Message.content message = InsertMessage.content data ∧
    Message.isRead message = false ∧
    messages (db srv') = (messages (db srv) ++ [message])%list ∧
    (∀ sessionId,
       getMessagesBySession (db srv') sessionId ≡ₚ
         if decide (sessionId = InsertMessage.sessionId data)
         then getMessagesBySession (db srv) sessionId ++ [message]
         else getMessagesBySession (db srv) sessionId) ∧
    getChatSession (db srv') (InsertMessage.sessionId data)
      = Some (set_lastMessageAt date chat).
Proof.
  intros srv'.
  destruct (post_chats_messages_200 _ _ _ _ _ Hanswer)
    as (userId & user & data & chat & message & d & -> & Hne & Hbody & Huser
        & Hchat & Haccess & Hcreate & Hpost).
  destruct (post_chats_messages_db _ _ _ _ _ _ _ _ Hpost) as (Hdb & _).
  fold srv' in Hdb.
  apply createMessage_inr in Hcreate
    as (Hmessage & _ & _ & _ & _ & Hmessages & Hchats).
  exists userId, user, data, chat, message.
  rewrite Hpost, Hdb. cbn [fst].
  repeat (split; [by rewrite ?Hmessage|]).
  split; [done|]. split.
  - intros sessionId. unfold getMessagesBySession.
    rewrite !merge_sort_Permutation, Hmessages, list.filter_app.
    rewrite filter_cons, filter_nil.
    assert (Message.sessionId message = InsertMessage.sessionId data) as ->
      by by rewrite Hmessage.
    destruct (decide (sessionId = InsertMessage.sessionId data)) as [->|Hneq].
    + rewrite decide_True by done.
      by rewrite merge_sort_Permutation.
    + rewrite decide_False by congruence.
      by rewrite app_nil_r, merge_sort_Permutation.
  - unfold getChatSession in *.
    cbn [with_sender InsertMessage.sessionId] in Hchats. rewrite Hchats.
    assert (filter (λ s, ChatSession.id s = InsertMessage.sessionId data)
              ((λ s, if decide (ChatSession.id s = InsertMessage.sessionId data)
                     then set_lastMessageAt date s else s)
                 <$> chatSessions (db srv))
            = set_lastMessageAt date <$>
                filter (λ s, ChatSession.id s = InsertMessage.sessionId data)
                  (chatSessions (db srv))) as ->.
    { clear. induction (chatSessions (db srv)) as [|c l IH]; [done|].
      rewrite fmap_cons, !filter_cons.
      destruct (decide (ChatSession.id c = InsertMessage.sessionId data)).
      - rewrite decide_True by done. by rewrite fmap_cons, IH.
      - by rewrite decide_False. }
    destruct (filter _ (chatSessions (db srv))); by simplify_eq/=.
Qed.

Lemma chat_message_is_stored_witness :
  ∃ message,
    (post_chats_messages (srv1 "pending") env1 12 (Some "adm")
       (message_body "on our way")).1 = Reply.mk 200 (PChatMessage message) ∧
    Message.senderId message = "adm" ∧
    Message.senderRole message = "staff".
Proof.
  destruct (chat_message_is_stored (srv1 "pending") env1 12 (Some "adm")
              (message_body "on our way"))
    as (userId & user & data & chat & message & Hs & Hu & _ & _ & Hr & Hid
        & Hrole & _).
  { vm_compute. reflexivity. }
  exists message. injection Hs as <-. split; [exact Hr|]. split; [exact Hid|].
  rewrite Hrole. vm_compute in Hu. injection Hu as <-. reflexivity.
Defined.

(** When [POST /api/chats/messages] answers 200, the only frames it sends
    are copies of the [chat_message] event for the new message, and a socket
    receives one exactly when it is open and registered for the owner of the
    session or for a stored staff member of the session's department. *)
Theorem chat_message_reaches_both_sides srv env date session body ws
    (Hanswer : Reply.status (post_chats_messages srv env date session body).1
               = 200) :
  ∃ data chat message (k : nat),
    insertMessageSchema body = Some data ∧
    getChatSession (db srv) (InsertMessage.sessionId data) = Some chat ∧
    (post_chats_messages srv env date session body).1
      = Reply.mk 200 (PChatMessage message) ∧
    sent (post_chats_messages srv env date session body).2 ws
      = (sent srv ws ++
         replicate k (chat_message (ChatSession.id chat) message))%list ∧
    (k ≠ 0%nat ↔
     readyState srv ws = OPEN ∧
     ((ChatSession.userId chat ≠ "" ∧
       ∃ s, clients srv !! ChatSession.userId chat = Some s ∧ ws ∈ s) ∨
      ∃ u s, u ∈ users (db srv) ∧ User.role u = "staff" ∧
             User.department u = Some (ChatSession.department chat) ∧
             User.id u ≠ "" ∧
             clients srv !! User.id u = Some s ∧ ws ∈ s)).
Proof.
  destruct (post_chats_messages_200 _ _ _ _ _ Hanswer)
    as (userId & user & data & chat & message & d & -> & Hne & Hbody & Huser
        & Hchat & Haccess & Hcreate & Hpost).
  apply createMessage_inr in Hcreate as (_ & _ & Husers & _).
  exists data, chat, message. rewrite Hpost. cbn [fst snd].
  set (event := chat_message (ChatSession.id chat) message).
  set (srv1 := if truthy (Some (ChatSession.userId chat))
               then broadcastToUser (ChatSession.userId chat) event (with_db srv d)
               else with_db srv d).
  assert (clients srv1 = clients srv ∧ readyState srv1 = readyState srv)
    as [Hclients Hready].
  { unfold srv1. destruct (truthy _); [|done].
    by destruct (broadcastToUser_frame event (ChatSession.userId chat)
                   (with_db srv d)) as (_ & -> & ->). }
  assert (∃ k0 : nat,
            sent srv1 ws = (sent srv ws ++ replicate k0 event)%list ∧
            (k0 ≠ 0%nat ↔
             readyState srv ws = OPEN ∧ ChatSession.userId chat ≠ "" ∧
             ∃ s, clients srv !! ChatSession.userId chat = Some s ∧ ws ∈ s))
    as (k0 & Hsent0 & Hk0).
  { unfold srv1. destruct (truthy (Some (ChatSession.userId chat))) eqn:Hid.
    - apply truthy_Some in Hid.
      destruct (broadcastToUser_delivery (with_db srv d)
                  (ChatSession.userId chat) event ws) as (k0 & Hsent & _ & Hk).
      exists k0. split; [done|]. rewrite Hk. simpl. tauto.
    - exists 0%nat. rewrite app_nil_r. split; [done|]. split; [done|].
      intros (_ & Hid' & _). apply truthy_Some in Hid'. congruence. }
  destruct (notify_staff_delivery
              (List.filter (is_department_staff (ChatSession.department chat))
                 (getAllUsers d)) event srv1 ws) as (k & Hsent & Hk).
  exists (k0 + k)%nat. repeat (split; [done|]). split.
  - by rewrite Hsent, Hsent0, replicate_add, app_assoc.
  - rewrite Hclients, Hready in Hk. split.
    + intros Hpos. destruct (decide (k0 = 0%nat)) as [->|Hk0pos].
      * destruct (proj1 Hk) as (Hopen & u & s & Hu & Hid & Hs & Hin); [lia|].
        split; [done|]. right. exists u, s.
        apply elem_of_staffUsers in Hu as (Hu & Hrole & Hdep).
        by rewrite Husers in Hu.
      * destruct (proj1 Hk0 Hk0pos) as (Hopen & Hrest). split; [done|]. by left.
    + intros (Hopen & [Howner | (u & s & Hu & Hrole & Hdep & Hid & Hs & Hin)]).
      * assert (k0 ≠ 0%nat); [|lia]. by apply Hk0.
      * assert (k ≠ 0%nat); [|lia]. apply Hk. split; [done|]. exists u, s.
        split; [|done]. apply elem_of_staffUsers. by rewrite Husers.
Qed.

Lemma chat_message_reaches_both_sides_witness :
  ∃ message,
    sent (post_chats_messages srv_connected env1 12 (Some "adm")
            (message_body "on our way")).2 3%nat = [chat_message "c1" message] ∧
    sent (post_chats_messages srv_connected env1 12 (Some "adm")
            (message_body "on our way")).2 1%nat = [].
Proof.
  destruct (chat_message_reaches_both_sides srv_connected env1 12 (Some "adm")
              (message_body "on our way") 3%nat)
    as (data & chat & message & k & _ & _ & Hr & _).
  { vm_compute. reflexivity. }
  exists message. injection Hr as <-. vm_compute. done.
Defined.

(** ** Who may read and write a chat session *)

Lemma canAccess_spec chat userId user :
  canAccess chat userId user = true ↔
  ChatSession.userId chat = userId ∨
  (User.role user = "staff" ∧
   User.department user = Some (ChatSession.department chat)) ∨
  User.role user = "admin".
Proof.
  unfold canAccess.
  rewrite !orb_true_iff, andb_true_iff, !String.eqb_eq, bool_decide_eq_true.
  tauto.
Qed.

(** For a stored user and an existing chat session, reading the session,
    listing its messages and posting to it are allowed to the same people:
    the owner of the session, the staff of its department and admins. Anyone
    else is answered 403 "Forbidden" by all three routes and nothing
    changes. *)
Theorem chat_access_is_one_rule srv env date userId user id chat body data
    (Hne : userId ≠ "")
    (Huser : getUser (db srv) userId = Some user)
    (Hchat : getChatSession (db srv) id = Some chat)
    (Hbody : insertMessageSchema body = Some data)
    (Hid : InsertMessage.sessionId data = id) :
  let allowed :=
    ChatSession.userId chat = userId ∨
    (User.role user = "staff" ∧
     User.department user = Some (ChatSession.department chat)) ∨
    User.role user = "admin" in
  (allowed →
   get_chats_sessions_id srv (Some userId) id
     = (Reply.mk 200 (PChatSession chat), srv) ∧
   Response.status (get_chats_messages srv (Some userId) id).1 = 200 ∧
   Reply.status (post_chats_messages srv env date (Some userId) body).1 ≠ 403) ∧
  (¬ allowed →
   get_chats_sessions_id srv (Some userId) id
     = (reply_message 403 "Forbidden", srv) ∧
   get_chats_messages srv (Some userId) id
     = (json_message 403 "Forbidden", srv) ∧
   post_chats_messages srv env date (Some userId) body
     = (reply_message 403 "Forbidden", srv)).
Proof.
  intros allowed.
  assert (requireAuth (Some userId) = inr userId) as Hauth
    by by apply requireAuth_inr.
  assert (allowed ↔ canAccess chat userId user = true) as Hallowed
    by (symmetry; apply canAccess_spec).
  unfold get_chats_sessions_id, get_chats_messages, post_chats_messages.
  rewrite Hauth, Hbody, Hid, Hchat, Huser.
  split.
  - intros Hyes%Hallowed. rewrite Hyes. cbn [negb]. split; [|split; [done|]].
    + unfold canAccess in Hyes.
      destruct (String.eqb (ChatSession.userId chat) userId); [done|].
      simpl in Hyes. apply orb_true_iff in Hyes as [-> | ->]; [done|].
      by rewrite andb_false_r.
    + by destruct (createMessage _ _ _ _) as [e|[m d]].
  - intros Hno. assert (canAccess chat userId user = false) as Hfalse.
    { apply not_true_iff_false. by rewrite <- Hallowed. }
    rewrite Hfalse. cbn [negb]. split; [|done].
    unfold canAccess in Hfalse.
    apply orb_false_iff in Hfalse as [Hfalse ->].
    apply orb_false_iff in Hfalse as [-> ->]. done.
Qed.

Lemma chat_access_is_one_rule_witness :
  get_chats_sessions_id (srv1 "pending") (Some "m1") "c1"
    = (reply_message 403 "Forbidden", srv1 "pending") ∧
  post_chats_messages (srv1 "pending") env1 12 (Some "m1") (message_body "hello")
    = (reply_message 403 "Forbidden", srv1 "pending").
Proof.
  destruct (chat_access_is_one_rule (srv1 "pending") env1 12 "m1" medical_staff
              "c1" chat1 (message_body "hello")
              (InsertMessage.mk "c1" "" "student" "hello" None None))
    as [_ Hdenied]; [done|reflexivity..|].
  destruct Hdenied as (Hread & _ & Hpost).
  - intros [Howner | [[_ Hdep] | Hadmin]]; discriminate.
  - by split.
Defined.

(** ** Fields that the routes replace are still demanded of the body *)

(** The three creating routes replace [userId], [anonymousId], [senderId]
    and [senderRole] by values of their own, but the insert schemas keep
    these columns required: a body in which one of them is missing, not a
    string or, for the [varchar(36)] columns [userId] and [senderId], longer
    than 36 ([senderRole]: not student or staff) is answered 400 and nothing
    is stored. *)
Theorem replaced_fields_are_still_required srv env random date userId body
    (Hne : userId ≠ "") :
  (z_max 36 (field "userId" body) = None →
   Response.status (post_alerts srv env (Some userId) body).1 = 400 ∧
   (post_alerts srv env (Some userId) body).2 = srv ∧
   Reply.status (post_chats_sessions srv env random (Some userId) body).1 = 400 ∧
   (post_chats_sessions srv env random (Some userId) body).2 = srv) ∧
  (z_string (field "anonymousId" body) = None →
   Reply.status (post_chats_sessions srv env random (Some userId) body).1 = 400 ∧
   (post_chats_sessions srv env random (Some userId) body).2 = srv) ∧
  (z_max 36 (field "senderId" body) = None ∨
   z_enum senderRoleEnum (field "senderRole" body) = None →
   Reply.status (post_chats_messages srv env date (Some userId) body).1 = 400 ∧
   (post_chats_messages srv env date (Some userId) body).2 = srv).
Proof.
  assert (requireAuth (Some userId) = inr userId) as Hauth
    by by apply requireAuth_inr.
  unfold post_alerts, post_chats_sessions, post_chats_messages.
  rewrite Hauth. split; [|split].
  - intros Hmissing. unfold insertAlertSchema, insertChatSessionSchema.
    by rewrite Hmissing.
  - intros Hmissing. unfold insertChatSessionSchema. rewrite Hmissing.
    destruct (z_max 36 (field "userId" body)); [|done]. simpl.
    by destruct (z_enum chatDepartmentEnum (field "department" body)).
  - intros Hmissing. unfold insertMessageSchema.
    destruct (z_max 36 (field "sessionId" body)); [|done]. simpl.
    destruct Hmissing as [-> | Hrole]; [done|].
    destruct (z_max 36 (field "senderId" body)); [|done]. simpl.
    by rewrite Hrole.
Qed.

Lemma replaced_fields_are_still_required_witness :
  Reply.status
    (post_chats_sessions (srv1 "pending") env1 "0.4fzyo82mvyr" (Some "s1")
       (JObj [("department", JStr "guidance")])).1 = 400 ∧
  Reply.status
    (post_chats_messages (srv1 "pending") env1 12 (Some "s1")
       (JObj [("sessionId", JStr "c1"); ("content", JStr "hello")])).1 = 400.
Proof.
  split.
  - apply (replaced_fields_are_still_required (srv1 "pending") env1
             "0.4fzyo82mvyr" 0 "s1"); [done|reflexivity].
  - apply (replaced_fields_are_still_required (srv1 "pending") env1 "" 12 "s1");
      [done|by left].
Defined.

(** ** Chat sessions *)

Lemma createChatSession_inr d env ins chat d' :
  createChatSession d env ins = inr (chat, d') →
  chat =
    ChatSession.mk (uuid env) (InsertChatSession.userId ins)
      (InsertChatSession.department ins) (InsertChatSession.anonymousId ins)
      (default "active" (InsertChatSession.status ins)) None (now env) None ∧
  getChatSession d (uuid env) = None ∧
  (InsertChatSession.anonymousId ins ∉ ChatSession.anonymousId <$> chatSessions d) ∧
  is_Some (getUser d (InsertChatSession.userId ins)) ∧
  d' = with_chatSessions d (chatSessions d ++ [chat]) ∧
  getChatSession d' (uuid env) = Some chat.
Proof.
  unfold createChatSession.
  cbn [ChatSession.id ChatSession.anonymousId ChatSession.userId].
  case_bool_decide as Hpk; [done|]. case_bool_decide as Hanon; [done|].
  case_bool_decide as Hfk; [done|]. intros [= <- <-].
  assert (getChatSession d (uuid env) = None) as Hnone
    by by apply eq_None_not_Some.
  repeat split; try done.
  - by destruct (getUser d (InsertChatSession.userId ins)).
  - unfold getChatSession in *. simpl. rewrite list.filter_app.
    apply head_None in Hnone. rewrite Hnone. simpl.
    by rewrite filter_cons, decide_True.
Qed.

(** When [POST /api/chats/sessions] answers 200, the session it returns is
    stored for the session user under the handle "User#" followed by the
    upper-cased characters 2 to 7 of the random string, whatever owner and
    handle the body names; no earlier session has that handle; the status is
    the one of the body, active when the body has none. *)
Theorem chat_session_creation srv env random session body
    (Hanswer : Reply.status (post_chats_sessions srv env random session body).1
               = 200) :
  ∃ userId data chat,
    session = Some userId ∧
    insertChatSessionSchema body = Some data ∧
    post_chats_sessions srv env random session body
      = (Reply.mk 200 (PChatSession chat),
         with_db srv
           (with_chatSessions (db srv) (chatSessions (db srv) ++ [chat]))) ∧
    getChatSession
      (db (post_chats_sessions srv env random session body).2)
      (ChatSession.id chat) = Some chat ∧
    ChatSession.userId chat = userId ∧
    ChatSession.anonymousId chat
      = "User#" +:+ toUpperCase (String.substring 2 6 random) ∧
    (ChatSession.anonymousId chat ∉
       ChatSession.anonymousId <$> chatSessions (db srv)) ∧
    ChatSession.department chat = InsertChatSession.department data ∧
    ChatSession.status chat = default "active" (InsertChatSession.status data) ∧
    ChatSession.lastMessageAt chat = None.
Proof.
  revert Hanswer. unfold post_chats_sessions.
  destruct (requireAuth session) as [r|userId] eqn:Hauth.
  { unfold requireAuth in Hauth.
    destruct session; [destruct (truthy _)|]; by simplify_eq/=. }
  apply requireAuth_inr in Hauth as [-> Hne].
  destruct (insertChatSessionSchema body) as [data|] eqn:Hbody; [|done].
  destruct (createChatSession _ _ _) as [e|[chat d]] eqn:Hcreate; [done|].
  intros _.
  apply createChatSession_inr in Hcreate
    as (Hchat & _ & Hfresh & _ & -> & Hget).
  exists userId, data, chat. cbn [snd with_db db].
  assert (ChatSession.id chat = uuid env) as -> by by rewrite Hchat.
  repeat (split; [done|]). rewrite Hchat. by repeat split.
Qed.

Lemma chat_session_creation_witness :
  ∃ chat,
    (post_chats_sessions (srv1 "pending") env1 "0.4fzyo82mvyr" (Some "s1")
       (JObj [("userId", JStr "adm"); ("department", JStr "medical");
              ("anonymousId", JStr "User#4F9K2Q")])).1
      = Reply.mk 200 (PChatSession chat) ∧
    ChatSession.userId chat = "s1" ∧
    ChatSession.anonymousId chat = "User#4FZYO8".
Proof.
  destruct (chat_session_creation (srv1 "pending") env1 "0.4fzyo82mvyr"
              (Some "s1")
              (JObj [("userId", JStr "adm"); ("department", JStr "medical");
                     ("anonymousId", JStr "User#4F9K2Q")]))
    as (userId & data & chat & Hs & _ & Hr & _ & Howner & Hhandle & _).
  { vm_compute. reflexivity. }
  exists chat. injection Hs as <-. rewrite Hr. by repeat split.
Defined.

(** A session whose generated handle is already stored is not created: the
    unique constraint refuses the insert, the answer is 400 and nothing
    changes. *)
Theorem chat_handle_collision_is_refused srv env random userId body data
    (Hne : userId ≠ "")
    (Hbody : insertChatSessionSchema body = Some data)
    (Htaken : "User#" +:+ toUpperCase (String.substring 2 6 random) ∈
                ChatSession.anonymousId <$> chatSessions (db srv)) :
  Reply.status (post_chats_sessions srv env random (Some userId) body).1 = 400 ∧
  (post_chats_sessions srv env random (Some userId) body).2 = srv.
Proof.
  unfold post_chats_sessions.
  assert (requireAuth (Some userId) = inr userId) as ->
    by by apply requireAuth_inr.
  rewrite Hbody. unfold createChatSession.
  cbn [ChatSession.id ChatSession.anonymousId ChatSession.userId with_owner
       InsertChatSession.anonymousId].
  case_bool_decide; [done|]. by rewrite bool_decide_true.
Qed.

Lemma chat_handle_collision_is_refused_witness :
  Reply.status
    (post_chats_sessions (srv1 "pending") env1 "0.4f9k2qzz" (Some "m1")
       (JObj [("userId", JStr ""); ("department", JStr "medical");
              ("anonymousId", JStr "")])).1 = 400.
Proof.
  apply (chat_handle_collision_is_refused (srv1 "pending") env1 "0.4f9k2qzz" "m1"
           (JObj [("userId", JStr ""); ("department", JStr "medical");
                  ("anonymousId", JStr "")])
           (InsertChatSession.mk "" "medical" "" None)).
  - done.
  - reflexivity.
  - by_evaluation.
Defined.

(** ** Logging in *)

(** A login that fails on the e-mail and one that fails on the password are
    answered alike: whether no user has the e-mail of the body or the
    password does not match, the answer is 401 "Invalid email or password",
    and the state and the session are what they were. *)
Theorem login_failures_look_alike `{Bcrypt, EmailFormat}
    srv env session body email password
    (Hbody : loginSchema body = Some (email, password))
    (Hfails : ∀ user, getUserByEmail (db srv) email = Some user →
                      bcrypt_compare password (User.password user) = false) :
  post_auth_login srv env session body
    = (json_message 401 "Invalid email or password", srv, session).
Proof.
  unfold post_auth_login. rewrite Hbody.
  destruct (getUserByEmail (db srv) email) as [user|]; [|done].
  by rewrite (Hfails user).
Qed.

Lemma login_failures_look_alike_witness :
  @post_auth_login sample_bcrypt sample_email (srv1 "pending") env1 None
    (login_body "nobody@campus.edu" "secret1")
    = (json_message 401 "Invalid email or password", srv1 "pending", None).
Proof.
  apply (@login_failures_look_alike sample_bcrypt sample_email (srv1 "pending")
           env1 None (login_body "nobody@campus.edu" "secret1")
           "nobody@campus.edu" "secret1"); [reflexivity|].
  intros user. vm_compute. done.
Defined.

Lemma getUser_updateUserLastLogin d date id id' :
  getUser (updateUserLastLogin d date id) id' =
    (λ u, if decide (User.id u = id) then set_lastLogin date u else u)
      <$> getUser d id'.
Proof.
  unfold getUser, updateUserLastLogin. simpl.
  induction (users d) as [|u l IH]; [done|].
  rewrite fmap_cons, !filter_cons.
  assert (User.id (if decide (User.id u = id)
                   then set_lastLogin date u else u) = User.id u) as ->
    by by destruct (decide _).
  destruct (decide (User.id u = id')); [done|exact IH].
Qed.

(** A login with the right password of an active account answers 200 with
    the user as stored before the request, without the password, so its
    [lastLogin] is the previous one; the session gets the user's id, the
    stored [lastLogin] of that id becomes the time of the request, and
    nothing else changes. The right password of an inactive account is
    answered 403 "Account is inactive" and nothing changes. *)
Theorem login_success `{Bcrypt, EmailFormat}
    srv env session body email password user
    (Hbody : loginSchema body = Some (email, password))
    (Huser : getUserByEmail (db srv) email = Some user)
    (Hpassword : bcrypt_compare password (User.password user) = true) :
  (User.isActive user = false →
   post_auth_login srv env session body
     = (json_message 403 "Account is inactive", srv, session)) ∧
  (User.isActive user = true →
   let '(response, srv', session') := post_auth_login srv env session body in
   response = Response.mk 200 (BUser (omit_password user)) ∧
   session' = Some (User.id user) ∧
   (∀ id,
      getUser (db srv') id =
        (λ u, if decide (User.id u = User.id user)
              then set_lastLogin (now env) u else u) <$> getUser (db srv) id) ∧
   alerts (db srv') = alerts (db srv) ∧
   chatSessions (db srv') = chatSessions (db srv) ∧
   messages (db srv') = messages (db srv) ∧
   auditLogs (db srv') = auditLogs (db srv) ∧
   clients srv' = clients srv ∧ sent srv' = sent srv).
Proof.
  unfold post_auth_login. rewrite Hbody, Huser, Hpassword. cbn [negb].
  split; intros ->; cbn [negb]; [done|].
  repeat split. intros id. apply getUser_updateUserLastLogin.
Qed.

Lemma login_success_witness :
  (@post_auth_login sample_bcrypt sample_email (srv1 "pending") env1 None
     (login_body "student1@campus.edu" "student123")).1.1
    = Response.mk 200 (BUser (omit_password student1)) ∧
  (@post_auth_login sample_bcrypt sample_email (srv1 "pending") env1 None
     (login_body "student1@campus.edu" "student123")).2 = Some "s1".
Proof.
  destruct (@login_success sample_bcrypt sample_email (srv1 "pending") env1 None
              (login_body "student1@campus.edu" "student123")
              "student1@campus.edu" "student123" student1)
    as [_ Hactive]; [reflexivity..|].
  specialize (Hactive eq_refl).
  destruct (@post_auth_login sample_bcrypt sample_email (srv1 "pending") env1
              None (login_body "student1@campus.edu" "student123"))
    as [[response srv'] session'].
  by destruct Hactive as (-> & -> & _).
Defined.

(** ** Registering *)

Lemma substring_full s : String.substring 0 (String.length s) s = s.
Proof. induction s as [|c s IH]; [done|]. simpl. by rewrite IH. Qed.

Lemma substring_split s n :
  (n ≤ String.length s)%nat →
  s = String.substring 0 n s +:+ String.substring n (String.length s - n) s.
Proof.
  revert n. induction s as [|c s IH]; intros n Hn.
  - simpl in Hn. assert (n = 0%nat) as -> by lia. done.
  - destruct n as [|n]; simpl.
    + rewrite substring_full. reflexivity.
    + simpl in Hn.
      change (String c s =
              String c (String.substring 0 n s +:+
                        String.substring n (String.length s - n) s)).
      f_equal. apply IH. lia.
Qed.

Lemma endsWith_spec s suffix :
  endsWith s suffix = true → ∃ start, s = start +:+ suffix.
Proof.
  unfold endsWith. intros [Hle Heq]%andb_true_iff.
  apply bool_decide_eq_true in Hle. apply String.eqb_eq in Heq.
  exists (String.substring 0 (String.length s - String.length suffix) s).
  rewrite <- Heq at 2.
  rewrite (substring_split s (String.length s - String.length suffix)) at 1
    by lia.
  do 2 f_equal. lia.
Qed.

Lemma getUserByEmail_new d date user :
  getUserByEmail d (User.email user) = None →
  getUserByEmail
    (updateUserLastLogin (with_users d (users d ++ [user])) date (User.id user))
    (User.email user)
  = Some (set_lastLogin date user).
Proof.
  unfold getUserByEmail, updateUserLastLogin. simpl. intros Hnone.
  apply head_None in Hnone. rewrite fmap_app.
  rewrite list.filter_app.
  assert (filter (λ u, User.email u = User.email user)
            ((λ u, if decide (User.id u = User.id user)
                   then set_lastLogin date u else u) <$> users d) = [])
    as ->.
  { induction (users d) as [|u l IH]; [done|].
    rewrite filter_cons in Hnone. destruct (decide _) as [|Hneq]; [done|].
    rewrite fmap_cons, filter_cons.
    rewrite decide_False by (by destruct (decide (User.id u = User.id user))).
    by apply IH. }
  simpl. rewrite filter_cons, decide_True by (by rewrite decide_True).
  by rewrite decide_True.
Qed.

(** A string has at most as many code units as bytes. *)
Lemma js_length_le s : (js_length s ≤ String.length s)%nat.
Proof.
  assert (∀ n s, (String.length s ≤ n)%nat →
                 (js_length s ≤ String.length s)%nat) as Hle;
    [|by apply (Hle (String.length s))].
  clear s. induction n as [|n IH]; intros s Hn.
  { destruct s; [done|]. simpl in Hn. lia. }
  destruct s as [|b rest]; [done|]. cbn [js_length String.length] in *.
  assert (js_length rest ≤ String.length rest)%nat as Hrest
    by (apply IH; lia).
  destruct (continuation b); [lia|]. destruct (lead4 b); [|lia].
  destruct rest as [|b1 [|b2 [|b3 rest']]]; cbv iota; try lia.
  assert (js_length rest' ≤ String.length rest')%nat
    by (apply IH; cbn [String.length] in Hn; lia).
  cbn [String.length]. lia.
Qed.

(** What an answer 200 of [POST /api/auth/register] tells. *)
Lemma post_auth_register_200 `{Bcrypt, EmailFormat} srv env date session body :
  Response.status (post_auth_register srv env date session body).1.1 = 200 →
  ∃ data local,
    registerSchema body = Some data ∧
    RegisterCredentials.email data = local +:+ "@campus.edu" ∧
    (6 ≤ js_length (RegisterCredentials.password data))%nat ∧
    (6 ≤ String.length (RegisterCredentials.password data))%nat ∧
    let user :=
      User.mk (uuid env) (RegisterCredentials.email data)
        (bcrypt_hash (RegisterCredentials.password data) 10 (salt env))
        "student" (Some "none") (Some (RegisterCredentials.fullName data))
        (RegisterCredentials.phoneNumber data) true (now env) None in
    post_auth_register srv env date session body
      = (Response.mk 200 (BUser (omit_password user)),
         with_db srv
           (updateUserLastLogin
              (with_users (db srv) (users (db srv) ++ [user])) date (uuid env)),
         Some (uuid env)) ∧
    getUserByEmail (db srv) (RegisterCredentials.email data) = None ∧
    getUserByEmail (db (post_auth_register srv env date session body).1.2)
      (RegisterCredentials.email data) = Some (set_lastLogin date user).
Proof.
  unfold post_auth_register.
  destruct (registerSchema body) as [data|] eqn:Hbody; [|done].
  destruct (getUserByEmail (db srv) (RegisterCredentials.email data))
    eqn:Hexisting; [done|].
  destruct (createUser _ _ _) as [e|[user d]] eqn:Hcreate; [done|].
  intros _.
  assert (∃ local, RegisterCredentials.email data = local +:+ "@campus.edu" ∧
                   (6 ≤ js_length (RegisterCredentials.password data))%nat)
    as (local & Hlocal & Hlength).
  { revert Hbody. unfold registerSchema. intros Hb.
    apply bind_Some in Hb as (email & _ & Hb).
    apply bind_Some in Hb as (email' & Hends & Hb).
    apply bind_Some in Hb as (password & Hpassword & Hb).
    apply bind_Some in Hb as (fullName & _ & Hb).
    apply bind_Some in Hb as (phone & _ & Hb). injection Hb as <-. simpl.
    destruct (endsWith email "@campus.edu") eqn:E; [|done].
    injection Hends as <-. apply endsWith_spec in E as [local ->].
    exists local. split; [done|].
    unfold z_min in Hpassword.
    apply bind_Some in Hpassword as (p & _ & Hp).
    case_bool_decide; [|done]. by injection Hp as <-. }
  exists data, local. repeat (split; [done|]).
  split.
  { pose proof (js_length_le (RegisterCredentials.password data)). lia. }
  revert Hcreate. unfold createUser. cbn [User.id User.email].
  case_bool_decide; [done|]. case_bool_decide; [done|].
  intros [= <- <-]. cbn [fst snd db with_db User.id]. split; [done|].
  split; [done|].
  match goal with
  | |- getUserByEmail (updateUserLastLogin _ _ _) _ = Some (_ _ ?u) =>
      apply (getUserByEmail_new (db srv) date u)
  end.
  exact Hexisting.
Qed.

(** When [POST /api/auth/register] answers 200, the stored account has the
    e-mail of the body, which ends in "@campus.edu", the bcrypt hash of the
    password, which has at least six characters, role student, department
    none and is active, whatever else the body carries; its [createdAt] is
    the time of the insert and its stored [lastLogin] the time of the update
    that follows; the session gets the new id, and the response is the
    account as inserted, without the password. An e-mail that is already
    stored is answered 400 "Email already registered" and nothing changes. *)
Theorem registration_creates_a_student `{Bcrypt, EmailFormat}
    srv env date session body :
  (Response.status (post_auth_register srv env date session body).1.1 = 200 →
   ∃ data local,
     registerSchema body = Some data ∧
     RegisterCredentials.email data = local +:+ "@campus.edu" ∧
     (6 ≤ js_length (RegisterCredentials.password data))%nat ∧
     (6 ≤ String.length (RegisterCredentials.password data))%nat ∧
     let user :=
       User.mk (uuid env) (RegisterCredentials.email data)
         (bcrypt_hash (RegisterCredentials.password data) 10 (salt env))
         "student" (Some "none") (Some (RegisterCredentials.fullName data))
         (RegisterCredentials.phoneNumber data) true (now env) None in
     post_auth_register srv env date session body
       = (Response.mk 200 (BUser (omit_password user)),
          with_db srv
            (updateUserLastLogin
               (with_users (db srv) (users (db srv) ++ [user])) date (uuid env)),
          Some (uuid env)) ∧
     getUserByEmail (db srv) (RegisterCredentials.email data) = None ∧
     getUserByEmail (db (post_auth_register srv env date session body).1.2)
       (RegisterCredentials.email data) = Some (set_lastLogin date user)) ∧
  (∀ data existing,
     registerSchema body = Some data →
     getUserByEmail (db srv) (RegisterCredentials.email data) = Some existing →
     post_auth_register srv env date session body
       = (json_message 400 "Email already registered", srv, session)).
Proof.
  split.
  - apply post_auth_register_200.
  - intros data existing Hbody Hexisting. unfold post_auth_register.
    by rewrite Hbody, Hexisting.
Qed.

Lemma registration_creates_a_student_witness :
  ∃ user,
    (@post_auth_register sample_bcrypt sample_email (srv1 "pending") env1 101
       None (register_body "new@campus.edu" "secret1")).1.1
      = Response.mk 200 (BUser user) ∧
    UserWithoutPassword.role user = "student".
Proof.
  destruct (@registration_creates_a_student sample_bcrypt sample_email
              (srv1 "pending") env1 101 None
              (register_body "new@campus.edu" "secret1")) as [Hcreated _].
  destruct Hcreated as (data & local & _ & _ & _ & _ & Hr & _).
  { vm_compute. reflexivity. }
  rewrite Hr. eexists. split; reflexivity.
Defined.

(** An account that has just been registered can log in: when bcrypt
    accepts a password against its own hash, a login with the e-mail and the
    password of an accepted registration answers 200 with the new account,
    whose [lastLogin] is the time of the registration, and puts its id in the
    session. *)
Theorem registered_account_can_log_in `{Bcrypt, EmailFormat}
    srv env date env' session session' body body' data
    (Hregistered :
       Response.status (post_auth_register srv env date session body).1.1 = 200)
    (Hbody : registerSchema body = Some data)
    (Hbody' : loginSchema body' =
                Some (RegisterCredentials.email data,
                      RegisterCredentials.password data))
    (Hbcrypt :
       bcrypt_compare (RegisterCredentials.password data)
         (bcrypt_hash (RegisterCredentials.password data) 10 (salt env)) = true) :
  let srv1 := (post_auth_register srv env date session body).1.2 in
  ∃ user,
    (post_auth_register srv env date session body).1.1
      = Response.mk 200 (BUser (omit_password user)) ∧
    (post_auth_login srv1 env' session' body').1.1
      = Response.mk 200 (BUser (omit_password (set_lastLogin date user))) ∧
    User.id user = uuid env ∧
    (post_auth_login srv1 env' session' body').2 = Some (uuid env).
Proof.
  intros srv1.
  destruct (post_auth_register_200 _ _ _ _ _ Hregistered)
    as (data' & local & Hdata & _ & _ & _ & Hr & _ & Hstored).
  rewrite Hbody in Hdata. injection Hdata as <-. fold srv1 in Hstored.
  eexists. split; [by rewrite Hr|].
  unfold post_auth_login. rewrite Hbody', Hstored. cbn [User.password set_lastLogin].
  rewrite Hbcrypt. done.
Qed.

Lemma registered_account_can_log_in_witness :
  (@post_auth_login sample_bcrypt sample_email
     (@post_auth_register sample_bcrypt sample_email (srv1 "pending") env1 101
        None (register_body "new@campus.edu" "secret1")).1.2
     env1 None (login_body "new@campus.edu" "secret1")).2 = Some "0b7e".
Proof.
  destruct (@registered_account_can_log_in sample_bcrypt sample_email
              (srv1 "pending") env1 101 env1 None None
              (register_body "new@campus.edu" "secret1")
              (login_body "new@campus.edu" "secret1")
              (RegisterCredentials.mk "new@campus.edu" "secret1" "New Student"
                 None))
    as (user & _ & _ & _ & Hsession); [vm_compute; reflexivity|reflexivity..|].
  exact Hsession.
Defined.

(** ** Deleting a user *)

Lemma getUser_deleted (l : list User.t) id id' :
  head (filter (λ u, User.id u = id') (filter (λ u, User.id u ≠ id) l)) =
    if decide (id' = id) then None
    else head (filter (λ u, User.id u = id') l).
Proof.
  induction l as [|u l IH]; [by destruct (decide _)|].
  rewrite !filter_cons. destruct (decide (User.id u ≠ id)) as [Hne|Heq].
  - rewrite filter_cons. destruct (decide (User.id u = id')) as [Hid|Hid].
    + rewrite decide_False by congruence. done.
    + exact IH.
  - apply dec_stable in Heq.
    destruct (decide (User.id u = id')) as [Hid|Hid]; [|exact IH].
    rewrite IH. destruct (decide (id' = id)); [done|congruence].
Qed.

(** What an answer 200 of [DELETE /api/admin/users/:id] tells. *)
Lemma delete_admin_users_id_200 srv env session id :
  Response.status (delete_admin_users_id srv env session id).1 = 200 →
  ∃ adminId admin user,
    session = Some adminId ∧ adminId ≠ "" ∧ adminId ≠ id ∧
    getUser (db srv) adminId = Some admin ∧ User.role admin = "admin" ∧
    getUser (db srv) id = Some user ∧
    referenced (db srv) id = false ∧
    let d := with_users (db srv) (filter (λ u, User.id u ≠ id) (users (db srv))) in
    let log :=
      AuditLog.mk (uuid env) adminId "delete_user" (Some "user") (Some id)
        (Some (JObj [("email", JStr (User.email user))])) (now env) in
    delete_admin_users_id srv env session id
      = (json_message 200 "User deleted successfully",
         with_db srv (with_auditLogs d (auditLogs d ++ [log]))).
Proof.
  unfold delete_admin_users_id.
  destruct (requireRole _ _ _) as [r|admin] eqn:Hgate.
  { intros Hr. apply requireRole_inl_status in Hgate.
    simpl in Hr. destruct Hgate; congruence. }
  apply requireRole_inr in Hgate as (adminId & -> & Hne & Hadmin & Hrole).
  apply list_elem_of_singleton in Hrole.
  case_bool_decide as Hself; [done|].
  destruct (getUser (db srv) id) as [user|] eqn:Huser; [|done].
  unfold deleteUser. rewrite Huser.
  rewrite (bool_decide_true (is_Some (Some user))) by eauto. cbn [andb].
  destruct (referenced (db srv) id) eqn:Href; [done|].
  destruct (createAuditLog _ _ _) as [e|[log d]] eqn:Hlog; [done|].
  intros _. exists adminId, admin, user.
  repeat (split; [done || congruence|]).
  revert Hlog. unfold createAuditLog. cbn [AuditLog.id AuditLog.userId default].
  destruct (existsb _ _); [done|]. case_bool_decide; [done|].
  by intros [= <- <-].
Qed.

(** When [DELETE /api/admin/users/:id] answers 200, the requester is a
    stored admin other than the user, no alert, chat session, message or
    audit log referred to the user, the user is gone and every other user is
    kept, one audit log "delete_user" naming the admin, the user's id and
    e-mail is added, and the deleted user's own session is from now on
    answered 401 "User not found" and destroyed by [GET /api/auth/me]. *)
Theorem admin_delete_removes_the_user srv env session id
    (Hanswer : Response.status (delete_admin_users_id srv env session id).1
               = 200) :
  let srv' := (delete_admin_users_id srv env session id).2 in
  ∃ adminId user,
    session = Some adminId ∧ adminId ≠ id ∧
    getUser (db srv) id = Some user ∧
    referenced (db srv) id = false ∧
    getUser (db srv') id = None ∧
    (∀ id', id' ≠ id → getUser (db srv') id' = getUser (db srv) id') ∧
    auditLogs (db srv') =
      (auditLogs (db srv) ++
       [AuditLog.mk (uuid env) adminId "delete_user" (Some "user") (Some id)
          (Some (JObj [("email", JStr (User.email user))])) (now env)])%list ∧
    alerts (db srv') = alerts (db srv) ∧
    chatSessions (db srv') = chatSessions (db srv) ∧
    messages (db srv') = messages (db srv) ∧
    (id ≠ "" →
     get_auth_me srv' (Some id) = (json_message 401 "User not found", srv', None)).
Proof.
  intros srv'.
  destruct (delete_admin_users_id_200 _ _ _ _ Hanswer)
    as (adminId & admin & user & -> & Hne & Hother & Hadmin & Hrole & Huser
        & Href & Hdelete).
  exists adminId, user. unfold srv'. rewrite Hdelete. cbn [snd db with_db].
  repeat (split; [done|]).
  assert (∀ id',
            getUser
              (with_auditLogs
                 (with_users (db srv)
                    (filter (λ u, User.id u ≠ id) (users (db srv))))
                 (auditLogs (db srv) ++
                  [AuditLog.mk (uuid env) adminId "delete_user" (Some "user")
                     (Some id)
                     (Some (JObj [("email", JStr (User.email user))]))
                     (now env)]))
              id'
            = if decide (id' = id) then None else getUser (db srv) id') as Hget.
  { intros id'. unfold getUser. simpl. apply getUser_deleted. }
  split; [by rewrite Hget, decide_True|].
  split; [intros id' Hid'; by rewrite Hget, decide_False|].
  repeat (split; [done|]).
  intros Hid. unfold get_auth_me.
  assert (requireAuth (Some id) = inr id) as -> by by apply requireAuth_inr.
  cbn [db with_db]. by rewrite Hget, decide_True.
Qed.

Lemma admin_delete_removes_the_user_witness :
  getUser (db (delete_admin_users_id (srv1 "pending") env1 (Some "adm") "sec1").2)
    "sec1" = None ∧
  AuditLog.action <$>
    auditLogs
      (db (delete_admin_users_id (srv1 "pending") env1 (Some "adm") "sec1").2)
    = ["delete_user"].
Proof.
  destruct (admin_delete_removes_the_user (srv1 "pending") env1 (Some "adm")
              "sec1") as (adminId & user & _ & _ & _ & _ & Hgone & _ & Hlogs & _).
  { vm_compute. reflexivity. }
  split; [exact Hgone|]. rewrite Hlogs. reflexivity.
Defined.

(** A user to whom an alert, a chat session, a message or an audit log
    refers is not deleted: the admin is answered 500 and nothing changes. *)
Theorem referenced_user_is_not_deleted srv env adminId admin id user
    (Hne : adminId ≠ "")
    (Hadmin : getUser (db srv) adminId = Some admin)
    (Hrole : User.role admin = "admin")
    (Hother : id ≠ adminId)
    (Huser : getUser (db srv) id = Some user)
    (Href : referenced (db srv) id = true) :
  Response.status (delete_admin_users_id srv env (Some adminId) id).1 = 500 ∧
  (delete_admin_users_id srv env (Some adminId) id).2 = srv.
Proof.
  unfold delete_admin_users_id.
  assert (requireRole ["admin"] (db srv) (Some adminId) = inr admin) as ->.
  { apply requireRole_inr. exists adminId. rewrite Hrole.
    repeat split; try done. by apply includes_spec. }
  rewrite bool_decide_false by congruence.
  rewrite Huser. unfold deleteUser. rewrite Huser, Href.
  by rewrite bool_decide_true by eauto.
Qed.

Lemma referenced_user_is_not_deleted_witness :
  Response.status
    (delete_admin_users_id (srv1 "pending") env1 (Some "adm") "s1").1 = 500 ∧
  (delete_admin_users_id (srv1 "pending") env1 (Some "adm") "s1").2
    = srv1 "pending".
Proof.
  apply (referenced_user_is_not_deleted (srv1 "pending") env1 "adm" admin1 "s1"
           student1); [done|reflexivity|reflexivity|done|reflexivity|reflexivity].
Defined.

(** ** The statistics of the admin *)

Lemma count_status_sorted status (l : list Alert.t) :
  count_status status (merge_sort (desc Alert.createdAt) l)
    = count_status status l.
Proof. unfold count_status. by rewrite merge_sort_Permutation. Qed.

Lemma count_department_sorted department (l : list Alert.t) :
  count_department department (merge_sort (desc Alert.createdAt) l)
    = count_department department l.
Proof. unfold count_department. by rewrite merge_sort_Permutation. Qed.

Lemma count_status_add_up (l : list Alert.t) :
  (∀ a, a ∈ l → Alert.status a ∈ statusEnum) →
  (count_status "pending" l + count_status "acknowledged" l +
   count_status "dispatched" l + count_status "resolved" l)%nat = length l.
Proof.
  unfold count_status. induction l as [|a l IH]; intros Hall; [done|].
  rewrite !filter_cons.
  assert (Alert.status a ∈ statusEnum) as Ha by (apply Hall; left).
  specialize (IH (λ x Hx, Hall x (list_elem_of_further _ _ _ Hx))).
  unfold statusEnum in Ha.
  repeat (apply elem_of_cons in Ha as [-> | Ha]);
    [..|by apply elem_of_nil in Ha]; simpl; lia.
Qed.

Lemma count_department_add_up (l : list Alert.t) :
  (∀ a, a ∈ l → Alert.department a ∈ alertDepartmentEnum) →
  (count_department "medical" l + count_department "security" l)%nat = length l.
Proof.
  unfold count_department. induction l as [|a l IH]; intros Hall; [done|].
  rewrite !filter_cons.
  assert (Alert.department a ∈ alertDepartmentEnum) as Ha by (apply Hall; left).
  specialize (IH (λ x Hx, Hall x (list_elem_of_further _ _ _ Hx))).
  unfold alertDepartmentEnum in Ha.
  repeat (apply elem_of_cons in Ha as [-> | Ha]);
    [..|by apply elem_of_nil in Ha]; simpl; lia.
Qed.

(** [GET /api/admin/stats] answers a stored admin with the numbers of
    stored users, alerts and chat sessions; the active users and active chats
    are never more than the totals, [pendingAlerts] equals
    [alertsByStatus.pending], and when every stored alert has a status and a
    department of its enumeration the four counts by status, and the two
    counts by department, each add up to [totalAlerts]. Nothing changes. *)
Theorem admin_stats_add_up srv userId admin
    (Hne : userId ≠ "")
    (Hadmin : getUser (db srv) userId = Some admin)
    (Hrole : User.role admin = "admin") :
  ∃ stats,
    get_admin_stats srv (Some userId) = (Reply.mk 200 (PStats stats), srv) ∧
    Stats.totalUsers stats = length (users (db srv)) ∧
    Stats.totalAlerts stats = length (alerts (db srv)) ∧
    Stats.totalChats stats = length (chatSessions (db srv)) ∧
    (Stats.activeUsers stats ≤ Stats.totalUsers stats)%nat ∧
    (Stats.activeChats stats ≤ Stats.totalChats stats)%nat ∧
    Stats.pendingAlerts stats = AlertsByStatus.pending (Stats.alertsByStatus stats) ∧
    ((∀ a, a ∈ alerts (db srv) →
        Alert.status a ∈ statusEnum ∧
        Alert.department a ∈ alertDepartmentEnum) →
     (AlertsByStatus.pending (Stats.alertsByStatus stats) +
      AlertsByStatus.acknowledged (Stats.alertsByStatus stats) +
      AlertsByStatus.dispatched (Stats.alertsByStatus stats) +
      AlertsByStatus.resolved (Stats.alertsByStatus stats))%nat
       = Stats.totalAlerts stats ∧
     (AlertsByDepartment.medical (Stats.alertsByDepartment stats) +
      AlertsByDepartment.security (Stats.alertsByDepartment stats))%nat
       = Stats.totalAlerts stats).
Proof.
  unfold get_admin_stats.
  assert (requireRole ["admin"] (db srv) (Some userId) = inr admin) as ->.
  { apply requireRole_inr. exists userId. rewrite Hrole.
    repeat split; try done. by apply includes_spec. }
  eexists. split; [reflexivity|]. cbn [Stats.totalUsers Stats.totalAlerts
    Stats.totalChats Stats.activeUsers Stats.activeChats Stats.pendingAlerts
    Stats.alertsByStatus Stats.alertsByDepartment AlertsByStatus.pending
    AlertsByStatus.acknowledged AlertsByStatus.dispatched AlertsByStatus.resolved
    AlertsByDepartment.medical AlertsByDepartment.security].
  unfold getAllUsers, getAllAlerts, getAllChatSessions.
  rewrite !count_status_sorted, !count_department_sorted.
  split; [by rewrite merge_sort_Permutation|].
  split; [by rewrite merge_sort_Permutation|].
  split; [by rewrite merge_sort_Permutation|].
  split; [apply length_filter|]. split; [apply length_filter|].
  split; [done|]. intros Hc.
  rewrite (merge_sort_Permutation _ (alerts (db srv))). split.
  - apply count_status_add_up. intros a Ha. by apply (Hc a Ha).
  - apply count_department_add_up. intros a Ha. by apply (Hc a Ha).
Qed.

Lemma admin_stats_add_up_witness :
  ∃ stats,
    get_admin_stats (srv1 "dispatched") (Some "adm")
      = (Reply.mk 200 (PStats stats), srv1 "dispatched") ∧
    Stats.totalUsers stats = 4%nat ∧
    AlertsByStatus.dispatched (Stats.alertsByStatus stats) = 1%nat.
Proof.
  destruct (admin_stats_add_up (srv1 "dispatched") "adm" admin1)
    as (stats & Hr & Husers & _); [done|reflexivity..|].
  exists stats. split; [exact Hr|]. split; [exact Husers|].
  vm_compute in Hr. by injection Hr as <-.
Defined.

(** ** The registry, once more *)

(** Opening a connection and closing it again leaves the registry as it
    was, when it holds no empty set and the socket was not already registered
    for the user; the entries of the other users are never touched. *)
Theorem register_then_unregister (c : gmap string (gset nat)) userId ws
    (Hinv : no_empty_entry c)
    (Hnew : ∀ s, c !! userId = Some s → ws ∉ s) :
  unregister userId ws (register userId ws c) = c ∧
  (∀ other, other ≠ userId →
     register userId ws c !! other = c !! other ∧
     unregister userId ws c !! other = c !! other).
Proof.
  split.
  - apply map_eq. intros other.
    destruct (decide (other = userId)) as [->|Hneq].
    + rewrite unregister_lookup, register_lookup.
      destruct (c !! userId) as [s|] eqn:Hs; simpl.
      * assert ((s ∪ {[ws]}) ∖ {[ws]} = s) as ->.
        { specialize (Hnew s eq_refl). apply leibniz_equiv. intros x.
          rewrite elem_of_difference, elem_of_union, elem_of_singleton.
          split; [tauto|]. intros Hx. split; [by left|]. by intros ->. }
        rewrite bool_decide_false; [done|]. by apply (Hinv userId).
      * rewrite bool_decide_true; [done|]. apply leibniz_equiv. intros x.
        rewrite elem_of_difference, elem_of_union, elem_of_singleton.
        split; [|by intros ?%not_elem_of_empty].
        intros [[?%not_elem_of_empty | ->] Hx]; done.
    + by rewrite unregister_lookup_ne, register_lookup_ne.
  - intros other Hneq.
    by rewrite unregister_lookup_ne, register_lookup_ne.
Qed.

Lemma register_then_unregister_witness :
  unregister "m1" 9%nat (register "m1" 9%nat (clients srv_connected))
    = clients srv_connected.
Proof.
  apply (register_then_unregister (clients srv_connected) "m1" 9%nat).
  - unfold srv_connected. apply run_no_empty_entry. intros u s. simpl.
    by rewrite lookup_empty.
  - intros s. vm_compute. intros [= <-]. by_evaluation.
Defined.

(** [broadcastToAll] sends nothing but copies of the event, and a socket
    receives one exactly when it is open and in the set of some user. *)
Theorem broadcastToAll_reaches_open_sockets srv message ws :
  ∃ k : nat,
    sent (broadcastToAll message srv) ws
      = (sent srv ws ++ replicate k message)%list ∧
    (k ≠ 0%nat ↔
     readyState srv ws = OPEN ∧
     ∃ userId s, clients srv !! userId = Some s ∧ ws ∈ s).
Proof.
  unfold broadcastToAll.
  assert (readyState (map_fold
            (λ _ userClients acc, set_fold (send_if_open message) acc userClients)
            srv (clients srv)) = readyState srv ∧
          ∃ k : nat,
            sent (map_fold
              (λ _ userClients acc,
                 set_fold (send_if_open message) acc userClients)
              srv (clients srv)) ws
              = (sent srv ws ++ replicate k message)%list ∧
            (k ≠ 0%nat ↔
             readyState srv ws = OPEN ∧
             ∃ userId s, clients srv !! userId = Some s ∧ ws ∈ s)) as [_ Hk];
    [|exact Hk].
  apply (map_fold_weak_ind
           (λ r (m : gmap string (gset nat)),
              readyState r = readyState srv ∧
              ∃ k : nat,
                sent r ws = (sent srv ws ++ replicate k message)%list ∧
                (k ≠ 0%nat ↔
                 readyState srv ws = OPEN ∧
                 ∃ userId s, m !! userId = Some s ∧ ws ∈ s))).
  - split; [done|]. exists 0%nat. rewrite app_nil_r. split; [done|].
    split; [done|]. intros [_ (u & s & Hs & _)]. by rewrite lookup_empty in Hs.
  - intros i x m r Hi [Hready (k & Hsent & Hk)].
    destruct (set_fold_send message r x) as [Hready' Hsent'].
    split; [by rewrite Hready'|]. rewrite (Hsent' ws), Hready.
    case_bool_decide as Hreach.
    + exists (k + 1)%nat. split.
      { by rewrite Hsent, replicate_add, app_assoc. }
      split; [|lia]. intros _. split; [by destruct Hreach|].
      exists i, x. split; [apply lookup_insert_eq|by destruct Hreach].
    + exists k. split; [done|]. rewrite Hk. split.
      * intros [Hopen (u & s & Hs & Hin)]. split; [done|]. exists u, s.
        split; [|done]. rewrite lookup_insert_ne; [done|]. by intros ->; congruence.
      * intros [Hopen (u & s & Hs & Hin)]. split; [done|].
        destruct (decide (i = u)) as [->|Hneq].
        -- rewrite lookup_insert_eq in Hs. injection Hs as <-.
           by destruct Hreach.
        -- rewrite lookup_insert_ne in Hs by done. by exists u, s.
Qed.

(** ** The upgrade request *)


